(** * VoidBJ: a shallow embedding of the run-state engine

    The engine lives in [App.tsx] (the exported [App] component), with the
    card helpers of [utils/gameLogic.ts], the declarations of [types.ts] and
    the catalog of [constants.ts].

    Conventions of the embedding.
    - A JavaScript [number] is read as an exact number: [Z] where the program
      only ever stores integers (card values, scores, the house level) and
      [Q] where fractions occur (credits, essence, bets, upgrade magnitudes,
      corruption counters).  On the concrete inputs the theorems evaluate,
      double-precision arithmetic gives the same numbers.
    - An array is a [list] in index order; [pop] takes the last element.
    - [Math.random] is a stream [random : nat -> Q]; code that draws from it
      threads the index of the next draw (the [Rand] monad below).
    - A React handler does not change the state: it reads the values of the
      render it closes over and queues effects ([setState] updaters, timers).
      Updaters of one handler run in order, each on the result of the one
      before. *)

From Stdlib Require Import List ZArith QArith Qround String Bool Lia Lqa.
From Stdlib Require Import Permutation DecimalString.
Import ListNotations.

Set Implicit Arguments.
Set Warnings "-notation-for-abbreviation".

(* ------------------------------------------------------------------ *)
(** ** types.ts *)

Inductive Suit := hearts | diamonds | clubs | spades.

(** ['2' | ... | '10' | 'J' | 'Q' | 'K' | 'A'] *)
Inductive Rank := R2 | R3 | R4 | R5 | R6 | R7 | R8 | R9 | R10 | RJ | RQ | RK | RA.

Inductive EffectType :=
| bonus_credits | bonus_essence | shield | critical
| reduce_corruption | on_bust_essence | on_21_credits | risk_corruption.

(** The [description] (and [rarity]) fields are display text only; no engine
    code reads them and they are left out of the records. *)
Module CardUpgrade.
Record t := mk {
  id : string;
  name : string;
  cost : Q;
  effectType : EffectType;
  value : Q
}.
End CardUpgrade.
Notation CardUpgrade := CardUpgrade.t.

Module MetaUpgrade.
Record t := mk { id : string; name : string; cost : Q }.
End MetaUpgrade.
Notation MetaUpgrade := MetaUpgrade.t.

Record GlobalState := {
  fragments : Q;
  unlockedHacks : list string;
  totalRuns : Z
}.

Inductive ConsumableType := reveal_dealer | reduce_threat | guarantee_10.

Module Consumable.
Record t := mk {
  id : string;
  name : string;
  cost : Q;
  type : ConsumableType
}.
End Consumable.
Notation Consumable := Consumable.t.

Inductive PassiveType := boon | curse.

Module Passive.
Record t := mk {
  id : string;
  name : string;
  type : PassiveType;
  cost : option Q  (* [cost?: number]: boons have a cost in the shop *)
}.
End Passive.
Notation Passive := Passive.t.

Module PlayingCard.
Record t := mk {
  id : string;       (* unique id to track upgrades per specific card *)
  suit : Suit;
  rank : Rank;
  value : Z;         (* numeric blackjack value *)
  upgrades : list CardUpgrade
}.
End PlayingCard.
Notation PlayingCard := PlayingCard.t.

Inductive GamePhase :=
| betting | playing | dealer_turn | round_over | forge | game_over
| upgrade_selection.

Record GameState := {
  credits : Q;
  essence : Q;
  (* deck management *)
  playerDeck : list PlayingCard;   (* the persistent "master" deck *)
  drawPile : list PlayingCard;
  discardPile : list PlayingCard;
  (* inventory and passives *)
  inventory : list Consumable;
  activePassives : list Passive;
  (* unlocks *)
  unlockedUpgrades : list string;
  offeredUpgradeIds : list string;
  (* current hand *)
  playerHand : list PlayingCard;
  dealerHand : list PlayingCard;
  currentBet : Q;
  dealerCardRevealed : bool;
  (* progression *)
  houseLevel : Z;
  corruptionTokens : Q;
  corruptionThreshold : Q;
  (* state *)
  phase : GamePhase;
  message : string
}.

(* ------------------------------------------------------------------ *)
(** ** Decidable equalities and JavaScript operators *)

Definition Rank_eqb (a b : Rank) : bool :=
  match a, b with
  | R2, R2 | R3, R3 | R4, R4 | R5, R5 | R6, R6 | R7, R7 | R8, R8
  | R9, R9 | R10, R10 | RJ, RJ | RQ, RQ | RK, RK | RA, RA => true
  | _, _ => false
  end.

Definition EffectType_eqb (a b : EffectType) : bool :=
  match a, b with
  | bonus_credits, bonus_credits | bonus_essence, bonus_essence
  | shield, shield | critical, critical
  | reduce_corruption, reduce_corruption
  | on_bust_essence, on_bust_essence | on_21_credits, on_21_credits
  | risk_corruption, risk_corruption => true
  | _, _ => false
  end.

Definition GamePhase_eqb (a b : GamePhase) : bool :=
  match a, b with
  | betting, betting | playing, playing | dealer_turn, dealer_turn
  | round_over, round_over | forge, forge | game_over, game_over
  | upgrade_selection, upgrade_selection => true
  | _, _ => false
  end.

(** [x < y] and [x >= y] on numbers. *)
Definition Qltb (x y : Q) : bool := negb (Qle_bool y x).
Definition Qgeb (x y : Q) : bool := Qle_bool y x.

(** [Math.max(a, b)] *)
Definition Math_max (a b : Q) : Q := if Qle_bool a b then b else a.

(** [Math.floor(x)], as a number again. *)
Definition Math_floor (x : Q) : Q := inject_Z (Qfloor x).

(** [array.some(p)] is [existsb p]; [array.includes(x)] on strings: *)
Definition includes (x : string) (l : list string) : bool :=
  existsb (String.eqb x) l.

(** [array.pop()]: the last element (if any) and the array without it. *)
Definition pop {A} (l : list A) : option A * list A :=
  match rev l with
  | [] => (None, [])
  | x :: r => (Some x, rev r)
  end.

(** [array.findIndex(p)]; [None] stands for [-1]. *)
Fixpoint findIndex {A} (p : A -> bool) (l : list A) : option nat :=
  match l with
  | [] => None
  | x :: t => if p x then Some O else option_map S (findIndex p t)
  end.

(** [array.splice(k, 1)]: the array without its element of index [k]. *)
Fixpoint removeAt {A} (k : nat) (l : list A) : list A :=
  match l, k with
  | [], _ => []
  | _ :: t, O => t
  | x :: t, S k' => x :: removeAt k' t
  end.

(** [array[k] = x] for an index inside the array. *)
Fixpoint setNth {A} (k : nat) (x : A) (l : list A) : list A :=
  match l, k with
  | [], _ => []
  | _ :: t, O => x :: t
  | y :: t, S k' => y :: setNth k' x t
  end.

(** [[a[i], a[j]] = [a[j], a[i]]].  Both indices are inside the array at
    every call of the program (see [shuffleDeck]); otherwise the list is
    returned as it is. *)
Definition swap {A} (i j : nat) (l : list A) : list A :=
  match nth_error l i, nth_error l j with
  | Some a, Some b => setNth j a (setNth i b l)
  | _, _ => l
  end.

(** [const card = deck.splice(k, 1)[0]; deck.push(card)] for the first
    index [k] whose element satisfies [p]; the array unchanged if none. *)
Definition moveToEnd {A} (p : A -> bool) (deck : list A) : list A :=
  match findIndex p deck with
  | Some k =>
      match nth_error deck k with
      | Some card => removeAt k deck ++ [card]
      | None => deck
      end
  | None => deck
  end.

(** Decimal rendering of an integer inside a template string. *)
Definition showZ (z : Z) : string := NilZero.string_of_int (Z.to_int z).

(* ------------------------------------------------------------------ *)
(** ** The random source *)

(** A computation that draws from [Math.random]: from the index of the next
    draw to a result and the index after it. *)
Definition Rand (A : Type) : Type := nat -> A * nat.

Definition ret {A} (a : A) : Rand A := fun n => (a, n).

Definition bind {A B} (m : Rand A) (k : A -> Rand B) : Rand B :=
  fun n => let (a, n') := m n in k a n'.

Notation "x <- m ;; k" := (bind m (fun x => k))
  (at level 61, m at next level, right associativity).
Notation "' p <- m ;; k" := (bind m (fun p => k))
  (at level 61, p pattern, m at next level, right associativity).

(** Pipe for record updates: [s |> set_f v |> set_g w]. *)
Notation "x |> f" := (f x) (at level 59, left associativity, only parsing).

(* ------------------------------------------------------------------ *)
(** ** constants.ts *)

Open Scope string_scope.
Close Scope list_scope.
Open Scope list_scope.
Open Scope Q_scope.

Definition INITIAL_CREDITS : Q := 100.
Definition INITIAL_ESSENCE : Q := 0.
Definition CORRUPTION_THRESHOLD_BASE : Q := 8.

Definition STARTING_UPGRADE_IDS : list string :=
  ["midas_touch"; "soul_siphon"; "firewall_shard"].

Definition UPGRADES : list CardUpgrade :=
  [ CardUpgrade.mk "midas_touch" "Midas Touch" 50 bonus_credits 5;
    CardUpgrade.mk "soul_siphon" "Soul Siphon" 30 bonus_essence 2;
    CardUpgrade.mk "firewall_shard" "Firewall Shard" 75 shield 0.5;
    CardUpgrade.mk "lucky_charm" "Lucky Charm" 100 critical 0.25;
    CardUpgrade.mk "credit_cache" "Credit Cache" 120 bonus_credits 15;
    CardUpgrade.mk "essence_well" "Essence Well" 80 bonus_essence 4;
    CardUpgrade.mk "high_roller" "High Roller" 200 critical 0.50;
    CardUpgrade.mk "emergency_breaker" "Emergency Breaker" 150 shield 0.9;
    CardUpgrade.mk "cooling_fan" "Cooling Fan" 100 reduce_corruption 1;
    CardUpgrade.mk "recycler" "Recycler" 60 on_bust_essence 5;
    CardUpgrade.mk "jackpot_protocol" "Jackpot Protocol" 110 on_21_credits 50;
    CardUpgrade.mk "hybrid_chip" "Hybrid Chip" 60 bonus_credits 3;
    CardUpgrade.mk "risk_processor" "Risk Processor" 80 risk_corruption 15;
    CardUpgrade.mk "essence_converter" "Essence Converter" 70 bonus_essence 3;
    CardUpgrade.mk "parity_bit" "Parity Bit" 90 bonus_credits 10 ].

Definition CONSUMABLES : list Consumable :=
  [ Consumable.mk "data_spike" "Data Spike" 15 reveal_dealer;
    Consumable.mk "coolant" "System Coolant" 25 reduce_threat;
    Consumable.mk "override_chip" "Override Chip" 40 guarantee_10 ].

Definition PASSIVES : list Passive :=
  [ Passive.mk "auto_miner" "Auto-Miner" boon (Some 100);
    Passive.mk "vip_protocol" "VIP Protocol" boon (Some 150);
    Passive.mk "backup_battery" "Backup Battery" boon (Some 80);
    Passive.mk "memory_leak" "Memory Leak" curse None;
    Passive.mk "encryption_error" "Encryption Error" curse None;
    Passive.mk "power_surge" "Power Surge" curse None ].

(* ------------------------------------------------------------------ *)
(** ** utils/gameLogic.ts *)

Definition suitName (s : Suit) : string :=
  match s with
  | hearts => "hearts" | diamonds => "diamonds"
  | clubs => "clubs" | spades => "spades"
  end.

Definition rankName (r : Rank) : string :=
  match r with
  | R2 => "2" | R3 => "3" | R4 => "4" | R5 => "5" | R6 => "6" | R7 => "7"
  | R8 => "8" | R9 => "9" | R10 => "10"
  | RJ => "J" | RQ => "Q" | RK => "K" | RA => "A"
  end.

(** [let value = parseInt(rank); if (['J','Q','K'].includes(rank)) value = 10;
    if (rank === 'A') value = 11;] *)
Definition rankValue (r : Rank) : Z :=
  match r with
  | R2 => 2 | R3 => 3 | R4 => 4 | R5 => 5 | R6 => 6 | R7 => 7
  | R8 => 8 | R9 => 9 | R10 => 10
  | RJ | RQ | RK => 10
  | RA => 11
  end%Z.

Definition suits : list Suit := [hearts; diamonds; clubs; spades].
Definition ranks : list Rank :=
  [R2; R3; R4; R5; R6; R7; R8; R9; R10; RJ; RQ; RK; RA].

(** [calculateHandScore]: the [forEach] accumulates [score] and [aces]. *)
Definition handTotals (hand : list PlayingCard) : Z * nat :=
  fold_left
    (fun (acc : Z * nat) (card : PlayingCard) =>
       let (score, aces) := acc in
       ((score + PlayingCard.value card)%Z,
        if Rank_eqb (PlayingCard.rank card) RA then S aces else aces))
    hand (0%Z, O).

(** [while (score > 21 && aces > 0) { score -= 10; aces -= 1; }] *)
Fixpoint softenAces (score : Z) (aces : nat) : Z :=
  match aces with
  | O => score
  | S aces' =>
      if (21 <? score)%Z then softenAces (score - 10)%Z aces' else score
  end.

Definition calculateHandScore (hand : list PlayingCard) : Z :=
  let (score, aces) := handTotals hand in
  softenAces score aces.

Definition moveHighValueCardToTop (deck : list PlayingCard)
  : list PlayingCard :=
  moveToEnd (fun c => (PlayingCard.value c =? 10)%Z) deck.

Section RandomSource.

(** The [n]-th value returned by [Math.random()]. *)
Variable random : nat -> Q.

(** [x.toString(36)] of a number, a built-in of the language. *)
Variable toString36 : Q -> string.

Definition Math_random : Rand Q := fun n => (random n, S n).

(** [`${rank}-${suit}-${Math.random().toString(36).substr(2, 9)}`] *)
Definition newCard (s : Suit) (r : Rank) : Rand PlayingCard :=
  x <- Math_random ;;
  ret (PlayingCard.mk
         (rankName r ++ "-" ++ suitName s ++ "-"
            ++ substring 2 9 (toString36 x))%string
         s r (rankValue r) []).

Fixpoint createRanks (s : Suit) (rs : list Rank) (deck : list PlayingCard)
  : Rand (list PlayingCard) :=
  match rs with
  | [] => ret deck
  | r :: rs' => c <- newCard s r ;; createRanks s rs' (deck ++ [c])
  end.

Fixpoint createSuits (ss : list Suit) (deck : list PlayingCard)
  : Rand (list PlayingCard) :=
  match ss with
  | [] => ret deck
  | s :: ss' => d <- createRanks s ranks deck ;; createSuits ss' d
  end.

Definition createDeck : Rand (list PlayingCard) := createSuits suits [].

(** [for (let i = newDeck.length - 1; i > 0; i--) {
      const j = Math.floor(Math.random() * (i + 1)); swap i j }].
    With [Math.random()] in [[0, 1)], [0 <= j <= i < length]. *)
Fixpoint shuffleLoop (i : nat) (newDeck : list PlayingCard)
  : Rand (list PlayingCard) :=
  match i with
  | O => ret newDeck
  | S i' =>
      x <- Math_random ;;
      let j := Z.to_nat (Qfloor (x * inject_Z (Z.of_nat i + 1))) in
      shuffleLoop i' (swap i j newDeck)
  end.

Definition shuffleDeck (deck : list PlayingCard) : Rand (list PlayingCard) :=
  shuffleLoop (List.length deck - 1) deck.

End RandomSource.

(* ------------------------------------------------------------------ *)
(** ** Object spread: [{ ...s, f: v }] *)

Definition set_credits (v : Q) (s : GameState) : GameState :=
  {| credits := v; essence := essence s; playerDeck := playerDeck s;
     drawPile := drawPile s; discardPile := discardPile s; inventory :=
     inventory s; activePassives := activePassives s; unlockedUpgrades :=
     unlockedUpgrades s; offeredUpgradeIds := offeredUpgradeIds s;
     playerHand := playerHand s; dealerHand := dealerHand s; currentBet :=
     currentBet s; dealerCardRevealed := dealerCardRevealed s; houseLevel :=
     houseLevel s; corruptionTokens := corruptionTokens s;
     corruptionThreshold := corruptionThreshold s; phase := phase s; message
     := message s |}.

Definition set_essence (v : Q) (s : GameState) : GameState :=
  {| credits := credits s; essence := v; playerDeck := playerDeck s;
     drawPile := drawPile s; discardPile := discardPile s; inventory :=
     inventory s; activePassives := activePassives s; unlockedUpgrades :=
     unlockedUpgrades s; offeredUpgradeIds := offeredUpgradeIds s;
     playerHand := playerHand s; dealerHand := dealerHand s; currentBet :=
     currentBet s; dealerCardRevealed := dealerCardRevealed s; houseLevel :=
     houseLevel s; corruptionTokens := corruptionTokens s;
     corruptionThreshold := corruptionThreshold s; phase := phase s; message
     := message s |}.

Definition set_playerDeck (v : list PlayingCard) (s : GameState) : GameState :=
  {| credits := credits s; essence := essence s; playerDeck := v; drawPile
     := drawPile s; discardPile := discardPile s; inventory := inventory s;
     activePassives := activePassives s; unlockedUpgrades :=
     unlockedUpgrades s; offeredUpgradeIds := offeredUpgradeIds s;
     playerHand := playerHand s; dealerHand := dealerHand s; currentBet :=
     currentBet s; dealerCardRevealed := dealerCardRevealed s; houseLevel :=
     houseLevel s; corruptionTokens := corruptionTokens s;
     corruptionThreshold := corruptionThreshold s; phase := phase s; message
     := message s |}.

Definition set_drawPile (v : list PlayingCard) (s : GameState) : GameState :=
  {| credits := credits s; essence := essence s; playerDeck := playerDeck s;
     drawPile := v; discardPile := discardPile s; inventory := inventory s;
     activePassives := activePassives s; unlockedUpgrades :=
     unlockedUpgrades s; offeredUpgradeIds := offeredUpgradeIds s;
     playerHand := playerHand s; dealerHand := dealerHand s; currentBet :=
     currentBet s; dealerCardRevealed := dealerCardRevealed s; houseLevel :=
     houseLevel s; corruptionTokens := corruptionTokens s;
     corruptionThreshold := corruptionThreshold s; phase := phase s; message
     := message s |}.

Definition set_discardPile (v : list PlayingCard) (s : GameState) : GameState :=
  {| credits := credits s; essence := essence s; playerDeck := playerDeck s;
     drawPile := drawPile s; discardPile := v; inventory := inventory s;
     activePassives := activePassives s; unlockedUpgrades :=
     unlockedUpgrades s; offeredUpgradeIds := offeredUpgradeIds s;
     playerHand := playerHand s; dealerHand := dealerHand s; currentBet :=
     currentBet s; dealerCardRevealed := dealerCardRevealed s; houseLevel :=
     houseLevel s; corruptionTokens := corruptionTokens s;
     corruptionThreshold := corruptionThreshold s; phase := phase s; message
     := message s |}.

Definition set_inventory (v : list Consumable) (s : GameState) : GameState :=
  {| credits := credits s; essence := essence s; playerDeck := playerDeck s;
     drawPile := drawPile s; discardPile := discardPile s; inventory := v;
     activePassives := activePassives s; unlockedUpgrades :=
     unlockedUpgrades s; offeredUpgradeIds := offeredUpgradeIds s;
     playerHand := playerHand s; dealerHand := dealerHand s; currentBet :=
     currentBet s; dealerCardRevealed := dealerCardRevealed s; houseLevel :=
     houseLevel s; corruptionTokens := corruptionTokens s;
     corruptionThreshold := corruptionThreshold s; phase := phase s; message
     := message s |}.

Definition set_activePassives (v : list Passive) (s : GameState) : GameState :=
  {| credits := credits s; essence := essence s; playerDeck := playerDeck s;
     drawPile := drawPile s; discardPile := discardPile s; inventory :=
     inventory s; activePassives := v; unlockedUpgrades := unlockedUpgrades
     s; offeredUpgradeIds := offeredUpgradeIds s; playerHand := playerHand
     s; dealerHand := dealerHand s; currentBet := currentBet s;
     dealerCardRevealed := dealerCardRevealed s; houseLevel := houseLevel s;
     corruptionTokens := corruptionTokens s; corruptionThreshold :=
     corruptionThreshold s; phase := phase s; message := message s |}.

Definition set_unlockedUpgrades (v : list string) (s : GameState) : GameState :=
  {| credits := credits s; essence := essence s; playerDeck := playerDeck s;
     drawPile := drawPile s; discardPile := discardPile s; inventory :=
     inventory s; activePassives := activePassives s; unlockedUpgrades := v;
     offeredUpgradeIds := offeredUpgradeIds s; playerHand := playerHand s;
     dealerHand := dealerHand s; currentBet := currentBet s;
     dealerCardRevealed := dealerCardRevealed s; houseLevel := houseLevel s;
     corruptionTokens := corruptionTokens s; corruptionThreshold :=
     corruptionThreshold s; phase := phase s; message := message s |}.

Definition set_offeredUpgradeIds (v : list string) (s : GameState) : GameState :=
  {| credits := credits s; essence := essence s; playerDeck := playerDeck s;
     drawPile := drawPile s; discardPile := discardPile s; inventory :=
     inventory s; activePassives := activePassives s; unlockedUpgrades :=
     unlockedUpgrades s; offeredUpgradeIds := v; playerHand := playerHand s;
     dealerHand := dealerHand s; currentBet := currentBet s;
     dealerCardRevealed := dealerCardRevealed s; houseLevel := houseLevel s;
     corruptionTokens := corruptionTokens s; corruptionThreshold :=
     corruptionThreshold s; phase := phase s; message := message s |}.

Definition set_playerHand (v : list PlayingCard) (s : GameState) : GameState :=
  {| credits := credits s; essence := essence s; playerDeck := playerDeck s;
     drawPile := drawPile s; discardPile := discardPile s; inventory :=
     inventory s; activePassives := activePassives s; unlockedUpgrades :=
     unlockedUpgrades s; offeredUpgradeIds := offeredUpgradeIds s;
     playerHand := v; dealerHand := dealerHand s; currentBet := currentBet
     s; dealerCardRevealed := dealerCardRevealed s; houseLevel := houseLevel
     s; corruptionTokens := corruptionTokens s; corruptionThreshold :=
     corruptionThreshold s; phase := phase s; message := message s |}.

Definition set_dealerHand (v : list PlayingCard) (s : GameState) : GameState :=
  {| credits := credits s; essence := essence s; playerDeck := playerDeck s;
     drawPile := drawPile s; discardPile := discardPile s; inventory :=
     inventory s; activePassives := activePassives s; unlockedUpgrades :=
     unlockedUpgrades s; offeredUpgradeIds := offeredUpgradeIds s;
     playerHand := playerHand s; dealerHand := v; currentBet := currentBet
     s; dealerCardRevealed := dealerCardRevealed s; houseLevel := houseLevel
     s; corruptionTokens := corruptionTokens s; corruptionThreshold :=
     corruptionThreshold s; phase := phase s; message := message s |}.

Definition set_currentBet (v : Q) (s : GameState) : GameState :=
  {| credits := credits s; essence := essence s; playerDeck := playerDeck s;
     drawPile := drawPile s; discardPile := discardPile s; inventory :=
     inventory s; activePassives := activePassives s; unlockedUpgrades :=
     unlockedUpgrades s; offeredUpgradeIds := offeredUpgradeIds s;
     playerHand := playerHand s; dealerHand := dealerHand s; currentBet :=
     v; dealerCardRevealed := dealerCardRevealed s; houseLevel := houseLevel
     s; corruptionTokens := corruptionTokens s; corruptionThreshold :=
     corruptionThreshold s; phase := phase s; message := message s |}.

Definition set_dealerCardRevealed (v : bool) (s : GameState) : GameState :=
  {| credits := credits s; essence := essence s; playerDeck := playerDeck s;
     drawPile := drawPile s; discardPile := discardPile s; inventory :=
     inventory s; activePassives := activePassives s; unlockedUpgrades :=
     unlockedUpgrades s; offeredUpgradeIds := offeredUpgradeIds s;
     playerHand := playerHand s; dealerHand := dealerHand s; currentBet :=
     currentBet s; dealerCardRevealed := v; houseLevel := houseLevel s;
     corruptionTokens := corruptionTokens s; corruptionThreshold :=
     corruptionThreshold s; phase := phase s; message := message s |}.

Definition set_houseLevel (v : Z) (s : GameState) : GameState :=
  {| credits := credits s; essence := essence s; playerDeck := playerDeck s;
     drawPile := drawPile s; discardPile := discardPile s; inventory :=
     inventory s; activePassives := activePassives s; unlockedUpgrades :=
     unlockedUpgrades s; offeredUpgradeIds := offeredUpgradeIds s;
     playerHand := playerHand s; dealerHand := dealerHand s; currentBet :=
     currentBet s; dealerCardRevealed := dealerCardRevealed s; houseLevel :=
     v; corruptionTokens := corruptionTokens s; corruptionThreshold :=
     corruptionThreshold s; phase := phase s; message := message s |}.

Definition set_corruptionTokens (v : Q) (s : GameState) : GameState :=
  {| credits := credits s; essence := essence s; playerDeck := playerDeck s;
     drawPile := drawPile s; discardPile := discardPile s; inventory :=
     inventory s; activePassives := activePassives s; unlockedUpgrades :=
     unlockedUpgrades s; offeredUpgradeIds := offeredUpgradeIds s;
     playerHand := playerHand s; dealerHand := dealerHand s; currentBet :=
     currentBet s; dealerCardRevealed := dealerCardRevealed s; houseLevel :=
     houseLevel s; corruptionTokens := v; corruptionThreshold :=
     corruptionThreshold s; phase := phase s; message := message s |}.

Definition set_corruptionThreshold (v : Q) (s : GameState) : GameState :=
  {| credits := credits s; essence := essence s; playerDeck := playerDeck s;
     drawPile := drawPile s; discardPile := discardPile s; inventory :=
     inventory s; activePassives := activePassives s; unlockedUpgrades :=
     unlockedUpgrades s; offeredUpgradeIds := offeredUpgradeIds s;
     playerHand := playerHand s; dealerHand := dealerHand s; currentBet :=
     currentBet s; dealerCardRevealed := dealerCardRevealed s; houseLevel :=
     houseLevel s; corruptionTokens := corruptionTokens s;
     corruptionThreshold := v; phase := phase s; message := message s |}.

Definition set_phase (v : GamePhase) (s : GameState) : GameState :=
  {| credits := credits s; essence := essence s; playerDeck := playerDeck s;
     drawPile := drawPile s; discardPile := discardPile s; inventory :=
     inventory s; activePassives := activePassives s; unlockedUpgrades :=
     unlockedUpgrades s; offeredUpgradeIds := offeredUpgradeIds s;
     playerHand := playerHand s; dealerHand := dealerHand s; currentBet :=
     currentBet s; dealerCardRevealed := dealerCardRevealed s; houseLevel :=
     houseLevel s; corruptionTokens := corruptionTokens s;
     corruptionThreshold := corruptionThreshold s; phase := v; message :=
     message s |}.

Definition set_message (v : string) (s : GameState) : GameState :=
  {| credits := credits s; essence := essence s; playerDeck := playerDeck s;
     drawPile := drawPile s; discardPile := discardPile s; inventory :=
     inventory s; activePassives := activePassives s; unlockedUpgrades :=
     unlockedUpgrades s; offeredUpgradeIds := offeredUpgradeIds s;
     playerHand := playerHand s; dealerHand := dealerHand s; currentBet :=
     currentBet s; dealerCardRevealed := dealerCardRevealed s; houseLevel :=
     houseLevel s; corruptionTokens := corruptionTokens s;
     corruptionThreshold := corruptionThreshold s; phase := phase s; message
     := v |}.

(* ------------------------------------------------------------------ *)
(** ** React effects *)

(** What a [setTimeout] of the program runs later.  [resolveRound] is the
    function of the render that scheduled it, so it carries that render's
    [state]. *)
Inductive Timer :=
| ResolveRound (state : GameState) (pHand dHand : list PlayingCard)
               (bet : Q) (busted : bool)
| Stand.

(** [setStateIssuing u issued] is a [setState] whose updater, besides
    returning [u prev], hands the updaters of [issued prev] to
    [setGlobalState] while it runs on [prev]. *)
Inductive Effect :=
| setState (u : GameState -> GameState)
| setStateIssuing (u : GameState -> GameState)
                  (issued : GameState -> list (GlobalState -> GlobalState))
| setBetAmount (u : Q -> Q)
| setSelectedCardId (v : option string)
| setGlobalState (u : GlobalState -> GlobalState)
| setTimeout (t : Timer) (ms : nat).

(** The state after the queued updaters of a handler: they run in the order
    they were queued, each on the result of the previous one. *)
Fixpoint applyEffects (effs : list Effect) (s : GameState) : GameState :=
  match effs with
  | [] => s
  | setState u :: rest => applyEffects rest (u s)
  | setStateIssuing u _ :: rest => applyEffects rest (u s)
  | _ :: rest => applyEffects rest s
  end.

Fixpoint timersOf (effs : list Effect) : list Timer :=
  match effs with
  | [] => []
  | setTimeout t _ :: rest => t :: timersOf rest
  | _ :: rest => timersOf rest
  end.

(* ------------------------------------------------------------------ *)
(** ** App.tsx: helpers *)

Definition hasHack (globalState : GlobalState) (id : string) : bool :=
  includes id (unlockedHacks globalState).

Definition hasPassive (state : GameState) (id : string) : bool :=
  existsb (fun p => String.eqb (Passive.id p) id) (activePassives state).

Definition isBossLevel (state : GameState) : bool :=
  ((0 <? houseLevel state) && (houseLevel state mod 5 =? 0))%Z.

Record Draw := {
  card : option PlayingCard;
  newDraw : list PlayingCard;
  newDiscard : list PlayingCard
}.

Record CardEffects := {
  essenceDelta : Q;
  creditDelta : Q;
  corruptionDelta : Q
}.

(** One pass of the [card.upgrades.forEach] body of [processCardEffects]. *)
Definition upgradeEffect (acc : CardEffects) (upg : CardUpgrade) : CardEffects :=
  let essenceGain := essenceDelta acc in
  let creditGain := creditDelta acc in
  let corruptionChange := corruptionDelta acc in
  let essenceGain :=
    if EffectType_eqb (CardUpgrade.effectType upg) bonus_essence
    then essenceGain + CardUpgrade.value upg else essenceGain in
  let creditGain :=
    if EffectType_eqb (CardUpgrade.effectType upg) bonus_credits
    then creditGain + CardUpgrade.value upg else creditGain in
  let corruptionChange :=
    if EffectType_eqb (CardUpgrade.effectType upg) reduce_corruption
    then corruptionChange - CardUpgrade.value upg else corruptionChange in
  let creditGain :=
    if EffectType_eqb (CardUpgrade.effectType upg) risk_corruption
    then creditGain + CardUpgrade.value upg else creditGain in
  let corruptionChange :=
    if EffectType_eqb (CardUpgrade.effectType upg) risk_corruption
    then corruptionChange + 1 else corruptionChange in
  let essenceGain :=
    if String.eqb (CardUpgrade.id upg) "hybrid_chip"
    then essenceGain + 1 else essenceGain in
  let creditGain :=
    if String.eqb (CardUpgrade.id upg) "essence_converter"
    then creditGain - 5 else creditGain in
  {| essenceDelta := essenceGain; creditDelta := creditGain;
     corruptionDelta := corruptionChange |}.

(** [processCardEffects(card, ...)]; its three other arguments are unused.
    The house level is read from the [state] of the render. *)
Definition processCardEffects (state : GameState) (card : PlayingCard)
  : CardEffects :=
  let essenceGain := if (houseLevel state =? 3)%Z then 0 else 1 in
  fold_left upgradeEffect (PlayingCard.upgrades card)
    {| essenceDelta := essenceGain; creditDelta := 0; corruptionDelta := 0 |}.

(** [{ ...c, upgrades: [...(c.upgrades || []), upgrade] }] *)
Definition addUpgrade (upgrade : CardUpgrade) (c : PlayingCard) : PlayingCard :=
  PlayingCard.mk (PlayingCard.id c) (PlayingCard.suit c) (PlayingCard.rank c)
    (PlayingCard.value c) (PlayingCard.upgrades c ++ [upgrade]).

(** [if (p.card) { playerHand.push(p.card); const eff = processCardEffects(...);
    total... += eff...; }] of [placeBet]. *)
Definition dealToPlayer (state : GameState) (p : Draw)
    (acc : list PlayingCard * CardEffects) : list PlayingCard * CardEffects :=
  let (playerHand, total) := acc in
  match card p with
  | Some c =>
      let eff := processCardEffects state c in
      (playerHand ++ [c],
       {| essenceDelta := essenceDelta total + essenceDelta eff;
          creditDelta := creditDelta total + creditDelta eff;
          corruptionDelta := corruptionDelta total + corruptionDelta eff |})
  | None => acc
  end.

(** [dealerHand.push(dealerDeck.pop()!)].  The dealer deck is a full deck
    of 52 cards here, so [pop] always yields a card. *)
Definition dealToDealer (acc : list PlayingCard * list PlayingCard)
  : list PlayingCard * list PlayingCard :=
  let (dealerHand, dealerDeck) := acc in
  match pop dealerDeck with
  | (Some c, rest) => (dealerHand ++ [c], rest)
  | (None, rest) => (dealerHand, rest)
  end.

Section Engine.

Variable random : nat -> Q.
Variable toString36 : Q -> string.

(** [array.sort(cmp)] with a comparator that draws from [Math.random]: the
    algorithm is the JavaScript engine's. *)
Variable Array_sort :
  (CardUpgrade -> CardUpgrade -> Rand Q) -> list CardUpgrade
  -> Rand (list CardUpgrade).

Let Math_random := Math_random random.
Let createDeck := createDeck random toString36.
Let shuffleDeck := shuffleDeck random.

Definition startRun (globalState : GlobalState) : Rand (list Effect) :=
  let startCredits :=
    if hasHack globalState "cache_injection"
    then INITIAL_CREDITS + 25 else INITIAL_CREDITS in
  let startEssence :=
    if hasHack globalState "essence_leak"
    then INITIAL_ESSENCE + 10 else INITIAL_ESSENCE in
  let startThreshold :=
    if hasHack globalState "threat_dampener"
    then CORRUPTION_THRESHOLD_BASE + 2 else CORRUPTION_THRESHOLD_BASE in
  let startInventory :=
    if hasHack globalState "firewall_bypass" then
      match find (fun c => String.eqb (Consumable.id c) "data_spike")
              CONSUMABLES with
      | Some spike => [spike]
      | None => []
      end
    else [] in
  deck <- createDeck ;;
  freshDeck <- shuffleDeck deck ;;
  pile <- shuffleDeck freshDeck ;;
  ret [ setState (fun _ =>
          {| credits := startCredits;
             essence := startEssence;
             playerDeck := freshDeck;
             drawPile := pile;
             discardPile := [];
             inventory := startInventory;
             activePassives := [];
             unlockedUpgrades := STARTING_UPGRADE_IDS;
             offeredUpgradeIds := [];
             playerHand := [];
             dealerHand := [];
             currentBet := 0;
             dealerCardRevealed := false;
             houseLevel := 1;
             corruptionTokens := 0;
             corruptionThreshold := startThreshold;
             phase := betting;
             message := "System initialized. Place your bet." |});
        setBetAmount (fun _ => 10);
        setGlobalState (fun prev =>
          {| fragments := fragments prev;
             unlockedHacks := unlockedHacks prev;
             totalRuns := (totalRuns prev + 1)%Z |}) ].

Definition drawCard (currentDrawPile currentDiscardPile : list PlayingCard)
  : Rand Draw :=
  piles <-
    (if (List.length currentDrawPile =? 0)%nat
     then d <- shuffleDeck currentDiscardPile ;; ret (d, [])
     else ret (currentDrawPile, currentDiscardPile)) ;;
  let (c, rest) := pop (fst piles) in
  ret {| card := c; newDraw := rest; newDiscard := snd piles |}.

Definition placeBet (state : GameState) (betAmount : Q)
  : Rand (list Effect) :=
  if Qltb (credits state) betAmount then
    ret [ setState (fun s => s |> set_message "Not enough credits.") ]
  else
    let extraEssence := if hasPassive state "auto_miner" then 1 else 0 in
    let backupEssence :=
      if Qeq_bool (essence state) 0 && hasPassive state "backup_battery"
      then 5 else 0 in
    let start :=
      ([], {| essenceDelta := extraEssence + backupEssence;
              creditDelta := 0; corruptionDelta := 0 |}) in
    p1 <- drawCard (drawPile state) (discardPile state) ;;
    let acc1 := dealToPlayer state p1 start in
    let isBoss := isBossLevel state in
    deck <- createDeck ;;
    dealerDeck <- shuffleDeck deck ;;
    let dealerDeck :=
      if isBoss
      then moveToEnd (fun c => Rank_eqb (PlayingCard.rank c) RK) dealerDeck
      else dealerDeck in
    let dealer1 := dealToDealer ([], dealerDeck) in
    p2 <- drawCard (newDraw p1) (newDiscard p1) ;;
    let (playerHand, total) := dealToPlayer state p2 acc1 in
    let (dealerHand, _) := dealToDealer dealer1 in
    let pScore := calculateHandScore playerHand in
    let msg :=
      if isBoss then "BOSS PROTOCOL ACTIVE: THE ARCHITECT"
      else "Hit or Stand?" in
    let nextPhase := if (pScore =? 21)%Z then dealer_turn else playing in
    ret [ setState (fun prev =>
            prev
            |> set_credits (credits prev - betAmount + creditDelta total)
            |> set_essence (essence prev + essenceDelta total)
            |> set_corruptionTokens
                 (Math_max 0 (corruptionTokens prev + corruptionDelta total))
            |> set_currentBet betAmount
            |> set_dealerCardRevealed false
            |> set_playerHand playerHand
            |> set_dealerHand dealerHand
            |> set_drawPile (newDraw p2)
            |> set_discardPile (newDiscard p2)
            |> set_phase nextPhase
            |> set_message msg) ].

(** [setState(newState)] with [newState] built from the render's [state]. *)
Definition useConsumable (state : GameState) (index : nat) : list Effect :=
  match nth_error (inventory state) index with
  | None => []
  | Some item =>
      let newState :=
        match Consumable.type item with
        | reveal_dealer =>
            state |> set_dealerCardRevealed true
                  |> set_message ("Used " ++ Consumable.name item ++ ".")%string
        | reduce_threat =>
            state |> set_corruptionTokens
                       (Math_max 0 (corruptionTokens state - 2))
                  |> set_message "Threat level reduced."
        | guarantee_10 =>
            state |> set_drawPile (moveHighValueCardToTop (drawPile state))
                  |> set_message "Next card override active."
        end in
      [ setState (fun _ =>
          newState |> set_inventory (removeAt index (inventory state))) ]
  end.

Definition hit (state : GameState) : Rand (list Effect) :=
  draw <- drawCard (drawPile state) (discardPile state) ;;
  match card draw with
  | None => ret []
  | Some newCard =>
      let newHand := playerHand state ++ [newCard] in
      let effects := processCardEffects state newCard in
      let hitCost := if hasPassive state "memory_leak" then 1 else 0 in
      let score := calculateHandScore newHand in
      let bust := (21 <? score)%Z in
      let nextPhase := if bust then round_over else phase state in
      let msg := if bust then "Bust!" else message state in
      let timers :=
        if bust then
          [ setTimeout
              (ResolveRound state newHand (dealerHand state)
                 (currentBet state) true) 500 ]
        else if (score =? 21)%Z then [ setTimeout Stand 500 ]
        else [] in
      ret (timers ++
           [ setState (fun prev =>
               prev
               |> set_playerHand newHand
               |> set_drawPile (newDraw draw)
               |> set_discardPile (newDiscard draw)
               |> set_essence (essence prev + essenceDelta effects)
               |> set_credits (credits prev + creditDelta effects - hitCost)
               |> set_corruptionTokens
                    (Math_max 0
                       (corruptionTokens prev + corruptionDelta effects))
               |> set_phase nextPhase
               |> set_message msg) ])
  end.

Definition stand : list Effect :=
  [ setState (fun prev =>
      prev |> set_phase dealer_turn |> set_message "Dealer's turn...") ].

(* -------------------------------------------------------------- *)
(** *** resolveRound *)

(** [extraEssence] and [extraCredits], from the first [pHand.forEach]. *)
Definition hookUpgrade (busted : bool) (pScore : Z) (acc : Q * Q)
    (u : CardUpgrade) : Q * Q :=
  let (extraEssence, extraCredits) := acc in
  (if busted && EffectType_eqb (CardUpgrade.effectType u) on_bust_essence
   then extraEssence + CardUpgrade.value u else extraEssence,
   if (pScore =? 21)%Z
      && EffectType_eqb (CardUpgrade.effectType u) on_21_credits
   then extraCredits + CardUpgrade.value u else extraCredits).

Definition hooks (busted : bool) (pScore : Z) (pHand : list PlayingCard)
  : Q * Q :=
  fold_left
    (fun acc c => fold_left (hookUpgrade busted pScore)
                    (PlayingCard.upgrades c) acc)
    pHand (0, 0).

(** [if (u.effectType === 'shield' && Math.random() < u.value)
      shieldTriggered = true;] over the upgrades of one card: a draw is
    made for every shield upgrade and for no other. *)
Fixpoint shieldUpgrades (us : list CardUpgrade) (shieldTriggered : bool)
  : Rand bool :=
  match us with
  | [] => ret shieldTriggered
  | u :: rest =>
      if EffectType_eqb (CardUpgrade.effectType u) shield then
        x <- Math_random ;;
        shieldUpgrades rest
          (if Qltb x (CardUpgrade.value u) then true else shieldTriggered)
      else shieldUpgrades rest shieldTriggered
  end.

Fixpoint shieldCards (pHand : list PlayingCard) (shieldTriggered : bool)
  : Rand bool :=
  match pHand with
  | [] => ret shieldTriggered
  | c :: rest =>
      t <- shieldUpgrades (PlayingCard.upgrades c) shieldTriggered ;;
      shieldCards rest t
  end.

Record Verdict := {
  win : bool;
  payout : Q;
  essenceBonus : Q;
  msg : string
}.

(** The [if (busted) ... else if ... else ...] chain. *)
Definition adjudicate (state : GameState) (pHand dHand : list PlayingCard)
    (bet : Q) (busted : bool) : Rand Verdict :=
  let pScore := calculateHandScore pHand in
  let dScore := calculateHandScore dHand in
  let pBlackjack := (List.length pHand =? 2)%nat && (pScore =? 21)%Z in
  let dBlackjack := (List.length dHand =? 2)%nat && (dScore =? 21)%Z in
  let isBoss := isBossLevel state in
  if busted then
    shieldTriggered <- shieldCards pHand false ;;
    ret (if shieldTriggered
         then {| win := false; payout := bet * 0.5; essenceBonus := 0;
                 msg := "FAILURE MITIGATED [SHIELD]." |}
         else {| win := false; payout := 0; essenceBonus := 0;
                 msg := "Busted! House wins." |})
  else ret (
    if (21 <? dScore)%Z then
      {| win := true; payout := bet * 2; essenceBonus := 0;
         msg := "Dealer busts! You win!" |}
    else if pBlackjack then
      if dBlackjack then
        {| win := false; payout := bet; essenceBonus := 0; msg := "Push." |}
      else
        {| win := true; payout := bet + bet * 1.5; essenceBonus := 0 + 25;
           msg := "Blackjack! (3:2 Payout)" |}
    else if dBlackjack then
      {| win := false; payout := 0; essenceBonus := 0;
         msg := "Dealer has Blackjack. House wins." |}
    else if (dScore <? pScore)%Z then
      {| win := true; payout := bet * 2; essenceBonus := 0 + 10;
         msg := "You win!" |}
    else if (pScore =? dScore)%Z then
      if (7 <=? houseLevel state)%Z || isBoss then
        {| win := false; payout := 0; essenceBonus := 0;
           msg := if isBoss then "Boss wins Ties."
                  else "Tie! House wins due to corruption." |}
      else if (houseLevel state <=? 2)%Z then
        {| win := true; payout := bet * 2; essenceBonus := 0;
           msg := "Tie! System yields to user." |}
      else
        {| win := false; payout := bet; essenceBonus := 0; msg := "Push." |}
    else
      {| win := false; payout := 0; essenceBonus := 0;
         msg := "House wins." |}).

(** [let multi = 1; pHand.forEach(c => c.upgrades?.forEach(u =>
      { if (u.effectType === 'critical') multi += u.value; }));] *)
Definition criticalMulti (pHand : list PlayingCard) : Q :=
  fold_left
    (fun multi c =>
       fold_left
         (fun multi u =>
            if EffectType_eqb (CardUpgrade.effectType u) critical
            then multi + CardUpgrade.value u else multi)
         (PlayingCard.upgrades c) multi)
    pHand 1.

(** The [if (win) { ... payout = bet + (profit * multi); }] block. *)
Definition applyMultiplier (state : GameState) (pHand : list PlayingCard)
    (bet : Q) (v : Verdict) : Q :=
  if win v then
    let multi := criticalMulti pHand in
    let multi := if hasPassive state "vip_protocol" then multi + 0.1
                 else multi in
    let profit := payout v - bet in
    bet + profit * multi
  else payout v.

Record Progress := {
  newCorruption : Q;
  newHouseLevel : Z;
  newThreshold : Q;
  newPassives : list Passive;
  nextPhase : GamePhase;
  newOfferedUpgrades : list string;
  finalMsg : string
}.

Definition PassiveType_eqb (a b : PassiveType) : bool :=
  match a, b with
  | boon, boon | curse, curse => true
  | _, _ => false
  end.

(** The second [if (win) { newCorruption += 1; ... }] block. *)
Definition progression (state : GameState) (v : Verdict) : Rand Progress :=
  let start :=
    {| newCorruption := corruptionTokens state;
       newHouseLevel := houseLevel state;
       newThreshold := corruptionThreshold state;
       newPassives := activePassives state;
       nextPhase := round_over;
       newOfferedUpgrades := [];
       finalMsg := msg v |} in
  if win v then
    let newCorruption := corruptionTokens state + 1 in
    if Qgeb newCorruption (corruptionThreshold state) then
      let newHouseLevel := (houseLevel state + 1)%Z in
      let newThreshold := corruptionThreshold state + 2 in
      let msg := (msg v ++ " The House grows stronger!")%string in
      let locked :=
        filter (fun u => negb (includes (CardUpgrade.id u)
                                 (unlockedUpgrades state))) UPGRADES in
      offer <-
        (if (0 <? List.length locked)%nat then
           shuffled <- Array_sort
                         (fun _ _ => x <- Math_random ;; ret (0.5 - x))
                         locked ;;
           ret (map CardUpgrade.id (firstn 3 shuffled), upgrade_selection)
         else ret ([], round_over)) ;;
      glitch <-
        (if ((5 <? newHouseLevel) && (newHouseLevel mod 2 =? 0))%Z then
           let curses :=
             filter (fun p =>
                       PassiveType_eqb (Passive.type p) curse
                       && negb (existsb
                                  (fun ap => String.eqb (Passive.id ap)
                                               (Passive.id p))
                                  (activePassives state)))
               PASSIVES in
           if (0 <? List.length curses)%nat then
             x <- Math_random ;;
             match nth_error curses
                     (Z.to_nat
                        (Qfloor (x * inject_Z
                                       (Z.of_nat (List.length curses)))))
             with
             | Some randomCurse =>
                 ret (activePassives state ++ [randomCurse],
                      (msg ++ " SYSTEM GLITCH: "
                           ++ Passive.name randomCurse ++ " DETECTED.")%string)
             | None => ret (activePassives state, msg)
             end
           else ret (activePassives state, msg)
         else ret (activePassives state, msg)) ;;
      ret {| newCorruption := 0;
             newHouseLevel := newHouseLevel;
             newThreshold := newThreshold;
             newPassives := fst glitch;
             nextPhase := snd offer;
             newOfferedUpgrades := fst offer;
             finalMsg := snd glitch |}
    else
      ret {| newCorruption := newCorruption;
             newHouseLevel := houseLevel state;
             newThreshold := corruptionThreshold state;
             newPassives := activePassives state;
             nextPhase := round_over;
             newOfferedUpgrades := [];
             finalMsg := msg v |}
  else ret start.

(** The updater passed to [setState] at the end of [resolveRound]. *)
Definition resolveUpdate (pHand dHand : list PlayingCard)
    (payout extraCredits essenceBonus extraEssence : Q) (g : Progress)
    (prev : GameState) : GameState :=
  let currentCredits := credits prev in
  let finalCredits := currentCredits + payout + extraCredits in
  let gameOver := Qltb finalCredits 10 in
  prev
  |> set_credits finalCredits
  |> set_essence (essence prev + essenceBonus + extraEssence)
  |> set_phase (if gameOver then game_over else nextPhase g)
  |> set_message (if gameOver then "SYSTEM FAILURE: INSUFFICIENT FUNDS"
                  else finalMsg g)
  |> set_corruptionTokens (newCorruption g)
  |> set_houseLevel (newHouseLevel g)
  |> set_corruptionThreshold (newThreshold g)
  |> set_activePassives (newPassives g)
  |> set_discardPile (discardPile prev ++ pHand ++ dHand)
  |> set_offeredUpgradeIds (newOfferedUpgrades g).

(** [fragmentsEarned], computed by the same updater when
    [finalCredits < 10]. *)
Definition fragmentsEarned (prev : GameState) : Q :=
  Math_floor (inject_Z (houseLevel prev) * 5 + essence prev / 10).

(** What the updater hands to [setGlobalState] while it runs on [prev]:
    [gs => ({...gs, fragments: gs.fragments + fragmentsEarned})] when
    [finalCredits < 10], and nothing otherwise. *)
Definition awardFragments (payout extraCredits : Q) (prev : GameState)
  : list (GlobalState -> GlobalState) :=
  let currentCredits := credits prev in
  let finalCredits := currentCredits + payout + extraCredits in
  if Qltb finalCredits 10 then
    [ fun gs =>
        {| fragments := fragments gs + fragmentsEarned prev;
           unlockedHacks := unlockedHacks gs;
           totalRuns := totalRuns gs |} ]
  else [].

Definition resolveRound (state : GameState)
    (pHand dHand : list PlayingCard) (bet : Q) (busted : bool)
  : Rand (list Effect) :=
  let pScore := calculateHandScore pHand in
  let (extraEssence, extraCredits) := hooks busted pScore pHand in
  v <- adjudicate state pHand dHand bet busted ;;
  let payout := applyMultiplier state pHand bet v in
  g <- progression state v ;;
  ret [ setStateIssuing
          (resolveUpdate pHand dHand payout extraCredits
             (essenceBonus v) extraEssence g)
          (awardFragments payout extraCredits) ].

(** What a timer does when it fires. *)
Definition fire (t : Timer) : Rand (list Effect) :=
  match t with
  | ResolveRound state pHand dHand bet busted =>
      resolveRound state pHand dHand bet busted
  | Stand => ret stand
  end.

(** The dealer effect: the callback of the timer it sets while the phase
    is [dealer_turn]. *)
Definition dealerTurn (state : GameState) : Rand (list Effect) :=
  if GamePhase_eqb (phase state) dealer_turn then
    let dScore := calculateHandScore (dealerHand state) in
    let standThreshold := if (houseLevel state <=? 3)%Z then 16%Z else 17%Z in
    if (dScore <? standThreshold)%Z then
      deck <- createDeck ;;
      dealerDeck <- shuffleDeck deck ;;
      match nth_error dealerDeck 0 with
      | Some newCard =>
          ret [ setState (fun prev =>
                  prev |> set_dealerHand (dealerHand prev ++ [newCard])) ]
      | None => ret []
      end
    else
      resolveRound state (playerHand state) (dealerHand state)
        (currentBet state) false
  else ret [].

(** The [onClick] of the Double Down button.  It queues two updaters of
    the run state: the one at its top and the one after the draw (the
    source writes the latter twice, identically, once per branch). *)
Definition doubleDown (state : GameState) : Rand (list Effect) :=
  let first :=
    [ setBetAmount (fun b => b * 2);
      setState (fun prev =>
        prev |> set_credits (credits prev - currentBet prev)
             |> set_currentBet (currentBet prev * 2)) ] in
  draw <- drawCard (drawPile state) (discardPile state) ;;
  match card draw with
  | None => ret first
  | Some newCard =>
      let newHand := playerHand state ++ [newCard] in
      let effects := processCardEffects state newCard in
      let hitCost := if hasPassive state "memory_leak" then 1 else 0 in
      let score := calculateHandScore newHand in
      let bust := (21 <? score)%Z in
      let nextPhase := if bust then round_over else dealer_turn in
      let msg := if bust then "Bust on Double!" else "Double Down!" in
      let second :=
        setState (fun prev =>
          prev
          |> set_playerHand newHand
          |> set_drawPile (newDraw draw)
          |> set_discardPile (newDiscard draw)
          |> set_essence (essence prev + essenceDelta effects + 5)
          |> set_credits
               (credits prev - currentBet prev + creditDelta effects
                - hitCost)
          |> set_corruptionTokens
               (Math_max 0 (corruptionTokens prev + corruptionDelta effects))
          |> set_currentBet (currentBet prev * 2)
          |> set_phase nextPhase
          |> set_message msg) in
      ret (first ++ [second] ++
           if bust then
             [ setTimeout
                 (ResolveRound state newHand (dealerHand state)
                    (currentBet state * 2) true) 1000 ]
           else [])
  end.

(** The buttons of the command console exist only in their phase. *)
Definition dealShown (state : GameState) : bool :=
  GamePhase_eqb (phase state) betting.

(** [disabled={state.credits < betAmount}] *)
Definition dealDisabled (state : GameState) (betAmount : Q) : bool :=
  Qltb (credits state) betAmount.

Definition clickDeal (state : GameState) (betAmount : Q)
  : Rand (list Effect) :=
  if dealShown state && negb (dealDisabled state betAmount)
  then placeBet state betAmount else ret [].

(** [state.phase === 'playing' && ... state.playerHand.length === 2 &&
     state.credits >= state.currentBet] *)
Definition doubleShown (state : GameState) : bool :=
  GamePhase_eqb (phase state) playing
  && (List.length (playerHand state) =? 2)%nat
  && Qgeb (credits state) (currentBet state).

Definition clickDoubleDown (state : GameState) : Rand (list Effect) :=
  if doubleShown state then doubleDown state else ret [].

End Engine.

(* ------------------------------------------------------------------ *)
(** ** App.tsx: the forge and the phase buttons *)

Definition selectNewUpgrade (upgradeId : string) : list Effect :=
  [ setState (fun prev =>
      prev |> set_unlockedUpgrades (unlockedUpgrades prev ++ [upgradeId])
           |> set_phase round_over
           |> set_message "New Upgrade compiled into Supply."
           |> set_offeredUpgradeIds []) ].

(** [if (c) cost = Math.floor(cost * k)] *)
Definition scaleIf (c : bool) (k : Q) (cost : Q) : Q :=
  if c then Math_floor (cost * k) else cost.

Definition upgradeCost (state : GameState) (globalState : GlobalState)
    (upgrade : CardUpgrade) : Q :=
  CardUpgrade.cost upgrade
  |> scaleIf (4 <=? houseLevel state)%Z 1.5
  |> scaleIf (hasPassive state "encryption_error") 1.2
  |> scaleIf (hasHack globalState "priority_access") 0.9.

Definition consumableCost (state : GameState) (globalState : GlobalState)
    (item : Consumable) : Q :=
  Consumable.cost item
  |> scaleIf (hasPassive state "encryption_error") 1.2
  |> scaleIf (hasHack globalState "priority_access") 0.9.

Definition passiveCost (state : GameState) (globalState : GlobalState)
    (cost : Q) : Q :=
  cost
  |> scaleIf (hasPassive state "encryption_error") 1.2
  |> scaleIf (hasHack globalState "priority_access") 0.9.

(** [selectedCardId] is [string | null]; [!selectedCardId] also holds for
    the empty string. *)
Definition selected (selectedCardId : option string) : option string :=
  match selectedCardId with
  | Some id => if String.eqb id EmptyString then None else Some id
  | None => None
  end.

Definition idIs (id : string) (c : PlayingCard) : bool :=
  String.eqb (PlayingCard.id c) id.

Definition buyUpgrade (state : GameState) (globalState : GlobalState)
    (selectedCardId : option string) (upgrade : CardUpgrade) : list Effect :=
  match selected selectedCardId with
  | None => []
  | Some id =>
      let cost := upgradeCost state globalState upgrade in
      if Qltb (essence state) cost then []
      else
        let upgradeIt := fun c => if idIs id c then addUpgrade upgrade c else c in
        let newMasterDeck := map upgradeIt (playerDeck state) in
        [ setState (fun prev =>
            prev |> set_essence (essence prev - cost)
                 |> set_playerDeck newMasterDeck
                 |> set_drawPile (map upgradeIt (drawPile prev))
                 |> set_discardPile (map upgradeIt (discardPile prev))
                 |> set_playerHand (map upgradeIt (playerHand prev))) ]
  end.

Definition buyConsumable (state : GameState) (globalState : GlobalState)
    (item : Consumable) : list Effect :=
  let cost := consumableCost state globalState item in
  if (3 <=? List.length (inventory state))%nat then
    [ setState (fun prev => prev |> set_message "Inventory full.") ]
  else if Qltb (essence state) cost then
    [ setState (fun prev => prev |> set_message "Not enough Essence.") ]
  else
    [ setState (fun prev =>
        prev |> set_essence (essence prev - cost)
             |> set_inventory (inventory prev ++ [item])
             |> set_message ("Acquired " ++ Consumable.name item ++ ".")%string) ].

(** [!passive.cost] holds for a missing cost and for [0]. *)
Definition buyPassive (state : GameState) (globalState : GlobalState)
    (passive : Passive) : list Effect :=
  match Passive.cost passive with
  | None => []
  | Some c =>
      if Qeq_bool c 0 then []
      else
        let cost := passiveCost state globalState c in
        if Qltb (essence state) cost then
          [ setState (fun prev => prev |> set_message "Not enough Essence.") ]
        else if hasPassive state (Passive.id passive) then []
        else
          [ setState (fun prev =>
              prev |> set_essence (essence prev - cost)
                   |> set_activePassives (activePassives prev ++ [passive])
                   |> set_message ("System Module Installed: "
                                     ++ Passive.name passive)%string) ]
  end.

(** [75 + (Math.max(0, 52 - state.playerDeck.length) * 10)] *)
Definition purgeCost (state : GameState) : Z :=
  (75 + Z.max 0 (52 - Z.of_nat (List.length (playerDeck state))) * 10)%Z.

Definition purgeCard (state : GameState) (selectedCardId : option string)
  : list Effect :=
  match selected selectedCardId with
  | None => []
  | Some id =>
      let cost := purgeCost state in
      if (List.length (playerDeck state) <=? 5)%nat then
        [ setState (fun prev => prev |> set_message "Deck too small to purge.") ]
      else if Qltb (essence state) (inject_Z cost) then
        [ setState (fun prev =>
            prev |> set_message ("Need " ++ showZ cost
                                   ++ " Essence to purge.")%string) ]
      else
        let keep := fun c => negb (idIs id c) in
        let newMasterDeck := filter keep (playerDeck state) in
        [ setState (fun prev =>
            prev |> set_essence (essence prev - inject_Z cost)
                 |> set_playerDeck newMasterDeck
                 |> set_drawPile (filter keep (drawPile prev))
                 |> set_discardPile (filter keep (discardPile prev))
                 |> set_message "Card removed from database.");
          setSelectedCardId None ]
  end.

Definition goToForge : list Effect :=
  [ setState (fun prev =>
      prev |> set_phase forge |> set_message "Entering the Forge...") ].

Definition leaveForge : list Effect :=
  [ setState (fun prev =>
      prev |> set_phase betting
           |> set_message "Place your bet to begin."
           |> set_playerHand []
           |> set_dealerHand []) ].

(** The [onClick] of the Next Hand button. *)
Definition nextHand : list Effect :=
  [ setState (fun s =>
      s |> set_phase betting
        |> set_playerHand []
        |> set_dealerHand []
        |> set_message "Place your bet to begin.") ].

(** A handler run on the state it was rendered with. *)
Definition after (effs : list Effect) (state : GameState) : GameState :=
  applyEffects effs state.

(* ------------------------------------------------------------------ *)
(** ** Reference definitions and sample data *)

(** Standard blackjack scoring, as the specification words it: every ace
    counts 1, and one ace counts 11 instead whenever that does not take the
    hand over 21. *)
Definition hardValue (c : PlayingCard) : Z :=
  if Rank_eqb (PlayingCard.rank c) RA then 1%Z else PlayingCard.value c.

Definition hardTotal (hand : list PlayingCard) : Z :=
  fold_right (fun c t => (hardValue c + t)%Z) 0%Z hand.

Definition hasAce (hand : list PlayingCard) : bool :=
  existsb (fun c => Rank_eqb (PlayingCard.rank c) RA) hand.

Definition standardScore (hand : list PlayingCard) : Z :=
  let h := hardTotal hand in
  if hasAce hand && (h + 10 <=? 21)%Z then (h + 10)%Z else h.

(** A card whose value is the one [createDeck] gives its rank. *)
Definition wellFormed (c : PlayingCard) : Prop :=
  PlayingCard.value c = rankValue (PlayingCard.rank c).

(** A card as [createDeck] builds it, with a given id suffix. *)
Definition plain (r : Rank) (s : Suit) (suffix : string) : PlayingCard :=
  PlayingCard.mk (rankName r ++ "-" ++ suitName s ++ "-" ++ suffix)%string
    s r (rankValue r) [].

Definition countAces (hand : list PlayingCard) : nat :=
  List.length (filter (fun c => Rank_eqb (PlayingCard.rank c) RA) hand).

Definition sumValues (hand : list PlayingCard) : Z :=
  fold_right (fun c t => (PlayingCard.value c + t)%Z) 0%Z hand.

(** The price of a purchase as the specification words it: the catalog
    cost, times 1.5 for a card upgrade at house level 4 or more, then times
    1.2 under the encryption-error curse, then times 0.9 with the
    priority-access hack, floored after each multiplication. *)
Definition specPrice (base : Q)
    (upgradeAtLevel4 encryptionError priorityAccess : bool) : Q :=
  let c1 := if upgradeAtLevel4 then inject_Z (Qfloor (base * (3 # 2)))
            else base in
  let c2 := if encryptionError then inject_Z (Qfloor (c1 * (6 # 5)))
            else c1 in
  if priorityAccess then inject_Z (Qfloor (c2 * (9 # 10))) else c2.

(** [s'] is [s] with at most another status message. *)
Definition onlyMessageChanged (s s' : GameState) : Prop :=
  s' = set_message (message s') s.

Definition noHacks : GlobalState :=
  {| fragments := 0; unlockedHacks := []; totalRuns := 1 |}.

Definition priorityAccess : GlobalState :=
  {| fragments := 0; unlockedHacks := ["priority_access"]; totalRuns := 3 |}.

Definition encryption_error : Passive :=
  Passive.mk "encryption_error" "Encryption Error" curse None.

Definition lucky_charm : CardUpgrade :=
  CardUpgrade.mk "lucky_charm" "Lucky Charm" 100 critical 0.25.

Definition sixCards : list PlayingCard :=
  [ plain R10 spades "k3v9x0q2a"; plain R8 hearts "p07wz1m4c";
    plain R5 clubs "z81hd5t6e"; plain R6 diamonds "b2n4r8y0g";
    plain R9 hearts "m5c7u3j1i"; plain RK clubs "q9s6f2l8k" ].

(** A run in the forge: six cards left in the master deck, three of them
    in the draw pile and three in the discard pile. *)
Definition forgeState : GameState :=
  {| credits := 100;
     essence := 600;
     playerDeck := sixCards;
     drawPile := firstn 3 sixCards;
     discardPile := skipn 3 sixCards;
     inventory := [];
     activePassives := [encryption_error];
     unlockedUpgrades := STARTING_UPGRADE_IDS ++ ["lucky_charm"];
     offeredUpgradeIds := [];
     playerHand := [];
     dealerHand := [];
     currentBet := 10;
     dealerCardRevealed := false;
     houseLevel := 1;
     corruptionTokens := 3;
     corruptionThreshold := 8;
     phase := forge;
     message := "Entering the Forge..." |}.

(** A random source that always answers 0, a base-36 rendering that always
    answers the same digits, and a sort that keeps the order. *)
Definition zeroRandom : nat -> Q := fun _ => 0.

Definition sameDigits : Q -> string := fun _ => "0.h41dq7w2x".

Definition keepOrder (cmp : CardUpgrade -> CardUpgrade -> Rand Q)
    (l : list CardUpgrade) : Rand (list CardUpgrade) :=
  ret l.

Definition cooling_fan : CardUpgrade :=
  CardUpgrade.mk "cooling_fan" "Cooling Fan" 100 reduce_corruption 1.

Definition fiveOfClubs : PlayingCard := plain R5 clubs "z81hd5t6e".
Definition sixOfDiamonds : PlayingCard := plain R6 diamonds "b2n4r8y0g".
Definition eightOfHearts : PlayingCard := plain R8 hearts "p07wz1m4c".
Definition threeOfSpades : PlayingCard := plain R3 spades "c6t2k9e5o".
Definition nineOfHearts : PlayingCard :=
  addUpgrade cooling_fan (plain R9 hearts "m5c7u3j1i").

(** Cards of the dealer's own deck. *)
Definition dealerKing : PlayingCard := plain RK diamonds "w8r3a6n0s".
Definition dealerSeven : PlayingCard := plain R7 clubs "u1y5g9b4v".

(** A round in progress at house level 1: the player holds 5 and 6 on a bet
    of 10, the 9 of hearts is next to be drawn. *)
Definition tableState : GameState :=
  {| credits := 90;
     essence := 4;
     playerDeck :=
       [fiveOfClubs; sixOfDiamonds; eightOfHearts; threeOfSpades; nineOfHearts];
     drawPile := [eightOfHearts; threeOfSpades; nineOfHearts];
     discardPile := [];
     inventory := [Consumable.mk "coolant" "System Coolant" 25 reduce_threat];
     activePassives := [];
     unlockedUpgrades := STARTING_UPGRADE_IDS;
     offeredUpgradeIds := [];
     playerHand := [fiveOfClubs; sixOfDiamonds];
     dealerHand := [dealerKing; dealerSeven];
     currentBet := 10;
     dealerCardRevealed := false;
     houseLevel := 1;
     corruptionTokens := 0;
     corruptionThreshold := 8;
     phase := playing;
     message := "Hit or Stand?" |}.

(** The credits granted by the effects of the cards of a dealt hand. *)
Definition dealtCredits (state : GameState) (hand : list PlayingCard) : Q :=
  fold_right (fun c t => creditDelta (processCardEffects state c) + t) 0 hand.

Definition tenOfSpades : PlayingCard := plain R10 spades "k3v9x0q2a".

(** [tableState] with 10 and 6 in hand: the 9 of hearts busts it. *)
Definition bustState : GameState :=
  set_playerHand [tenOfSpades; sixOfDiamonds] tableState.

(** What [resolveRound] decides for a round: the verdict of its branch
    chain and the payout after the win multiplier. *)
Definition roundVerdict (random : nat -> Q) (state : GameState)
    (pHand dHand : list PlayingCard) (bet : Q) (busted : bool) (n : nat)
  : Verdict :=
  fst (adjudicate random state pHand dHand bet busted n).

Definition roundPayout (random : nat -> Q) (state : GameState)
    (pHand dHand : list PlayingCard) (bet : Q) (busted : bool) (n : nat) : Q :=
  applyMultiplier state pHand bet
    (roundVerdict random state pHand dHand bet busted n).

(** The win multiplier: 1, plus every critical upgrade of the hand, plus
    0.1 under the VIP boon. *)
Definition winMultiplier (state : GameState) (pHand : list PlayingCard) : Q :=
  criticalMulti pHand + (if hasPassive state "vip_protocol" then 0.1 else 0).

(** The magnitudes of the shield upgrades of a hand, card by card and
    upgrade by upgrade. *)
Definition shieldValues (pHand : list PlayingCard) : list Q :=
  flat_map
    (fun c =>
       map CardUpgrade.value
         (filter (fun u => EffectType_eqb (CardUpgrade.effectType u) shield)
            (PlayingCard.upgrades c)))
    pHand.

(** One trial per magnitude, each against its own draw: the [k]-th
    magnitude meets draw number [n + k]. *)
Fixpoint trialsFrom (random : nat -> Q) (values : list Q) (n : nat)
  : list (Q * Q) :=
  match values with
  | [] => []
  | v :: rest => (v, random n) :: trialsFrom random rest (S n)
  end.

(** A trial succeeds when its draw is below its magnitude. *)
Definition succeeds (t : Q * Q) : bool := Qltb (snd t) (fst t).

(** Progression as the specification words it, on (tokens, house level,
    threshold): one more token, and on reaching the threshold one more
    level, no tokens, and a threshold higher by 2. *)
Definition progressOf (s : GameState) : Q * Z * Q :=
  (corruptionTokens s, houseLevel s, corruptionThreshold s).

Definition bump (p : Q * Z * Q) : Q * Z * Q :=
  let '(tokens, level, threshold) := p in
  if Qle_bool threshold (tokens + 1)
  then (0, (level + 1)%Z, threshold + 2)
  else (tokens + 1, level, threshold).

Definition eightOfClubs : PlayingCard := plain R8 clubs "f4j8v2s6d".
Definition dealerNine : PlayingCard := plain R9 spades "t7e1o5i3p".

(** Player 18 against dealer 19, 17 and 18. *)
Definition eighteen : list PlayingCard := [tenOfSpades; eightOfHearts].
Definition dealerNineteen : list PlayingCard := [dealerKing; dealerNine].
Definition dealerSeventeen : list PlayingCard := [dealerKing; dealerSeven].


(** [k] rounds in a row, each resolved from the current state with the
    player on 18 and the dealer on 17, on a bet of 10. *)
Fixpoint winRounds (random : nat -> Q)
    (Array_sort : (CardUpgrade -> CardUpgrade -> Rand Q)
                  -> list CardUpgrade -> Rand (list CardUpgrade))
    (k : nat) (s : GameState) (n : nat) : GameState * nat :=
  match k with
  | O => (s, n)
  | S k' =>
      let (effs, n') :=
        resolveRound random Array_sort s eighteen dealerSeventeen 10 false n in
      winRounds random Array_sort k' (after effs s) n'
  end.

(** A shield that always holds, on a hand of 25. *)
Definition sureShield : CardUpgrade :=
  CardUpgrade.mk "firewall_shard" "Firewall Shard" 75 shield 1.0.

Definition shieldedBust : list PlayingCard :=
  [tenOfSpades; addUpgrade sureShield sixOfDiamonds; nineOfHearts].

(** The cards a state holds for the player, outside the master deck. *)
Definition playerCards (s : GameState) : list PlayingCard :=
  drawPile s ++ discardPile s ++ playerHand s.

Definition cardIds (l : list PlayingCard) : list string :=
  map PlayingCard.id l.

(** Every handler other than [resolveRound] (and [startRun], which starts a
    new run) leaves the corruption threshold as it was. *)
Definition thresholdKept (random : nat -> Q) (toString36 : Q -> string)
    (state : GameState) (globalState : GlobalState) (n : nat) : Prop :=
  let kept := fun effs =>
    corruptionThreshold (after effs state) = corruptionThreshold state in
  (forall betAmount, kept (fst (placeBet random toString36 state betAmount n)))
  /\ kept (fst (hit random state n))
  /\ kept (fst (doubleDown random state n))
  /\ kept stand
  /\ (forall index, kept (useConsumable state index))
  /\ (forall upgradeId, kept (selectNewUpgrade upgradeId))
  /\ (forall sel upgrade, kept (buyUpgrade state globalState sel upgrade))
  /\ (forall item, kept (buyConsumable state globalState item))
  /\ (forall passive, kept (buyPassive state globalState passive))
  /\ (forall sel, kept (purgeCard state sel))
  /\ kept goToForge /\ kept leaveForge /\ kept nextHand.

(* ------------------------------------------------------------------ *)
(** ** App.tsx: the meta shop and the bet buttons *)

(** [Math.min(a, b)] *)
Definition Math_min (a b : Q) : Q := if Qle_bool a b then a else b.

Definition buyMetaUpgrade (globalState : GlobalState) (upgrade : MetaUpgrade)
  : list Effect :=
  if Qgeb (fragments globalState) (MetaUpgrade.cost upgrade)
     && negb (hasHack globalState (MetaUpgrade.id upgrade))
  then
    [ setGlobalState (fun prev =>
        {| fragments := fragments prev - MetaUpgrade.cost upgrade;
           unlockedHacks := unlockedHacks prev ++ [MetaUpgrade.id upgrade];
           totalRuns := totalRuns prev |}) ]
  else [].

(** The [-] and [+] buttons beside the bet:
    [setBetAmount(Math.max(10, betAmount - 10))] and
    [setBetAmount(Math.min(state.credits, betAmount + 10))]. *)
Definition betMinus (betAmount : Q) : list Effect :=
  [ setBetAmount (fun _ => Math_max 10 (betAmount - 10)) ].

Definition betPlus (state : GameState) (betAmount : Q) : list Effect :=
  [ setBetAmount (fun _ => Math_min (credits state) (betAmount + 10)) ].

(** The global state and the bet amount after the updaters that a
    handler itself hands to [setGlobalState] and [setBetAmount]. *)
Fixpoint applyGlobal (effs : list Effect) (g : GlobalState) : GlobalState :=
  match effs with
  | [] => g
  | setGlobalState u :: rest => applyGlobal rest (u g)
  | _ :: rest => applyGlobal rest g
  end.

Fixpoint applyBet (effs : list Effect) (b : Q) : Q :=
  match effs with
  | [] => b
  | setBetAmount u :: rest => applyBet rest (u b)
  | _ :: rest => applyBet rest b
  end.

(** The global state after the queued updaters when an updater of the game
    state calls [setGlobalState] itself: the game state is threaded along,
    and what an updater issues is applied when it runs on its [prev]. *)
Fixpoint globalAfter (effs : list Effect) (s : GameState) (g : GlobalState)
  : GlobalState :=
  match effs with
  | [] => g
  | setState u :: rest => globalAfter rest (u s) g
  | setStateIssuing u issued :: rest =>
      globalAfter rest (u s) (fold_left (fun g f => f g) (issued s) g)
  | setGlobalState u :: rest => globalAfter rest s (u g)
  | _ :: rest => globalAfter rest s g
  end.

(* ------------------------------------------------------------------ *)
(** ** More reference definitions *)

Definition suitRank (c : PlayingCard) : Suit * Rank :=
  (PlayingCard.suit c, PlayingCard.rank c).

Definition isTen (c : PlayingCard) : bool := (PlayingCard.value c =? 10)%Z.

Definition isKing (c : PlayingCard) : bool := Rank_eqb (PlayingCard.rank c) RK.

(** A card as [createDeck] builds it: the value of its rank, no upgrade,
    and an id that starts with its rank and suit. *)
Definition freshCard (c : PlayingCard) : Prop :=
  wellFormed c
  /\ PlayingCard.upgrades c = []
  /\ exists suffix,
       PlayingCard.id c
       = (rankName (PlayingCard.rank c) ++ "-"
            ++ suitName (PlayingCard.suit c) ++ "-" ++ suffix)%string.

(** [Math.random()] answers in [[0, 1)]. *)
Definition unitRange (random : nat -> Q) : Prop :=
  forall k, 0 <= random k /\ random k < 1.

(** The index [j] that [shuffleDeck] swaps position [i] with, on the
    random number [x]: [Math.floor(x * (i + 1))]. *)
Definition swapIndex (x : Q) (i : nat) : nat :=
  Z.to_nat (Qfloor (x * inject_Z (Z.of_nat i + 1))).

Definition threeCards : list PlayingCard :=
  [eightOfHearts; threeOfSpades; nineOfHearts].

Definition override_chip : Consumable :=
  Consumable.mk "override_chip" "Override Chip" 40 guarantee_10.

(** [tableState] with an Override Chip in the inventory and the ten of
    spades under two other cards of the draw pile. *)
Definition chipState : GameState :=
  tableState
  |> set_inventory [override_chip]
  |> set_drawPile [tenOfSpades; eightOfHearts; threeOfSpades].

(** The start of a round: nothing dealt, the five cards in the draw pile. *)
Definition bettingState : GameState :=
  tableState
  |> set_phase betting
  |> set_playerHand []
  |> set_dealerHand []
  |> set_drawPile
       [fiveOfClubs; sixOfDiamonds; eightOfHearts; threeOfSpades; nineOfHearts]
  |> set_message "Place your bet to begin.".

(** The same at house level 5, a boss round. *)
Definition bossState : GameState := set_houseLevel 5 bettingState.

(** The dealer's stand threshold. *)
Definition standThreshold (state : GameState) : Z :=
  if (houseLevel state <=? 3)%Z then 16%Z else 17%Z.

(** [tableState] with nothing left to draw. *)
Definition emptyPiles : GameState :=
  tableState |> set_drawPile [] |> set_discardPile [].

(** The sort of the upgrade offer returns the elements it was given. *)
Definition sortPermutes
    (Array_sort : (CardUpgrade -> CardUpgrade -> Rand Q)
                  -> list CardUpgrade -> Rand (list CardUpgrade)) : Prop :=
  forall cmp l k, Permutation (fst (Array_sort cmp l k)) l.

(** The upgrades of the catalog that a state has not unlocked. *)
Definition lockedUpgrades (state : GameState) : list CardUpgrade :=
  filter (fun u => negb (includes (CardUpgrade.id u) (unlockedUpgrades state)))
    UPGRADES.

(** A natural blackjack: 21 on two cards. *)
Definition natural (hand : list PlayingCard) : bool :=
  (List.length hand =? 2)%nat && (calculateHandScore hand =? 21)%Z.

Definition aceOfSpades : PlayingCard := plain RA spades "r2d8h4y6w".

(** One token short of the threshold, with every upgrade still to unlock
    but the three of the start. *)
Definition brinkState : GameState := set_corruptionTokens 7 tableState.

(** The curses of the catalog that are not active in a state. *)
Definition pendingCurses (state : GameState) : list Passive :=
  filter (fun p =>
            PassiveType_eqb (Passive.type p) curse
            && negb (hasPassive state (Passive.id p)))
    PASSIVES.

(** One win short of house level 6. *)
Definition levelFiveBrink : GameState := set_houseLevel 5 brinkState.

(** The master deck holds exactly the cards of the piles and the hand. *)
Definition inStep (s : GameState) : Prop :=
  Permutation (playerDeck s) (playerCards s).

(** What one upgrade adds to the effects of its card. *)
Definition contribution (upg : CardUpgrade) : CardEffects :=
  upgradeEffect {| essenceDelta := 0; creditDelta := 0; corruptionDelta := 0 |}
    upg.

Definition sameEffects (a b : CardEffects) : Prop :=
  essenceDelta a == essenceDelta b
  /\ creditDelta a == creditDelta b
  /\ corruptionDelta a == corruptionDelta b.

Definition plusEffects (a b : CardEffects) : CardEffects :=
  {| essenceDelta := essenceDelta a + essenceDelta b;
     creditDelta := creditDelta a + creditDelta b;
     corruptionDelta := corruptionDelta a + corruptionDelta b |}.

Definition auto_miner : Passive :=
  Passive.mk "auto_miner" "Auto-Miner" boon (Some 100).

Definition threat_dampener : MetaUpgrade :=
  MetaUpgrade.mk "threat_dampener" "Threat Dampener" 30.

Definition richGlobal : GlobalState :=
  {| fragments := 45; unlockedHacks := ["priority_access"]; totalRuns := 4 |}.

(** The magnitudes of the upgrades of one kind on a hand, and their sum. *)
Definition kindValues (kind : EffectType) (pHand : list PlayingCard) : list Q :=
  flat_map
    (fun c =>
       map CardUpgrade.value
         (filter (fun u => EffectType_eqb (CardUpgrade.effectType u) kind)
            (PlayingCard.upgrades c)))
    pHand.

Definition sumQ (l : list Q) : Q := fold_right Qplus 0 l.

Definition recycler : CardUpgrade :=
  CardUpgrade.mk "recycler" "Recycler" 60 on_bust_essence 5.

Definition firewall_shard : CardUpgrade :=
  CardUpgrade.mk "firewall_shard" "Firewall Shard" 75 shield 0.5.

Definition shieldedSix : PlayingCard := addUpgrade firewall_shard sixOfDiamonds.

(** A round at house level 1 with three corruption tokens and 150 essence:
    the player holds 10 and a 6 with a Firewall Shard on a bet of 10, and
    the 9 of hearts, which carries a Cooling Fan, is next to be drawn. *)
Definition heatedTable : GameState :=
  tableState
  |> set_essence 150
  |> set_playerDeck
       [tenOfSpades; shieldedSix; eightOfHearts; threeOfSpades; nineOfHearts]
  |> set_playerHand [tenOfSpades; shieldedSix]
  |> set_corruptionTokens 3.

(** The hand after the hit that busts it. *)
Definition heatedBust : list PlayingCard :=
  [tenOfSpades; shieldedSix; nineOfHearts].

(** The last credits: [tableState] after standing against the dealer's 17,
    with 5 credits and 47 essence left beside the bet of 10. *)
Definition lastCredits : GameState :=
  tableState
  |> set_credits 5
  |> set_essence 47
  |> set_phase dealer_turn
  |> set_message "Dealer's turn...".

(* ------------------------------------------------------------------ *)
(** ** Scoring *)

Lemma sumValues_cons (c : PlayingCard) (hand : list PlayingCard) :
  sumValues (c :: hand) = (PlayingCard.value c + sumValues hand)%Z.
Proof. reflexivity. Qed.

Lemma hardTotal_cons (c : PlayingCard) (hand : list PlayingCard) :
  hardTotal (c :: hand) = (hardValue c + hardTotal hand)%Z.
Proof. reflexivity. Qed.

Lemma countAces_cons (c : PlayingCard) (hand : list PlayingCard) :
  countAces (c :: hand)
  = if Rank_eqb (PlayingCard.rank c) RA then S (countAces hand)
    else countAces hand.
Proof.
  unfold countAces. cbn [filter].
  destruct (Rank_eqb (PlayingCard.rank c) RA); reflexivity.
Qed.

Lemma handTotals_from (hand : list PlayingCard) (score : Z) (aces : nat) :
  fold_left
    (fun (acc : Z * nat) (card : PlayingCard) =>
       let (score, aces) := acc in
       ((score + PlayingCard.value card)%Z,
        if Rank_eqb (PlayingCard.rank card) RA then S aces else aces))
    hand (score, aces)
  = ((score + sumValues hand)%Z, (aces + countAces hand)%nat).
Proof.
  revert score aces.
  induction hand as [|c hand IH]; intros score aces.
  - cbn. f_equal; lia.
  - cbn [fold_left]. rewrite IH, sumValues_cons, countAces_cons.
    destruct (Rank_eqb (PlayingCard.rank c) RA); f_equal; lia.
Qed.

Lemma handTotals_eq (hand : list PlayingCard) :
  handTotals hand = (sumValues hand, countAces hand).
Proof.
  unfold handTotals. rewrite handTotals_from. f_equal.
Qed.

Lemma sumValues_hard (hand : list PlayingCard) :
  Forall wellFormed hand ->
  (sumValues hand = hardTotal hand + 10 * Z.of_nat (countAces hand)
   /\ Z.of_nat (countAces hand) <= hardTotal hand)%Z.
Proof.
  induction 1 as [|c hand Hc _ IH].
  - split; reflexivity.
  - destruct IH as [IH1 IH2].
    rewrite sumValues_cons, hardTotal_cons, countAces_cons.
    unfold hardValue. red in Hc. rewrite Hc.
    destruct (PlayingCard.rank c); cbn [Rank_eqb rankValue]; lia.
Qed.

Lemma hasAce_count (hand : list PlayingCard) :
  hasAce hand = negb (countAces hand =? 0)%nat.
Proof.
  unfold hasAce, countAces.
  induction hand as [|c hand IH]; simpl; [reflexivity|].
  destruct (Rank_eqb (PlayingCard.rank c) RA); simpl; auto.
Qed.

Lemma softenAces_standard (aces : nat) (h : Z) :
  (Z.of_nat aces <= h)%Z ->
  softenAces (h + 10 * Z.of_nat aces) aces
  = if negb (aces =? 0)%nat && (h + 10 <=? 21)%Z then (h + 10)%Z else h.
Proof.
  induction aces as [|a IH]; intros Hle.
  - simpl. f_equal. lia.
  - cbn [softenAces].
    replace (h + 10 * Z.of_nat (S a) - 10)%Z with (h + 10 * Z.of_nat a)%Z by lia.
    destruct a as [|a'].
    + simpl. replace (h + 10 * 1)%Z with (h + 10)%Z by lia.
      replace (h + 10 * 0)%Z with h by lia.
      destruct (Z.ltb_spec 21 (h + 10)), (Z.leb_spec (h + 10) 21); lia.
    + destruct (Z.ltb_spec 21 (h + 10 * Z.of_nat (S (S a')))); [|lia].
      rewrite IH by lia. reflexivity.
Qed.

(** C5.  For every hand of cards valued as [createDeck] values them,
    [calculateHandScore] first adds the card values with every ace at 11
    and then takes 10 off per ace while the total is above 21 and an ace
    is left; the result is the standard soft-ace blackjack score.  In
    particular A,K scores 21, A,A scores 12 and A,A,9 scores 21. *)
Theorem calculateHandScore_soft_ace (hand : list PlayingCard)
    (Hwf : Forall wellFormed hand) :
  calculateHandScore hand = softenAces (sumValues hand) (countAces hand)
  /\ sumValues hand = (hardTotal hand + 10 * Z.of_nat (countAces hand))%Z
  /\ calculateHandScore hand = standardScore hand
  /\ calculateHandScore [plain RA spades "a"; plain RK hearts "b"] = 21%Z
  /\ calculateHandScore [plain RA spades "a"; plain RA hearts "b"] = 12%Z
  /\ calculateHandScore
       [plain RA spades "a"; plain RA hearts "b"; plain R9 clubs "c"] = 21%Z.
Proof.
  destruct (sumValues_hard Hwf) as [Hsum Hle].
  assert (Hscore : calculateHandScore hand
                   = softenAces (sumValues hand) (countAces hand)).
  { unfold calculateHandScore. rewrite handTotals_eq. reflexivity. }
  repeat split; try reflexivity; auto.
  rewrite Hscore, Hsum, softenAces_standard by exact Hle.
  unfold standardScore. rewrite hasAce_count. reflexivity.
Qed.

Lemma calculateHandScore_soft_ace_witness :
  let hand := [plain RA spades "a"; plain RA hearts "b"; plain R9 clubs "c"] in
  Forall wellFormed hand /\ calculateHandScore hand = standardScore hand.
Proof.
  intro hand.
  assert (Hwf : Forall wellFormed hand) by (repeat constructor).
  split; [exact Hwf|].
  exact (proj1 (proj2 (proj2 (calculateHandScore_soft_ace Hwf)))).
Defined.

(* ------------------------------------------------------------------ *)
(** ** The forge *)

Lemma set_message_same (s : GameState) : s = set_message (message s) s.
Proof. destruct s; reflexivity. Qed.

Lemma onlyMessageChanged_refl (s : GameState) : onlyMessageChanged s s.
Proof. apply set_message_same. Qed.

Lemma onlyMessageChanged_set (m : string) (s : GameState) :
  onlyMessageChanged s (set_message m s).
Proof. reflexivity. Qed.

Lemma floor_scale (c k k' : Q) :
  k == k' -> Math_floor (c * k) = inject_Z (Qfloor (c * k')).
Proof.
  intros Hk. unfold Math_floor. f_equal. apply Qfloor_comp.
  rewrite Hk. reflexivity.
Qed.

Lemma specPrice_chain (base : Q) (a b c : bool) :
  base |> scaleIf a 1.5 |> scaleIf b 1.2 |> scaleIf c 0.9
  = specPrice base a b c.
Proof.
  unfold specPrice, scaleIf.
  destruct a, b, c;
    repeat (rewrite (@floor_scale _ 1.5 (3 # 2)) by reflexivity);
    repeat (rewrite (@floor_scale _ 1.2 (6 # 5)) by reflexivity);
    repeat (rewrite (@floor_scale _ 0.9 (9 # 10)) by reflexivity);
    reflexivity.
Qed.

(** C8.  The price charged by [buyUpgrade], [buyConsumable] and
    [buyPassive] is the catalog cost, times 1.5 at house level 4 or more
    (card upgrades only), then times 1.2 under the encryption-error curse,
    then times 0.9 with the priority-access hack, floored after each
    multiplication; each purchase either takes exactly that price off the
    essence or leaves the essence alone.  A cost of 100 under
    encryption-error alone is 120, and 108 with priority-access too. *)
Theorem purchase_price (state : GameState) (globalState : GlobalState) :
  let encryptionError := hasPassive state "encryption_error" in
  let priority := hasHack globalState "priority_access" in
  (forall upgrade,
      upgradeCost state globalState upgrade
      = specPrice (CardUpgrade.cost upgrade) (4 <=? houseLevel state)%Z
          encryptionError priority)
  /\ (forall item,
         consumableCost state globalState item
         = specPrice (Consumable.cost item) false encryptionError priority)
  /\ (forall cost,
         passiveCost state globalState cost
         = specPrice cost false encryptionError priority)
  /\ (forall sel upgrade,
         let s' := after (buyUpgrade state globalState sel upgrade) state in
         essence s' = essence state - upgradeCost state globalState upgrade
         \/ essence s' = essence state)
  /\ (forall item,
         let s' := after (buyConsumable state globalState item) state in
         essence s' = essence state - consumableCost state globalState item
         \/ essence s' = essence state)
  /\ (forall passive cost,
         Passive.cost passive = Some cost ->
         let s' := after (buyPassive state globalState passive) state in
         essence s' = essence state - passiveCost state globalState cost
         \/ essence s' = essence state)
  /\ specPrice 100 false true false = 120
  /\ specPrice 100 false true true = 108
  /\ upgradeCost forgeState noHacks lucky_charm = 120
  /\ upgradeCost forgeState priorityAccess lucky_charm = 108.
Proof.
  intros encryptionError priority.
  split; [|split; [|split; [|split; [|split; [|split]]]]].
  - intros upgrade. apply specPrice_chain.
  - intros item. unfold consumableCost.
    exact (specPrice_chain (Consumable.cost item) false _ _).
  - intros cost. unfold passiveCost.
    exact (specPrice_chain cost false _ _).
  - intros sel upgrade. unfold buyUpgrade.
    destruct (selected sel); [|right; reflexivity].
    destruct (Qltb (essence state) _); [right|left]; reflexivity.
  - intros item. unfold buyConsumable.
    destruct (3 <=? _)%nat; [right; reflexivity|].
    destruct (Qltb (essence state) _); [right|left]; reflexivity.
  - intros passive cost Hcost. unfold buyPassive. rewrite Hcost.
    destruct (Qeq_bool cost 0); [right; reflexivity|].
    destruct (Qltb (essence state) _); [right; reflexivity|].
    destruct (hasPassive state (Passive.id passive)); [right|left]; reflexivity.
  - repeat split; reflexivity.
Qed.

Lemma purchase_price_witness :
  let auto_miner := Passive.mk "auto_miner" "Auto-Miner" boon (Some 100) in
  Passive.cost auto_miner = Some 100
  /\ (essence (after (buyPassive forgeState priorityAccess auto_miner)
                 forgeState)
      = essence forgeState - passiveCost forgeState priorityAccess 100
      \/ essence (after (buyPassive forgeState priorityAccess auto_miner)
                    forgeState)
         = essence forgeState).
Proof.
  intros auto_miner. split; [reflexivity|].
  apply (purchase_price forgeState priorityAccess). reflexivity.
Defined.

Lemma filter_drops_id (id : string) (l : list PlayingCard) (c : PlayingCard) :
  In c (filter (fun c => negb (idIs id c)) l) -> PlayingCard.id c <> id.
Proof.
  intros Hin Heq. apply filter_In in Hin. destruct Hin as [_ Hk].
  unfold idIs in Hk. rewrite Heq, String.eqb_refl in Hk. discriminate.
Qed.

Lemma filter_keeps_others (id : string) (l : list PlayingCard)
    (c : PlayingCard) :
  In c l -> PlayingCard.id c <> id ->
  In c (filter (fun c => negb (idIs id c)) l).
Proof.
  intros Hin Hne. apply filter_In. split; [exact Hin|].
  unfold idIs. apply negb_true_iff, String.eqb_neq. exact Hne.
Qed.

(** C9.  [purgeCard] costs 75 + max(0, 52 - size) * 10 essence for a master
    deck of [size] cards: 535 for 6 cards, 75 for 52.  With 5 cards or
    fewer, or with less essence than the cost, it changes nothing but the
    status message.  Otherwise, with a card selected, it takes the cost off
    the essence and removes the cards with the selected id from the master
    deck, the draw pile and the discard pile, keeping every other card. *)
Theorem purgeCard_spec (state : GameState) (sel : option string) :
  let size := List.length (playerDeck state) in
  let s' := after (purgeCard state sel) state in
  purgeCost state = (75 + Z.max 0 (52 - Z.of_nat size) * 10)%Z
  /\ (size = 6%nat -> purgeCost state = 535%Z)
  /\ (size = 52%nat -> purgeCost state = 75%Z)
  /\ ((size <= 5)%nat \/ essence state < inject_Z (purgeCost state) ->
      onlyMessageChanged state s')
  /\ (forall id,
         selected sel = Some id ->
         (5 < size)%nat ->
         inject_Z (purgeCost state) <= essence state ->
         let keep := fun c => negb (idIs id c) in
         essence s' = essence state - inject_Z (purgeCost state)
         /\ playerDeck s' = filter keep (playerDeck state)
         /\ drawPile s' = filter keep (drawPile state)
         /\ discardPile s' = filter keep (discardPile state)
         /\ (forall c,
                In c (playerDeck s' ++ drawPile s' ++ discardPile s') ->
                PlayingCard.id c <> id)
         /\ (forall c,
                PlayingCard.id c <> id ->
                (In c (playerDeck state) -> In c (playerDeck s'))
                /\ (In c (drawPile state) -> In c (drawPile s'))
                /\ (In c (discardPile state) -> In c (discardPile s')))).
Proof.
  intros size s'.
  split; [reflexivity|].
  split; [unfold purgeCost; fold size; intros ->; reflexivity|].
  split; [unfold purgeCost; fold size; intros ->; reflexivity|].
  split.
  - intros Hfail. subst s'. unfold purgeCard.
    destruct (selected sel) as [id|]; [|apply onlyMessageChanged_refl].
    fold size. destruct (Nat.leb_spec size 5).
    + apply onlyMessageChanged_set.
    + destruct Hfail as [Hsmall|Hpoor]; [lia|].
      unfold Qltb.
      destruct (Qle_bool (inject_Z (purgeCost state)) (essence state)) eqn:Hle.
      * apply Qle_bool_iff in Hle. exfalso.
        exact (Qlt_not_le _ _ Hpoor Hle).
      * apply onlyMessageChanged_set.
  - intros id Hsel Hsize Hrich keep. subst s'. unfold purgeCard.
    rewrite Hsel. fold size.
    destruct (Nat.leb_spec size 5); [lia|].
    unfold Qltb. apply Qle_bool_iff in Hrich. rewrite Hrich.
    cbn [negb after applyEffects].
    repeat split; try reflexivity.
    + intros c Hin. cbn in Hin.
      repeat (apply in_app_or in Hin; destruct Hin as [Hin|Hin]);
        exact (filter_drops_id _ _ Hin).
    + intros Hin. cbn. apply filter_keeps_others; assumption.
    + intros Hin. cbn. apply filter_keeps_others; assumption.
    + intros Hin. cbn. apply filter_keeps_others; assumption.
Qed.

Lemma purgeCard_spec_witness :
  let id := "10-spades-k3v9x0q2a" in
  let poor := set_essence 100 forgeState in
  (List.length (playerDeck forgeState) = 6%nat
   /\ purgeCost forgeState = 535%Z)
  /\ (selected (Some id) = Some id
      /\ (5 < List.length (playerDeck forgeState))%nat
      /\ inject_Z (purgeCost forgeState) <= essence forgeState
      /\ essence (after (purgeCard forgeState (Some id)) forgeState)
         = 600 - inject_Z 535
      /\ List.length
           (playerDeck (after (purgeCard forgeState (Some id)) forgeState))
         = 5%nat)
  /\ (essence poor < inject_Z (purgeCost poor)
      /\ onlyMessageChanged poor (after (purgeCard poor (Some id)) poor)).
Proof.
  intros id poor.
  pose proof (purgeCard_spec forgeState (Some id)) as Hrich.
  pose proof (purgeCard_spec poor (Some id)) as Hpoor.
  cbv zeta in Hrich, Hpoor.
  destruct Hrich as (_ & H6 & _ & _ & Hpurge).
  destruct Hpoor as (_ & _ & _ & Hnoop & _).
  assert (Hlen : List.length (playerDeck forgeState) = 6%nat) by reflexivity.
  assert (Hsel : selected (Some id) = Some id) by reflexivity.
  assert (Hsize : (5 < List.length (playerDeck forgeState))%nat)
    by (vm_compute; lia).
  assert (Henough : inject_Z (purgeCost forgeState) <= essence forgeState)
    by (vm_compute; discriminate).
  assert (Hshort : essence poor < inject_Z (purgeCost poor))
    by reflexivity.
  destruct (Hpurge id Hsel Hsize Henough) as (Hess & Hdeck & _).
  split; [split; [exact Hlen | exact (H6 Hlen)]|].
  split.
  - split; [exact Hsel|]. split; [exact Hsize|]. split; [exact Henough|].
    split; [exact Hess|]. rewrite Hdeck. reflexivity.
  - split; [exact Hshort | exact (Hnoop (or_intror Hshort))].
Defined.

(* ------------------------------------------------------------------ *)
(** ** Corruption tokens *)

Lemma Math_max_nonneg (x : Q) : 0 <= Math_max 0 x.
Proof.
  unfold Math_max. destruct (Qle_bool 0 x) eqn:E.
  - apply Qle_bool_iff. exact E.
  - apply Qle_refl.
Qed.

Lemma Math_max_clamps (x : Q) : x <= 0 -> Math_max 0 x == 0.
Proof.
  intros Hx. unfold Math_max. destruct (Qle_bool 0 x) eqn:E.
  - apply Qle_bool_iff in E. apply Qle_antisym; assumption.
  - reflexivity.
Qed.

(** Runs the binds of a handler down to its list of effects. *)
Ltac run_rand :=
  unfold bind;
  repeat match goal with
         | |- context [let (_, _) := ?e in _] => destruct e
         end;
  cbn [ret fst snd].

(** C10.  The corruption-token count is never negative after [placeBet],
    [hit], the Double Down handler or [useConsumable]: each of them writes
    the count through [Math.max(0, ...)] or leaves it alone, so a reduction
    (a corruption-reducing upgrade, the System Coolant) stops at 0. *)
Theorem corruptionTokens_never_negative
    (random : nat -> Q) (toString36 : Q -> string) (state : GameState)
    (Hstate : 0 <= corruptionTokens state) :
  (forall betAmount n,
      0 <= corruptionTokens
             (after (fst (placeBet random toString36 state betAmount n))
                state))
  /\ (forall n, 0 <= corruptionTokens (after (fst (hit random state n)) state))
  /\ (forall n,
         0 <= corruptionTokens (after (fst (doubleDown random state n)) state))
  /\ (forall index,
         0 <= corruptionTokens (after (useConsumable state index) state))
  /\ (forall index item,
         nth_error (inventory state) index = Some item ->
         Consumable.type item = reduce_threat ->
         corruptionTokens (after (useConsumable state index) state)
         = Math_max 0 (corruptionTokens state - 2))
  /\ (forall x, x <= 0 -> Math_max 0 x == 0).
Proof.
  split; [|split; [|split; [|split; [|split]]]].
  - intros betAmount n. unfold placeBet.
    destruct (Qltb (credits state) betAmount); [exact Hstate|].
    run_rand. apply Math_max_nonneg.
  - intros n. unfold hit. run_rand.
    destruct (card _); [|exact Hstate].
    cbn [ret fst]. unfold after. rewrite ?app_nil_l.
    destruct (21 <? _)%Z; [|destruct (_ =? 21)%Z]; apply Math_max_nonneg.
  - intros n. unfold doubleDown. run_rand.
    destruct (card _); [|exact Hstate].
    destruct (21 <? _)%Z; apply Math_max_nonneg.
  - intros index. unfold useConsumable.
    destruct (nth_error (inventory state) index) as [item|]; [|exact Hstate].
    destruct (Consumable.type item); try exact Hstate.
    apply Math_max_nonneg.
  - intros index item Hitem Htype. unfold useConsumable.
    rewrite Hitem, Htype. reflexivity.
  - exact Math_max_clamps.
Qed.

Lemma corruptionTokens_never_negative_witness :
  0 <= corruptionTokens tableState
  /\ 0 <= corruptionTokens (after (fst (hit zeroRandom tableState O)) tableState)
  /\ corruptionTokens (after (fst (hit zeroRandom tableState O)) tableState)
     = Math_max 0 (0 + (0 - 1))
  /\ 0 <= corruptionTokens (after (useConsumable tableState O) tableState).
Proof.
  assert (Hstate : 0 <= corruptionTokens tableState) by (vm_compute; discriminate).
  pose proof (@corruptionTokens_never_negative zeroRandom sameDigits
                tableState Hstate)
    as (_ & Hhit & _ & Huse & _).
  split; [exact Hstate|]. split; [exact (Hhit 0%nat)|].
  split; [reflexivity | exact (Huse 0%nat)].
Defined.

(* ------------------------------------------------------------------ *)
(** ** Betting *)

Lemma Qltb_true (x y : Q) : Qltb x y = true <-> x < y.
Proof.
  unfold Qltb. rewrite negb_true_iff. split.
  - intros H. apply Qnot_le_lt. intros Hle.
    apply Qle_bool_iff in Hle. congruence.
  - intros H. destruct (Qle_bool y x) eqn:E; [|reflexivity].
    apply Qle_bool_iff in E. exfalso. exact (Qlt_not_le _ _ H E).
Qed.

Lemma Qltb_false (x y : Q) : Qltb x y = false <-> y <= x.
Proof.
  unfold Qltb. rewrite negb_false_iff. apply Qle_bool_iff.
Qed.

Lemma dealtCredits_snoc (state : GameState) (hand : list PlayingCard)
    (c : PlayingCard) :
  dealtCredits state (hand ++ [c])
  == dealtCredits state hand + creditDelta (processCardEffects state c).
Proof.
  induction hand as [|d hand IH]; cbn.
  - ring.
  - fold (dealtCredits state (hand ++ [c])). fold (dealtCredits state hand).
    rewrite IH. ring.
Qed.

Lemma dealToPlayer_credit (state : GameState) (p : Draw)
    (acc : list PlayingCard * CardEffects) :
  creditDelta (snd acc) == dealtCredits state (fst acc) ->
  creditDelta (snd (dealToPlayer state p acc))
  == dealtCredits state (fst (dealToPlayer state p acc)).
Proof.
  intros Hacc. unfold dealToPlayer. destruct acc as [hand total].
  destruct (card p) as [c|]; cbn [fst snd creditDelta] in *.
  - rewrite dealtCredits_snoc, Hacc. reflexivity.
  - exact Hacc.
Qed.

(** C4, as the code has it.  [placeBet] checks the funds and nothing else:
    with fewer credits than the bet it changes only the status message;
    otherwise, in whatever phase, it deals, sets the current bet and takes
    the bet off the credits at once (the dealt cards' credit effects are
    added in the same update).  The phase is guarded by the view: outside
    the betting phase there is no Deal button, and with fewer credits than
    the bet the button is disabled, so a click queues nothing. *)
Theorem placeBet_spec (random : nat -> Q) (toString36 : Q -> string)
    (state : GameState) (betAmount : Q) (n : nat) :
  let s' := after (fst (placeBet random toString36 state betAmount n)) state in
  (credits state < betAmount ->
   onlyMessageChanged state s' /\ message s' = "Not enough credits.")
  /\ (betAmount <= credits state ->
      credits s'
      == credits state - betAmount + dealtCredits state (playerHand s')
      /\ currentBet s' = betAmount)
  /\ (phase state <> betting \/ credits state < betAmount ->
      fst (clickDeal random toString36 state betAmount n) = [])
  /\ (phase state = betting -> betAmount <= credits state ->
      clickDeal random toString36 state betAmount n
      = placeBet random toString36 state betAmount n).
Proof.
  intros s'. subst s'. split; [|split; [|split]].
  - intros Hpoor. apply Qltb_true in Hpoor.
    unfold placeBet. rewrite Hpoor. split; reflexivity.
  - intros Hrich. apply Qltb_false in Hrich.
    unfold placeBet. rewrite Hrich. unfold bind.
    destruct (drawCard random _ _ n) as [p1 n1].
    destruct (createDeck random toString36 n1) as [deck n2].
    destruct (shuffleDeck random deck n2) as [dealerDeck n3].
    destruct (drawCard random _ _ n3) as [p2 n4].
    match goal with
    | |- context [dealToPlayer state p2 (dealToPlayer state p1 ?start)] =>
        pose proof (@dealToPlayer_credit state p2 (dealToPlayer state p1 start)
                      (@dealToPlayer_credit state p1 start
                         (Qeq_refl 0))) as Hsum;
        destruct (dealToPlayer state p2 (dealToPlayer state p1 start))
          as [hand total]
    end.
    destruct (dealToDealer (dealToDealer _)) as [dealerHand rest].
    cbn [fst snd] in Hsum. cbn. rewrite Hsum. split; reflexivity.
  - intros Hgate. unfold clickDeal, dealShown, dealDisabled.
    destruct Hgate as [Hphase|Hpoor].
    + destruct (phase state); try reflexivity. congruence.
    + apply Qltb_true in Hpoor. rewrite Hpoor, andb_false_r. reflexivity.
  - intros Hphase Hrich. apply Qltb_false in Hrich.
    unfold clickDeal, dealShown, dealDisabled. rewrite Hphase, Hrich.
    reflexivity.
Qed.

Lemma placeBet_spec_witness :
  let s' := after (fst (placeBet zeroRandom sameDigits tableState 10 O))
              tableState in
  let poor := after (fst (placeBet zeroRandom sameDigits tableState 95 O))
                tableState in
  (10 <= credits tableState /\ currentBet s' = 10)
  /\ (credits tableState < 95 /\ onlyMessageChanged tableState poor)
  /\ (phase tableState <> betting
      /\ fst (clickDeal zeroRandom sameDigits tableState 10 O) = []).
Proof.
  intros s' poor.
  pose proof (placeBet_spec zeroRandom sameDigits tableState 10 O)
    as (_ & Hvalid & Hgate & _).
  pose proof (placeBet_spec zeroRandom sameDigits tableState 95 O)
    as (Hnoop & _).
  assert (Hrich : 10 <= credits tableState) by (vm_compute; discriminate).
  assert (Hpoor : credits tableState < 95) by reflexivity.
  assert (Hphase : phase tableState <> betting) by discriminate.
  split; [split; [exact Hrich | exact (proj2 (Hvalid Hrich))]|].
  split; [split; [exact Hpoor | exact (proj1 (Hnoop Hpoor))]|].
  split; [exact Hphase | exact (Hgate (or_introl Hphase))].
Defined.

(** C4 as stated fails: called outside the betting phase with enough
    credits, [placeBet] deals a new hand and takes the bet. *)
Lemma placeBet_wrong_phase_counterexample :
  ~ (forall random toString36 state betAmount n,
        phase state <> betting ->
        onlyMessageChanged state
          (after (fst (placeBet random toString36 state betAmount n)) state)).
Proof.
  intros Hclaim.
  assert (Hphase : phase tableState <> betting) by discriminate.
  specialize (Hclaim zeroRandom sameDigits tableState 10 O Hphase).
  apply (f_equal credits) in Hclaim.
  vm_compute in Hclaim. discriminate Hclaim.
Qed.

(* ------------------------------------------------------------------ *)
(** ** Double Down *)

(** The two updaters of the handler compose: whatever the card drawn, the
    second one runs on the bet the first one has already doubled. *)
Lemma doubleDown_updates_compose (random : nat -> Q) (state : GameState)
    (n : nat) (newCard : PlayingCard) :
  card (fst (drawCard random (drawPile state) (discardPile state) n))
  = Some newCard ->
  let s' := after (fst (doubleDown random state n)) state in
  let effects := processCardEffects state newCard in
  let hitCost := if hasPassive state "memory_leak" then 1 else 0 in
  currentBet s' = currentBet state * 2 * 2
  /\ credits s'
     = credits state - currentBet state - currentBet state * 2
       + creditDelta effects - hitCost
  /\ essence s' = essence state + essenceDelta effects + 5
  /\ playerHand s' = playerHand state ++ [newCard].
Proof.
  intros Hcard. unfold doubleDown, bind.
  destruct (drawCard random _ _ n) as [draw n']. cbn [fst] in Hcard.
  rewrite Hcard.
  destruct (21 <? _)%Z; repeat split; reflexivity.
Qed.

(** C3 at a failing input.  The player holds 5 and 6 on a bet of 10 with 90
    credits, so the Double Down button is shown.  After the click the
    current bet is 40 and the credits are 60: the bet was doubled twice and
    three more bets were taken, where doubling down stakes one more bet (bet
    20, credits 80).  One card was drawn, with its effects and the flat 5
    essence, and the phase is [dealer_turn]; on a hand that busts the phase
    is [round_over] and the resolution is scheduled with a bet of 20, half
    the current bet the state now holds. *)
Theorem doubleDown_quadruples_bet :
  let s' := after (fst (doubleDown zeroRandom tableState O)) tableState in
  let b' := after (fst (doubleDown zeroRandom bustState O)) bustState in
  doubleShown tableState = true
  /\ currentBet tableState == 10 /\ credits tableState == 90
  /\ currentBet s' == 40 /\ credits s' == 60
  /\ ~ currentBet s' == 20 /\ ~ credits s' == 80
  /\ playerHand s' = playerHand tableState ++ [nineOfHearts]
  /\ essence s' == essence tableState + 1 + 5
  /\ phase s' = dealer_turn
  /\ phase b' = round_over
  /\ currentBet b' == 40
  /\ timersOf (fst (doubleDown zeroRandom bustState O))
     = [ResolveRound bustState (playerHand bustState ++ [nineOfHearts])
          (dealerHand bustState) (10 * 2) true].
Proof.
  repeat split; try reflexivity; vm_compute; discriminate.
Qed.

(* ------------------------------------------------------------------ *)
(** ** Round resolution *)

Lemma resolveRound_after (random : nat -> Q)
    (Array_sort : (CardUpgrade -> CardUpgrade -> Rand Q)
                  -> list CardUpgrade -> Rand (list CardUpgrade))
    (state prev : GameState) (pHand dHand : list PlayingCard) (bet : Q)
    (busted : bool) (n : nat) :
  let v := adjudicate random state pHand dHand bet busted n in
  let g := progression random Array_sort state (fst v) (snd v) in
  let hk := hooks busted (calculateHandScore pHand) pHand in
  after (fst (resolveRound random Array_sort state pHand dHand bet busted n))
    prev
  = resolveUpdate pHand dHand
      (roundPayout random state pHand dHand bet busted n) (snd hk)
      (essenceBonus (fst v)) (fst hk) (fst g) prev
  /\ snd (resolveRound random Array_sort state pHand dHand bet busted n)
     = snd g.
Proof.
  unfold resolveRound, roundPayout, roundVerdict, bind.
  destruct (hooks busted _ pHand) as [extraEssence extraCredits].
  destruct (adjudicate random state pHand dHand bet busted n) as [v n1].
  cbn [fst snd].
  destruct (progression random Array_sort state v n1) as [g n2].
  split; reflexivity.
Qed.





(* ------------------------------------------------------------------ *)
(** ** Shields *)

Lemma trialsFrom_app (random : nat -> Q) (a b : list Q) (n : nat) :
  trialsFrom random (a ++ b) n
  = trialsFrom random a n ++ trialsFrom random b (n + List.length a).
Proof.
  revert n. induction a as [|v a IH]; intros n; cbn.
  - rewrite Nat.add_0_r. reflexivity.
  - rewrite IH. do 3 f_equal. lia.
Qed.

Lemma trialsFrom_length (random : nat -> Q) (values : list Q) (n : nat) :
  List.length (trialsFrom random values n) = List.length values.
Proof.
  revert n. induction values as [|v values IH]; intros n; cbn; auto.
Qed.

Lemma shieldUpgrades_trials (random : nat -> Q) (us : list CardUpgrade)
    (triggered : bool) (n : nat) :
  let values :=
    map CardUpgrade.value
      (filter (fun u => EffectType_eqb (CardUpgrade.effectType u) shield) us) in
  shieldUpgrades random us triggered n
  = (triggered || existsb succeeds (trialsFrom random values n),
     (n + List.length values)%nat).
Proof.
  revert triggered n.
  induction us as [|u us IH]; intros triggered n; cbn.
  - rewrite orb_false_r, Nat.add_0_r. reflexivity.
  - destruct (EffectType_eqb (CardUpgrade.effectType u) shield); cbn.
    + unfold bind, Math_random. rewrite IH. unfold succeeds at 2. cbn [fst snd].
      f_equal; [|lia].
      destruct (Qltb (random n) (CardUpgrade.value u)), triggered; reflexivity.
    + apply IH.
Qed.

Lemma shieldCards_trials (random : nat -> Q) (pHand : list PlayingCard)
    (triggered : bool) (n : nat) :
  shieldCards random pHand triggered n
  = (triggered || existsb succeeds (trialsFrom random (shieldValues pHand) n),
     (n + List.length (shieldValues pHand))%nat).
Proof.
  revert triggered n.
  induction pHand as [|c pHand IH]; intros triggered n.
  - cbn. rewrite orb_false_r, Nat.add_0_r. reflexivity.
  - cbn [shieldCards]. unfold bind.
    rewrite shieldUpgrades_trials, IH.
    change (shieldValues (c :: pHand))
      with (map CardUpgrade.value
              (filter (fun u => EffectType_eqb (CardUpgrade.effectType u) shield)
                 (PlayingCard.upgrades c))
            ++ shieldValues pHand).
    rewrite trialsFrom_app, existsb_app, length_app, orb_assoc.
    f_equal. lia.
Qed.

Lemma sure_trial_succeeds (random : nat -> Q) (values : list Q) (n : nat) :
  (forall k, random k < 1) ->
  (exists v, In v values /\ 1 <= v) ->
  existsb succeeds (trialsFrom random values n) = true.
Proof.
  intros Hrange [v [Hin Hv]]. revert n.
  induction values as [|w values IH]; intros n; [destruct Hin|].
  cbn. destruct Hin as [-> | Hin].
  - unfold succeeds. cbn [fst snd].
    assert (Hlt : Qltb (random n) v = true).
    { apply Qltb_true. eapply Qlt_le_trans; [apply Hrange | exact Hv]. }
    rewrite Hlt. reflexivity.
  - rewrite (IH Hin). apply orb_true_r.
Qed.

(** On a bust, [resolveRound] makes one draw for every shield upgrade of
    every card of the player's hand, and no other, each upgrade against its
    own draw, and the trial succeeds when the draw is below the upgrade's
    value.  If some trial succeeds the payout is half the bet, otherwise 0;
    either way the round is not a win and the multiplier is not applied.
    The tokens, house level and threshold it writes are those of the render
    [state] it was scheduled in, whatever the state [prev] it runs on
    holds.  With draws below 1, a shield of value 1 or more always
    mitigates. *)
Lemma busted_shield_trials (random : nat -> Q)
    (Array_sort : (CardUpgrade -> CardUpgrade -> Rand Q)
                  -> list CardUpgrade -> Rand (list CardUpgrade))
    (state prev : GameState) (pHand dHand : list PlayingCard) (bet : Q)
    (n : nat) :
  let values := shieldValues pHand in
  let trials := trialsFrom random values n in
  let mitigated := existsb succeeds trials in
  let v := roundVerdict random state pHand dHand bet true n in
  let payout := roundPayout random state pHand dHand bet true n in
  let run := resolveRound random Array_sort state pHand dHand bet true n in
  let s' := after (fst run) prev in
  List.length trials = List.length values
  /\ snd run = (n + List.length values)%nat
  /\ win v = false
  /\ payout = (if mitigated then bet * 0.5 else 0)
  /\ msg v = (if mitigated then "FAILURE MITIGATED [SHIELD]."
              else "Busted! House wins.")
  /\ progressOf s' = progressOf state
  /\ credits s'
     = credits prev + (if mitigated then bet * 0.5 else 0)
       + snd (hooks true (calculateHandScore pHand) pHand)
  /\ ((forall k, random k < 1) ->
      (exists x, In x values /\ 1 <= x) ->
      mitigated = true /\ payout = bet * 0.5).
Proof.
  intros values trials mitigated v payout run s'.
  assert (Hadj : adjudicate random state pHand dHand bet true n
                 = (if mitigated
                    then {| win := false; payout := bet * 0.5;
                            essenceBonus := 0;
                            msg := "FAILURE MITIGATED [SHIELD]." |}
                    else {| win := false; payout := 0; essenceBonus := 0;
                            msg := "Busted! House wins." |},
                    (n + List.length values)%nat)).
  { unfold adjudicate, bind. rewrite shieldCards_trials. reflexivity. }
  assert (Hwin : win v = false).
  { subst v. unfold roundVerdict. rewrite Hadj. cbn [fst].
    destruct mitigated; reflexivity. }
  assert (Hpay : payout = (if mitigated then bet * 0.5 else 0)).
  { subst payout. unfold roundPayout, applyMultiplier.
    fold v. rewrite Hwin. subst v. unfold roundVerdict. rewrite Hadj.
    cbn [fst]. destruct mitigated; reflexivity. }
  pose proof (resolveRound_after random Array_sort state prev pHand dHand bet
                true n) as [Hafter Hdraws].
  cbv zeta in Hafter, Hdraws. fold run in Hafter, Hdraws. fold s' in Hafter.
  fold payout in Hafter.
  assert (Hprog : forall k,
             progression random Array_sort state
               (fst (adjudicate random state pHand dHand bet true n)) k
             = ({| newCorruption := corruptionTokens state;
                   newHouseLevel := houseLevel state;
                   newThreshold := corruptionThreshold state;
                   newPassives := activePassives state;
                   nextPhase := round_over;
                   newOfferedUpgrades := [];
                   finalMsg := msg v |}, k)).
  { intros k. unfold progression. fold (roundVerdict random state pHand dHand
                                          bet true n). fold v.
    rewrite Hwin. reflexivity. }
  rewrite Hprog in Hafter, Hdraws.
  split; [apply trialsFrom_length|].
  split; [rewrite Hdraws, Hadj; reflexivity|].
  split; [exact Hwin|].
  split; [exact Hpay|].
  split; [subst v; unfold roundVerdict; rewrite Hadj; cbn [fst];
          destruct mitigated; reflexivity|].
  split; [rewrite Hafter; reflexivity|].
  split; [rewrite Hafter, Hpay; reflexivity|].
  intros Hrange Hsure.
  assert (Hm : mitigated = true)
    by (exact (sure_trial_succeeds random values n Hrange Hsure)).
  split; [exact Hm|]. rewrite Hpay, Hm. reflexivity.
Qed.

Lemma busted_shield_trials_witness :
  (forall k, zeroRandom k < 1)
  /\ (exists x, In x (shieldValues shieldedBust) /\ 1 <= x)
  /\ roundPayout zeroRandom tableState shieldedBust dealerSeventeen 10 true O
     = 10 * 0.5.
Proof.
  assert (Hrange : forall k, zeroRandom k < 1) by (intros k; reflexivity).
  assert (Hsure : exists x, In x (shieldValues shieldedBust) /\ 1 <= x).
  { exists 1.0. split; [left; reflexivity | vm_compute; discriminate]. }
  split; [exact Hrange|]. split; [exact Hsure|].
  pose proof (busted_shield_trials zeroRandom keepOrder tableState tableState
                shieldedBust dealerSeventeen 10 O) as H.
  cbv zeta in H.
  destruct H as (_ & _ & _ & _ & _ & _ & _ & Halways).
  exact (proj2 (Halways Hrange Hsure)).
Defined.

(** C6 at a failing input.  At house level 1 with three corruption tokens
    the player holds 10 and a 6 with a Firewall Shard on a bet of 10, and
    hits; the 9 of hearts that is drawn carries a Cooling Fan.  The hand
    busts on 25 and the updater of [hit] takes the token count from 3 to 2.
    The resolution that [hit] scheduled then runs with [busted = true]: the
    shield's trial succeeds, half the bet is paid and the round is a loss
    without a win multiplier, but the token count it writes is the one of
    the render in which [hit] ran.  The stored count rises from 2 to 3 in a
    busted resolution, where a loss adds no token; level and threshold stay
    as they were. *)
Theorem busted_resolution_raises_tokens :
  let click := hit zeroRandom heatedTable O in
  let s1 := after (fst click) heatedTable in
  let timer :=
    ResolveRound heatedTable heatedBust (dealerHand heatedTable) 10 true in
  let v :=
    roundVerdict zeroRandom heatedTable heatedBust (dealerHand heatedTable) 10
      true (snd click) in
  let s2 := after (fst (fire zeroRandom keepOrder timer (snd click))) s1 in
  corruptionTokens heatedTable == 3
  /\ currentBet heatedTable == 10
  /\ playerHand s1 = heatedBust
  /\ calculateHandScore heatedBust = 25%Z
  /\ phase s1 = round_over
  /\ corruptionTokens s1 == 2
  /\ timersOf (fst click) = [timer]
  /\ shieldValues heatedBust = [0.5]
  /\ win v = false
  /\ msg v = "FAILURE MITIGATED [SHIELD]."
  /\ roundPayout zeroRandom heatedTable heatedBust (dealerHand heatedTable) 10
       true (snd click) == 10 * 0.5
  /\ credits s2 == credits s1 + 5
  /\ corruptionTokens s2 == 3
  /\ corruptionTokens s2 == corruptionTokens s1 + 1
  /\ ~ corruptionTokens s2 == corruptionTokens s1
  /\ houseLevel s2 = houseLevel s1
  /\ corruptionThreshold s2 == corruptionThreshold s1.
Proof.
  repeat split; try reflexivity; vm_compute; discriminate.
Qed.

(* ------------------------------------------------------------------ *)
(** ** Progression *)

Lemma progression_bump (random : nat -> Q)
    (Array_sort : (CardUpgrade -> CardUpgrade -> Rand Q)
                  -> list CardUpgrade -> Rand (list CardUpgrade))
    (state : GameState) (v : Verdict) (n : nat) :
  let g := fst (progression random Array_sort state v n) in
  (newCorruption g, newHouseLevel g, newThreshold g)
  = if win v then bump (progressOf state) else progressOf state.
Proof.
  unfold progression, progressOf, bump, Qgeb.
  destruct (win v); [|reflexivity].
  destruct (Qle_bool (corruptionThreshold state) (corruptionTokens state + 1));
    [|reflexivity].
  unfold bind.
  destruct (if (0 <? _)%nat then _ else _) as [offer n1].
  destruct (if ((5 <? _) && _)%Z then _ else _) as [glitch n2].
  reflexivity.
Qed.

Lemma resolveRound_progress (random : nat -> Q)
    (Array_sort : (CardUpgrade -> CardUpgrade -> Rand Q)
                  -> list CardUpgrade -> Rand (list CardUpgrade))
    (state prev : GameState) (pHand dHand : list PlayingCard) (bet : Q)
    (busted : bool) (n : nat) :
  progressOf
    (after (fst (resolveRound random Array_sort state pHand dHand bet busted n))
       prev)
  = if win (roundVerdict random state pHand dHand bet busted n)
    then bump (progressOf state) else progressOf state.
Proof.
  pose proof (resolveRound_after random Array_sort state prev pHand dHand bet
                busted n) as [Hafter _].
  cbv zeta in Hafter. rewrite Hafter.
  rewrite <- progression_bump
    with (random := random) (Array_sort := Array_sort)
         (n := snd (adjudicate random state pHand dHand bet busted n)).
  reflexivity.
Qed.

Lemma bump_threshold (p : Q * Z * Q) : snd p <= snd (bump p).
Proof.
  destruct p as [[tokens level] threshold]. unfold bump.
  destruct (Qle_bool threshold (tokens + 1)); cbn [snd].
  - rewrite <- (Qplus_0_r threshold) at 1.
    apply Qplus_le_r. discriminate.
  - apply Qle_refl.
Qed.

Lemma winRounds_progress (random : nat -> Q)
    (Array_sort : (CardUpgrade -> CardUpgrade -> Rand Q)
                  -> list CardUpgrade -> Rand (list CardUpgrade))
    (k : nat) (s : GameState) (n : nat) :
  progressOf (fst (winRounds random Array_sort k s n))
  = Nat.iter k bump (progressOf s).
Proof.
  revert s n. induction k as [|k IH]; intros s n; [reflexivity|].
  cbn [winRounds].
  pose proof (resolveRound_progress random Array_sort s s eighteen
                dealerSeventeen 10 false n) as Hstep.
  destruct (resolveRound random Array_sort s eighteen dealerSeventeen 10
              false n) as [effs n'].
  cbn [fst] in Hstep. rewrite IH, Hstep.
  replace (win (roundVerdict random s eighteen dealerSeventeen 10 false n))
    with true by reflexivity.
  symmetry. apply Nat.iter_succ_r.
Qed.

(** No handler but [resolveRound] writes the threshold. *)
Lemma threshold_kept (random : nat -> Q) (toString36 : Q -> string)
    (state : GameState) (globalState : GlobalState) (n : nat) :
  thresholdKept random toString36 state globalState n.
Proof.
  unfold thresholdKept. cbv zeta beta.
  repeat match goal with |- _ /\ _ => split end; try reflexivity.
  - intros betAmount. unfold placeBet.
    destruct (Qltb (credits state) betAmount); [reflexivity|].
    run_rand. reflexivity.
  - unfold hit. run_rand. destruct (card _); [|reflexivity].
    destruct (21 <? _)%Z; [|destruct (_ =? 21)%Z]; reflexivity.
  - unfold doubleDown. run_rand. destruct (card _); [|reflexivity].
    destruct (21 <? _)%Z; reflexivity.
  - intros index. unfold useConsumable.
    destruct (nth_error (inventory state) index) as [item|]; [|reflexivity].
    destruct (Consumable.type item); reflexivity.
  - intros sel upgrade. unfold buyUpgrade.
    destruct (selected sel); [|reflexivity].
    destruct (Qltb (essence state) _); reflexivity.
  - intros item. unfold buyConsumable.
    destruct (3 <=? _)%nat; [reflexivity|].
    destruct (Qltb (essence state) _); reflexivity.
  - intros passive. unfold buyPassive.
    destruct (Passive.cost passive) as [c|]; [|reflexivity].
    destruct (Qeq_bool c 0); [reflexivity|].
    destruct (Qltb (essence state) _); [reflexivity|].
    destruct (hasPassive state (Passive.id passive)); reflexivity.
  - intros sel. unfold purgeCard.
    destruct (selected sel); [|reflexivity].
    destruct (_ <=? 5)%nat; [reflexivity|].
    destruct (Qltb (essence state) _); reflexivity.
Qed.

(** C7.  A round that resolves as a win adds exactly one corruption token;
    when the count reaches the threshold the house level rises by 1, the
    tokens go back to 0 and the threshold rises by exactly 2.  A round that
    is not a win leaves all three alone, and no other handler writes the
    threshold, so it never decreases.
    From house level 1, no tokens and threshold 8, eight wins in a row give
    house level 2, no tokens and threshold 10 (and seven give 7 tokens at
    house level 1). *)
Theorem win_progression (random : nat -> Q)
    (Array_sort : (CardUpgrade -> CardUpgrade -> Rand Q)
                  -> list CardUpgrade -> Rand (list CardUpgrade))
    (state prev : GameState) (pHand dHand : list PlayingCard) (bet : Q)
    (busted : bool) (n : nat) :
  let v := roundVerdict random state pHand dHand bet busted n in
  let s' :=
    after (fst (resolveRound random Array_sort state pHand dHand bet busted n))
      prev in
  (win v = true ->
   (corruptionTokens state + 1 < corruptionThreshold state ->
    corruptionTokens s' = corruptionTokens state + 1
    /\ houseLevel s' = houseLevel state
    /\ corruptionThreshold s' = corruptionThreshold state)
   /\ (corruptionThreshold state <= corruptionTokens state + 1 ->
       corruptionTokens s' = 0
       /\ houseLevel s' = (houseLevel state + 1)%Z
       /\ corruptionThreshold s' = corruptionThreshold state + 2))
  /\ (win v = false -> progressOf s' = progressOf state)
  /\ corruptionThreshold state <= corruptionThreshold s'
  /\ (forall toString36 globalState,
         thresholdKept random toString36 state globalState n)
  /\ (forall s0 k,
         houseLevel s0 = 1%Z ->
         corruptionTokens s0 = 0 ->
         corruptionThreshold s0 = 8 ->
         let s7 := fst (winRounds random Array_sort 7 s0 k) in
         let s8 := fst (winRounds random Array_sort 8 s0 k) in
         (houseLevel s7 = 1%Z /\ corruptionTokens s7 == 7
          /\ corruptionThreshold s7 == 8)
         /\ (houseLevel s8 = 2%Z /\ corruptionTokens s8 == 0
             /\ corruptionThreshold s8 == 10)).
Proof.
  intros v s'.
  pose proof (resolveRound_progress random Array_sort state prev pHand dHand
                bet busted n) as Hprog.
  fold v s' in Hprog. unfold progressOf in Hprog at 1.
  split; [|split; [|split; [|split]]].
  - intros Hwin. rewrite Hwin in Hprog. unfold progressOf, bump in Hprog.
    split.
    + intros Hbelow.
      assert (Hle : Qle_bool (corruptionThreshold state)
                      (corruptionTokens state + 1) = false).
      { destruct (Qle_bool _ _) eqn:E; [|reflexivity].
        apply Qle_bool_iff in E. exfalso. exact (Qlt_not_le _ _ Hbelow E). }
      rewrite Hle in Hprog. inversion Hprog. repeat split; reflexivity.
    + intros Hreach. apply Qle_bool_iff in Hreach. rewrite Hreach in Hprog.
      inversion Hprog. repeat split; reflexivity.
  - intros Hlose. rewrite Hlose in Hprog. exact Hprog.
  - assert (Hthr : corruptionThreshold s'
                   = snd (if win v then bump (progressOf state)
                          else progressOf state))
      by (rewrite <- Hprog; reflexivity).
    rewrite Hthr. destruct (win v).
    + exact (bump_threshold (progressOf state)).
    + apply Qle_refl.
  - intros toString36 globalState. apply threshold_kept.
  - intros s0 k Hlevel Htokens Hthreshold s7 s8.
    assert (E7 : Nat.iter 7 bump (0, 1%Z, 8) = (7, 1%Z, 8))
      by (vm_compute; reflexivity).
    assert (E8 : Nat.iter 8 bump (0, 1%Z, 8) = (0, 2%Z, 10))
      by (vm_compute; reflexivity).
    pose proof (winRounds_progress random Array_sort 7 s0 k) as H7.
    pose proof (winRounds_progress random Array_sort 8 s0 k) as H8.
    fold s7 in H7. fold s8 in H8.
    assert (Hstart : progressOf s0 = (0, 1%Z, 8))
      by (unfold progressOf; rewrite Hlevel, Htokens, Hthreshold; reflexivity).
    rewrite Hstart in H7, H8. rewrite E7 in H7. rewrite E8 in H8.
    unfold progressOf in H7, H8.
    injection H7 as Ht7 Hl7 Hth7. injection H8 as Ht8 Hl8 Hth8.
    rewrite Ht7, Hl7, Hth7, Ht8, Hl8, Hth8.
    repeat split; reflexivity.
Qed.

Lemma win_progression_witness :
  win (roundVerdict zeroRandom tableState eighteen dealerSeventeen 10 false O)
  = true
  /\ corruptionTokens tableState + 1 < corruptionThreshold tableState
  /\ corruptionTokens
       (after (fst (resolveRound zeroRandom keepOrder tableState eighteen
                      dealerSeventeen 10 false O)) tableState)
     = 0 + 1
  /\ houseLevel (fst (winRounds zeroRandom keepOrder 8 tableState O)) = 2%Z
  /\ corruptionThreshold (fst (winRounds zeroRandom keepOrder 8 tableState O))
     == 10.
Proof.
  pose proof (win_progression zeroRandom keepOrder tableState tableState
                eighteen dealerSeventeen 10 false O) as H.
  cbv zeta in H. destruct H as (Hwin & _ & _ & _ & Height).
  assert (Hv : win (roundVerdict zeroRandom tableState eighteen
                      dealerSeventeen 10 false O) = true) by reflexivity.
  assert (Hbelow : corruptionTokens tableState + 1
                   < corruptionThreshold tableState) by reflexivity.
  destruct (Hwin Hv) as [Hone _].
  destruct (Hone Hbelow) as (Htokens & _).
  destruct (Height tableState O eq_refl eq_refl eq_refl)
    as (_ & Hlevel & _ & Hthreshold).
  split; [exact Hv|]. split; [exact Hbelow|]. split; [exact Htokens|].
  split; [exact Hlevel | exact Hthreshold].
Defined.

(* ------------------------------------------------------------------ *)
(** ** The master deck and the piles *)

Lemma setNth_replaces {A} (l : list A) (i : nat) (a x : A) :
  nth_error l i = Some a -> Permutation (x :: l) (a :: setNth i x l).
Proof.
  revert i. induction l as [|y l IH]; intros i Hi.
  - destruct i; discriminate Hi.
  - destruct i as [|i]; cbn in *.
    + injection Hi as ->. apply perm_swap.
    + apply Permutation_trans with (y :: x :: l); [apply perm_swap|].
      apply Permutation_trans with (y :: a :: setNth i x l);
        [apply perm_skip, IH, Hi | apply perm_swap].
Qed.

Lemma nth_error_setNth {A} (l : list A) (i j : nat) (x b : A) :
  nth_error l i <> None ->
  nth_error l j = Some b ->
  nth_error (setNth i x l) j = Some (if (i =? j)%nat then x else b).
Proof.
  revert i j. induction l as [|y l IH]; intros i j Hi Hj.
  - destruct j; discriminate Hj.
  - destruct i as [|i], j as [|j]; cbn in *; try assumption; try reflexivity.
    apply IH; assumption.
Qed.

Lemma swap_permutes {A} (i j : nat) (l : list A) : Permutation (swap i j l) l.
Proof.
  unfold swap.
  destruct (nth_error l i) as [a|] eqn:Hi; [|reflexivity].
  destruct (nth_error l j) as [b|] eqn:Hj; [|reflexivity].
  assert (Hj' : nth_error (setNth i b l) j = Some b).
  { rewrite (@nth_error_setNth _ l i j b b); [|congruence|exact Hj].
    destruct (i =? j)%nat; reflexivity. }
  apply Permutation_cons_inv with (a := b). symmetry.
  apply Permutation_trans with (a :: setNth i b l).
  - apply setNth_replaces, Hi.
  - apply setNth_replaces, Hj'.
Qed.

Lemma shuffleDeck_permutes (random : nat -> Q) (deck : list PlayingCard)
    (n : nat) :
  Permutation (fst (shuffleDeck random deck n)) deck.
Proof.
  unfold shuffleDeck. generalize (List.length deck - 1)%nat. intros i.
  revert deck n. induction i as [|i IH]; intros deck n; [reflexivity|].
  cbn [shuffleLoop]. unfold bind, Math_random.
  rewrite IH. apply swap_permutes.
Qed.

Lemma pop_last {A} (l : list A) :
  match pop l with
  | (Some x, rest) => l = rest ++ [x]
  | (None, rest) => l = [] /\ rest = []
  end.
Proof.
  unfold pop. destruct (rev l) as [|x r] eqn:Hrev.
  - split; [|reflexivity].
    rewrite <- (rev_involutive l), Hrev. reflexivity.
  - rewrite <- (rev_involutive l), Hrev. reflexivity.
Qed.

(** [drawCard] moves cards between the piles and the drawn card: it neither
    drops nor invents one. *)
Lemma drawCard_conserves (random : nat -> Q)
    (currentDrawPile currentDiscardPile : list PlayingCard) (n : nat) :
  let draw := fst (drawCard random currentDrawPile currentDiscardPile n) in
  Permutation
    (newDraw draw ++ newDiscard draw
       ++ match card draw with Some c => [c] | None => [] end)
    (currentDrawPile ++ currentDiscardPile).
Proof.
  unfold drawCard, bind.
  destruct (List.length currentDrawPile =? 0)%nat eqn:Hempty.
  - apply Nat.eqb_eq, length_zero_iff_nil in Hempty. subst currentDrawPile.
    pose proof (shuffleDeck_permutes random currentDiscardPile n) as Hperm.
    destruct (shuffleDeck random currentDiscardPile n) as [d n'].
    cbn [fst snd ret] in *.
    pose proof (pop_last d) as Hpop. destruct (pop d) as [[c|] rest];
      cbn [fst card newDraw newDiscard app].
    + rewrite Hpop in Hperm. exact Hperm.
    + destruct Hpop as [-> ->]. exact Hperm.
  - cbn [ret fst snd].
    pose proof (pop_last currentDrawPile) as Hpop.
    destruct (pop currentDrawPile) as [[c|] rest];
      cbn [fst card newDraw newDiscard].
    + rewrite Hpop, <- app_assoc. apply Permutation_app_head.
      apply Permutation_app_comm.
    + destruct Hpop as [-> ->]. rewrite app_nil_r. reflexivity.
Qed.

Lemma cards_to_hand {A} (a b d e h x : list A) :
  Permutation (a ++ b ++ x) (d ++ e) ->
  Permutation (a ++ b ++ h ++ x) (d ++ e ++ h).
Proof.
  intros Hdraw.
  apply Permutation_trans with ((a ++ b ++ x) ++ h).
  - rewrite <- !app_assoc. do 2 apply Permutation_app_head.
    apply Permutation_app_comm.
  - rewrite (app_assoc d e h). apply Permutation_app_tail. exact Hdraw.
Qed.

(** [hit] keeps the player's cards: what the piles and the hand hold after
    it is what they held before. *)
Lemma hit_conserves (random : nat -> Q) (state : GameState) (n : nat) :
  Permutation (playerCards (after (fst (hit random state n)) state))
    (playerCards state).
Proof.
  unfold hit, bind.
  pose proof (drawCard_conserves random (drawPile state) (discardPile state) n)
    as Hdraw. cbv zeta in Hdraw.
  destruct (drawCard random (drawPile state) (discardPile state) n)
    as [draw n']. cbn [fst] in Hdraw.
  destruct (card draw) as [newCard|]; [|reflexivity].
  pose proof (@cards_to_hand _ _ _ _ _ (playerHand state) _ Hdraw) as Hhand.
  destruct (21 <? _)%Z; [|destruct (_ =? 21)%Z]; exact Hhand.
Qed.

(** So does [placeBet] when the hand is empty, as it is in the betting
    phase: the two cards dealt to the player come off the piles. *)
Lemma placeBet_conserves (random : nat -> Q) (toString36 : Q -> string)
    (state : GameState) (betAmount : Q) (n : nat) :
  playerHand state = [] ->
  Permutation
    (playerCards
       (after (fst (placeBet random toString36 state betAmount n)) state))
    (playerCards state).
Proof.
  intros Hhand. unfold placeBet.
  destruct (Qltb (credits state) betAmount); [reflexivity|].
  unfold bind.
  pose proof (drawCard_conserves random (drawPile state) (discardPile state) n)
    as Hdraw1. cbv zeta in Hdraw1.
  destruct (drawCard random (drawPile state) (discardPile state) n)
    as [p1 n1]. cbn [fst] in Hdraw1.
  destruct (createDeck random toString36 n1) as [deck n2].
  destruct (shuffleDeck random deck n2) as [dealerDeck n3].
  pose proof (drawCard_conserves random (newDraw p1) (newDiscard p1) n3)
    as Hdraw2. cbv zeta in Hdraw2.
  destruct (drawCard random (newDraw p1) (newDiscard p1) n3) as [p2 n4].
  cbn [fst] in Hdraw2.
  assert (Hdealt : forall start,
             fst (dealToPlayer state p2 (dealToPlayer state p1 ([], start)))
             = match card p1 with Some c => [c] | None => [] end
               ++ match card p2 with Some c => [c] | None => [] end).
  { intros start. unfold dealToPlayer.
    destruct (card p1), (card p2); reflexivity. }
  match goal with
  | |- context [dealToPlayer state p2 (dealToPlayer state p1 ([], ?start))] =>
      specialize (Hdealt start);
      destruct (dealToPlayer state p2 (dealToPlayer state p1 ([], start)))
        as [hand total]
  end.
  destruct (dealToDealer (dealToDealer _)) as [dealerHand rest].
  cbn [fst] in Hdealt. subst hand.
  unfold playerCards at 2. rewrite Hhand, app_nil_r.
  apply Permutation_trans with (newDraw p1 ++ newDiscard p1
                                ++ match card p1 with
                                   | Some c => [c] | None => [] end);
    [|exact Hdraw1].
  exact (@cards_to_hand _ _ _ _ _ _ _ Hdraw2).
Qed.

(** Whatever the outcome, the cards of the dealer's hand end in the
    player's discard pile. *)
Lemma resolveRound_discards_dealer (random : nat -> Q)
    (Array_sort : (CardUpgrade -> CardUpgrade -> Rand Q)
                  -> list CardUpgrade -> Rand (list CardUpgrade))
    (state prev : GameState) (pHand dHand : list PlayingCard) (bet : Q)
    (busted : bool) (n : nat) :
  discardPile
    (after (fst (resolveRound random Array_sort state pHand dHand bet busted n))
       prev)
  = discardPile prev ++ pHand ++ dHand.
Proof.
  pose proof (resolveRound_after random Array_sort state prev pHand dHand bet
                busted n) as [Hafter _].
  cbv zeta in Hafter. rewrite Hafter. reflexivity.
Qed.

(** C1 at a failing input.  In [tableState] the ids of the master deck are
    those of the draw pile, the discard pile and the hand.  The player
    stands, the dealer (on 17) stands and the round resolves, then Next
    Hand is clicked: the discard pile now holds the dealer's king and
    seven, whose ids are not in the master deck, and the piles and hand hold
    seven cards for a master deck of five.  Before Next Hand, the two cards
    of the hand are in the discard pile as well. *)
Theorem dealer_cards_enter_discardPile :
  let s1 := after stand tableState in
  let s2 := after (fst (dealerTurn zeroRandom sameDigits keepOrder s1 O)) s1 in
  let s3 := after nextHand s2 in
  Permutation (cardIds (playerDeck tableState)) (cardIds (playerCards tableState))
  /\ phase s1 = dealer_turn
  /\ phase s2 = round_over
  /\ playerHand s2 = [fiveOfClubs; sixOfDiamonds]
  /\ discardPile s2 = [fiveOfClubs; sixOfDiamonds; dealerKing; dealerSeven]
  /\ phase s3 = betting
  /\ playerDeck s3 = playerDeck tableState
  /\ playerCards s3
     = [eightOfHearts; threeOfSpades; nineOfHearts;
        fiveOfClubs; sixOfDiamonds; dealerKing; dealerSeven]
  /\ In dealerKing (discardPile s3)
  /\ ~ In (PlayingCard.id dealerKing) (cardIds (playerDeck s3))
  /\ ~ Permutation (cardIds (playerDeck s3)) (cardIds (playerCards s3)).
Proof.
  intros s1 s2 s3.
  assert (Hcards : playerCards s3
                   = [eightOfHearts; threeOfSpades; nineOfHearts;
                      fiveOfClubs; sixOfDiamonds; dealerKing; dealerSeven])
    by reflexivity.
  split.
  { change (cardIds (playerCards tableState))
      with (cardIds [eightOfHearts; threeOfSpades; nineOfHearts]
            ++ cardIds [fiveOfClubs; sixOfDiamonds]).
    change (cardIds (playerDeck tableState))
      with (cardIds [fiveOfClubs; sixOfDiamonds]
            ++ cardIds [eightOfHearts; threeOfSpades; nineOfHearts]).
    apply Permutation_app_comm. }
  repeat (split; [reflexivity|]).
  split; [right; right; left; reflexivity|].
  split.
  - vm_compute. intros H.
    repeat (destruct H as [H|H]; [discriminate H|]). exact H.
  - intros Hperm. apply Permutation_length in Hperm.
    rewrite Hcards in Hperm. vm_compute in Hperm. discriminate Hperm.
Qed.

(* ------------------------------------------------------------------ *)
(** ** Decks *)

Lemma createRanks_spec (random : nat -> Q) (toString36 : Q -> string)
    (s : Suit) (rs : list Rank) (deck : list PlayingCard) (n : nat) :
  let out := createRanks random toString36 s rs deck n in
  map suitRank (fst out) = map suitRank deck ++ map (pair s) rs
  /\ (Forall freshCard deck -> Forall freshCard (fst out))
  /\ snd out = (List.length rs + n)%nat.
Proof.
  revert deck n. induction rs as [|r rs IH]; intros deck n.
  - cbn. rewrite app_nil_r. auto.
  - cbn [createRanks]. unfold newCard, Math_random, ret, bind.
    cbv beta iota zeta.
    specialize (IH (deck ++ [PlayingCard.mk
                               (rankName r ++ "-" ++ suitName s ++ "-"
                                  ++ substring 2 9 (toString36 (random n)))
                               s r (rankValue r) []]) (S n)).
    cbv zeta in IH. destruct IH as (Hmap & Hfresh & Hn).
    split; [|split].
    + rewrite Hmap, map_app, <- app_assoc. reflexivity.
    + intros Hdeck. apply Hfresh. apply Forall_app. split; [exact Hdeck|].
      constructor; [|constructor].
      repeat split. eexists. reflexivity.
    + rewrite Hn. cbn. lia.
Qed.

Lemma createSuits_spec (random : nat -> Q) (toString36 : Q -> string)
    (ss : list Suit) (deck : list PlayingCard) (n : nat) :
  let out := createSuits random toString36 ss deck n in
  map suitRank (fst out) = map suitRank deck ++ list_prod ss ranks
  /\ (Forall freshCard deck -> Forall freshCard (fst out))
  /\ snd out = (List.length ss * List.length ranks + n)%nat.
Proof.
  revert deck n. induction ss as [|s ss IH]; intros deck n.
  - cbn. rewrite app_nil_r. auto.
  - cbn [createSuits]. unfold bind.
    pose proof (createRanks_spec random toString36 s ranks deck n) as Hr.
    cbv zeta in Hr. destruct (createRanks random toString36 s ranks deck n)
      as [d n1]. cbn [fst snd] in Hr. destruct Hr as (Hmap1 & Hfresh1 & Hn1).
    specialize (IH d n1). cbv zeta in IH. destruct IH as (Hmap & Hfresh & Hn).
    split; [|split].
    + rewrite Hmap, Hmap1, <- app_assoc. reflexivity.
    + intros Hdeck. apply Hfresh, Hfresh1, Hdeck.
    + rewrite Hn, Hn1. cbn [List.length]. lia.
Qed.

Lemma suits_ranks_nodup : NoDup (list_prod suits ranks).
Proof.
  unfold suits, ranks. cbn [list_prod map app].
  repeat (constructor;
          [cbn [In]; intros H;
           repeat (destruct H as [H|H]; [discriminate H|]); exact H|]).
  constructor.
Qed.

(** X1.  [createDeck] yields 52 cards, one for every pair of a suit and a
    rank and none twice, suit by suit in the order of the rank table; every
    card has the value of its rank, no upgrade and an id that starts with
    its rank and suit; it draws 52 random numbers. *)
Theorem createDeck_full_deck (random : nat -> Q) (toString36 : Q -> string)
    (n : nat) :
  let deck := fst (createDeck random toString36 n) in
  map suitRank deck = list_prod suits ranks
  /\ List.length deck = 52%nat
  /\ NoDup (map suitRank deck)
  /\ (forall s r, exists c, In c deck /\ suitRank c = (s, r))
  /\ Forall freshCard deck
  /\ snd (createDeck random toString36 n) = (52 + n)%nat.
Proof.
  pose proof (createSuits_spec random toString36 suits [] n) as H.
  cbv zeta in H. destruct H as (Hmap & Hfresh & Hn).
  fold (createDeck random toString36 n) in Hmap, Hfresh, Hn.
  intros deck. fold deck in Hmap, Hfresh. cbn [map app] in Hmap.
  split; [exact Hmap|]. split.
  { rewrite <- (length_map suitRank), Hmap. reflexivity. }
  split; [rewrite Hmap; exact suits_ranks_nodup|].
  split.
  { intros s r.
    assert (Hin : In (s, r) (map suitRank deck)).
    { rewrite Hmap. apply in_prod; [destruct s | destruct r]; cbn; tauto. }
    apply in_map_iff in Hin. destruct Hin as (c & Hc & Hin).
    exists c. split; assumption. }
  split; [apply Hfresh; constructor | exact Hn].
Qed.

Lemma swapIndex_in_range (x : Q) (i : nat) :
  0 <= x -> x < 1 -> (swapIndex x i <= i)%nat.
Proof.
  intros H0 H1. unfold swapIndex.
  set (m := (Z.of_nat i + 1)%Z).
  assert (Hm : 0 < inject_Z m) by (unfold Qlt; cbn; subst m; lia).
  assert (Hlt : x * inject_Z m < inject_Z m).
  { rewrite <- (Qmult_1_l (inject_Z m)) at 2.
    apply Qmult_lt_compat_r; assumption. }
  assert (Hfloor : (Qfloor (x * inject_Z m) < m)%Z).
  { rewrite Zlt_Qlt. eapply Qle_lt_trans; [apply Qfloor_le | exact Hlt]. }
  subst m. lia.
Qed.

Lemma swap_length {A} (i j : nat) (l : list A) :
  List.length (swap i j l) = List.length l.
Proof. apply Permutation_length, swap_permutes. Qed.

Lemma shuffleLoop_draws (random : nat -> Q) (i : nat)
    (deck : list PlayingCard) (n : nat) :
  snd (shuffleLoop random i deck n) = (i + n)%nat.
Proof.
  revert deck n. induction i as [|i IH]; intros deck n; [reflexivity|].
  cbn [shuffleLoop]. unfold bind, Math_random. rewrite IH. lia.
Qed.

(** X2.  With random numbers in [[0, 1)], every index [shuffleDeck] swaps
    with lies at or below the position it is swapped with, so inside the
    array; the shuffled deck holds the same cards as the deck it was given,
    as many times each, and one random number is drawn per position but
    the first. *)
Theorem shuffleDeck_same_cards (random : nat -> Q) (deck : list PlayingCard)
    (n : nat) (Hrange : unitRange random) :
  let out := shuffleDeck random deck n in
  (forall k i, (swapIndex (random k) i <= i)%nat)
  /\ Permutation (fst out) deck
  /\ List.length (fst out) = List.length deck
  /\ (forall c, In c (fst out) <-> In c deck)
  /\ snd out = (List.length deck - 1 + n)%nat.
Proof.
  intros out.
  pose proof (shuffleDeck_permutes random deck n) as Hperm. fold out in Hperm.
  split; [intros k i; apply swapIndex_in_range; apply Hrange|].
  split; [exact Hperm|].
  split; [apply Permutation_length, Hperm|].
  split.
  - intros c. split; apply Permutation_in; [|symmetry]; exact Hperm.
  - apply shuffleLoop_draws.
Qed.

Lemma shuffleDeck_same_cards_witness :
  unitRange zeroRandom
  /\ Permutation (fst (shuffleDeck zeroRandom threeCards O)) threeCards
  /\ fst (shuffleDeck zeroRandom threeCards O)
     = [threeOfSpades; nineOfHearts; eightOfHearts].
Proof.
  assert (Hrange : unitRange zeroRandom)
    by (intros k; split; [discriminate | reflexivity]).
  split; [exact Hrange|].
  split; [|reflexivity].
  exact (proj1 (proj2 (@shuffleDeck_same_cards zeroRandom threeCards O Hrange))).
Defined.

Lemma findIndex_found {A} (p : A -> bool) (l : list A) (k : nat) :
  findIndex p l = Some k ->
  exists pre c post,
    l = pre ++ c :: post
    /\ forallb (fun x => negb (p x)) pre = true
    /\ p c = true
    /\ nth_error l k = Some c
    /\ removeAt k l = pre ++ post.
Proof.
  revert k. induction l as [|x l IH]; intros k Hk; [discriminate Hk|].
  cbn in Hk. destruct (p x) eqn:Hx.
  - injection Hk as <-. exists [], x, l. repeat split; assumption.
  - destruct (findIndex p l) as [k'|]; [|discriminate Hk].
    injection Hk as <-.
    destruct (IH k' eq_refl) as (pre & c & post & Hl & Hpre & Hc & Hnth & Hrem).
    exists (x :: pre), c, post.
    split; [rewrite Hl; reflexivity|].
    split; [cbn; rewrite Hx, Hpre; reflexivity|].
    split; [exact Hc|].
    split; [exact Hnth|].
    cbn. rewrite Hrem. reflexivity.
Qed.

Lemma findIndex_none {A} (p : A -> bool) (l : list A) :
  findIndex p l = None <-> existsb p l = false.
Proof.
  induction l as [|x l IH]; cbn; [tauto|].
  destruct (p x); cbn; [split; discriminate|].
  destruct (findIndex p l); cbn.
  - split; [discriminate|]. intros H. apply IH in H. discriminate H.
  - split; intros _; [apply IH|]; reflexivity.
Qed.

Lemma pop_snoc {A} (l : list A) (x : A) : pop (l ++ [x]) = (Some x, l).
Proof.
  unfold pop. rewrite rev_app_distr. cbn. rewrite rev_involutive. reflexivity.
Qed.

Lemma moveToEnd_spec {A} (p : A -> bool) (deck : list A) :
  (existsb p deck = false /\ moveToEnd p deck = deck)
  \/ (exists pre c post,
         deck = pre ++ c :: post
         /\ forallb (fun x => negb (p x)) pre = true
         /\ p c = true
         /\ moveToEnd p deck = pre ++ post ++ [c]).
Proof.
  unfold moveToEnd. destruct (findIndex p deck) as [k|] eqn:Hk.
  - right. destruct (findIndex_found p deck Hk)
      as (pre & c & post & Hl & Hpre & Hc & Hnth & Hrem).
    exists pre, c, post. rewrite Hnth, Hrem, <- app_assoc. auto.
  - left. split; [apply findIndex_none, Hk | reflexivity].
Qed.

(** X3.  [moveHighValueCardToTop] never loses or adds a card.  When no card
    of the pile has value 10 the pile comes back as it was; otherwise the
    first card of value 10 goes to the end, where [pop] draws from, and the
    other cards keep their order. *)
Theorem moveHighValueCardToTop_spec (deck : list PlayingCard) :
  let out := moveHighValueCardToTop deck in
  Permutation out deck
  /\ (existsb isTen deck = false -> out = deck)
  /\ (existsb isTen deck = true ->
      exists pre c post,
        deck = pre ++ c :: post
        /\ Forall (fun x => PlayingCard.value x <> 10%Z) pre
        /\ PlayingCard.value c = 10%Z
        /\ out = pre ++ post ++ [c]
        /\ pop out = (Some c, pre ++ post)).
Proof.
  intros out. subst out. unfold moveHighValueCardToTop.
  fold isTen. change (fun c => isTen c) with isTen.
  destruct (moveToEnd_spec isTen deck)
    as [[Hnone Hsame] | (pre & c & post & Hl & Hpre & Hc & Hout)].
  - rewrite Hsame. split; [reflexivity|]. split; [reflexivity|].
    intros Hsome. congruence.
  - rewrite Hout. split; [|split].
    + rewrite Hl. apply Permutation_app_head.
      change (c :: post) with ([c] ++ post). apply Permutation_app_comm.
    + intros Hnone. rewrite Hl, existsb_app in Hnone. cbn in Hnone.
      rewrite Hc, orb_true_r in Hnone. discriminate Hnone.
    + intros _. exists pre, c, post.
      split; [exact Hl|]. split.
      { apply Forall_forall. intros x Hx.
        rewrite forallb_forall in Hpre. specialize (Hpre x Hx).
        unfold isTen in Hpre. apply negb_true_iff, Z.eqb_neq in Hpre.
        exact Hpre. }
      split; [apply Z.eqb_eq, Hc|]. split; [reflexivity|].
      rewrite app_assoc. apply pop_snoc.
Qed.

Lemma moveHighValueCardToTop_spec_witness :
  let pile := [tenOfSpades; eightOfHearts; dealerKing; threeOfSpades] in
  existsb isTen pile = true
  /\ moveHighValueCardToTop pile
     = [eightOfHearts; dealerKing; threeOfSpades; tenOfSpades]
  /\ exists pre c post,
       pile = pre ++ c :: post
       /\ moveHighValueCardToTop pile = pre ++ post ++ [c].
Proof.
  intros pile.
  assert (Hsome : existsb isTen pile = true) by reflexivity.
  split; [exact Hsome|]. split; [reflexivity|].
  destruct (moveHighValueCardToTop_spec pile) as (_ & _ & Hmove).
  destruct (Hmove Hsome) as (pre & c & post & Hl & _ & _ & Hout & _).
  exists pre, c, post. split; assumption.
Defined.

(* ------------------------------------------------------------------ *)
(** ** More on scoring *)

Lemma sumValues_permutes (hand hand' : list PlayingCard) :
  Permutation hand hand' ->
  sumValues hand' = sumValues hand /\ countAces hand' = countAces hand.
Proof.
  induction 1 as [|c l l' _ IH|c d l|l l' l'' _ IH1 _ IH2].
  - split; reflexivity.
  - rewrite !sumValues_cons, !countAces_cons.
    destruct IH as [-> ->]. split; reflexivity.
  - rewrite !sumValues_cons, !countAces_cons.
    split; [lia|].
    destruct (Rank_eqb (PlayingCard.rank c) RA),
             (Rank_eqb (PlayingCard.rank d) RA); reflexivity.
  - destruct IH1 as [H1 H2], IH2 as [H3 H4]. split; congruence.
Qed.

(** X4.  The score of a hand does not depend on the order of its cards.
    For cards valued as [createDeck] values them, the score lies between
    the total with every ace at 1 and that total plus 10, and the hand is
    over 21 exactly when it is over 21 with every ace at 1: an ace alone
    never busts a hand. *)
Theorem calculateHandScore_order_and_bust (hand : list PlayingCard)
    (Hwf : Forall wellFormed hand) :
  (forall hand', Permutation hand hand' ->
                 calculateHandScore hand' = calculateHandScore hand)
  /\ (hardTotal hand <= calculateHandScore hand <= hardTotal hand + 10)%Z
  /\ ((21 < calculateHandScore hand)%Z <-> (21 < hardTotal hand)%Z)
  /\ (hasAce hand = false -> calculateHandScore hand = sumValues hand).
Proof.
  assert (Hscore : forall h, calculateHandScore h
                             = softenAces (sumValues h) (countAces h)).
  { intros h. unfold calculateHandScore. rewrite handTotals_eq. reflexivity. }
  destruct (sumValues_hard Hwf) as [Hsum Hle].
  assert (Hstd : calculateHandScore hand
                 = if negb (countAces hand =? 0)%nat
                      && (hardTotal hand + 10 <=? 21)%Z
                   then (hardTotal hand + 10)%Z else hardTotal hand).
  { rewrite Hscore, Hsum. apply softenAces_standard, Hle. }
  split; [|split; [|split]].
  - intros hand' Hperm. rewrite !Hscore.
    destruct (sumValues_permutes Hperm) as [-> ->]. reflexivity.
  - rewrite Hstd. destruct (negb _ && _); lia.
  - rewrite Hstd.
    destruct (negb (countAces hand =? 0)%nat); cbn [andb]; [|tauto].
    destruct (Z.leb_spec (hardTotal hand + 10) 21); lia.
  - intros Hnone. rewrite Hstd, Hsum.
    rewrite hasAce_count in Hnone. rewrite Hnone. cbn [andb].
    apply negb_false_iff, Nat.eqb_eq in Hnone. rewrite Hnone. lia.
Qed.

Lemma calculateHandScore_order_and_bust_witness :
  let hand := [plain RA spades "a"; plain R9 clubs "c"; plain RA hearts "b"] in
  Forall wellFormed hand
  /\ calculateHandScore (rev hand) = calculateHandScore hand
  /\ ~ (21 < calculateHandScore hand)%Z.
Proof.
  intros hand.
  assert (Hwf : Forall wellFormed hand) by (repeat constructor).
  destruct (calculateHandScore_order_and_bust Hwf) as (Hperm & _ & Hbust & _).
  split; [exact Hwf|].
  split; [apply Hperm, Permutation_rev|].
  intros H. apply Hbust in H. vm_compute in H. discriminate H.
Defined.

(* ------------------------------------------------------------------ *)
(** ** Draws *)

Lemma drawCard_top (random : nat -> Q) (rest discard : list PlayingCard)
    (c : PlayingCard) (n : nat) :
  drawCard random (rest ++ [c]) discard n
  = ({| card := Some c; newDraw := rest; newDiscard := discard |}, n).
Proof.
  unfold drawCard, bind.
  assert (Hlen : (List.length (rest ++ [c]) =? 0)%nat = false).
  { rewrite length_app. cbn. apply Nat.eqb_neq. lia. }
  rewrite Hlen. cbn [ret fst snd]. rewrite pop_snoc. reflexivity.
Qed.

(** X5.  [drawCard] takes the last card of a draw pile that has one and
    leaves the rest of it and the discard pile alone, without a random
    number.  On an empty draw pile it empties the discard pile into the
    draw pile: the card drawn and the new draw pile are the cards of the
    old discard pile, each as it was; a card is drawn unless the discard
    pile is empty too, and then there is no card and both piles stay
    empty. *)
Theorem drawCard_cases (random : nat -> Q)
    (currentDrawPile currentDiscardPile : list PlayingCard) (n : nat) :
  let out := drawCard random currentDrawPile currentDiscardPile n in
  let drawn := match card (fst out) with Some c => [c] | None => [] end in
  (forall rest c,
      currentDrawPile = rest ++ [c] ->
      card (fst out) = Some c
      /\ newDraw (fst out) = rest
      /\ newDiscard (fst out) = currentDiscardPile
      /\ snd out = n)
  /\ (currentDrawPile = [] ->
      newDiscard (fst out) = []
      /\ Permutation (newDraw (fst out) ++ drawn) currentDiscardPile
      /\ (currentDiscardPile <> [] -> card (fst out) <> None)
      /\ (currentDiscardPile = [] ->
          card (fst out) = None /\ newDraw (fst out) = [])).
Proof.
  intros out drawn. split.
  - intros rest c Hpile. subst out currentDrawPile.
    rewrite drawCard_top. repeat split; reflexivity.
  - intros Hempty. subst out drawn currentDrawPile.
    unfold drawCard, bind. cbn [List.length Nat.eqb].
    pose proof (shuffleDeck_permutes random currentDiscardPile n) as Hperm.
    destruct (shuffleDeck random currentDiscardPile n) as [d n'].
    cbn [fst snd ret] in *.
    pose proof (pop_last d) as Hpop.
    destruct (pop d) as [[c|] rest]; cbn [fst card newDraw newDiscard].
    + subst d. split; [reflexivity|]. split; [exact Hperm|].
      split; [discriminate|].
      intros Hnone. subst currentDiscardPile.
      apply Permutation_sym, Permutation_nil in Hperm.
      destruct rest; discriminate Hperm.
    + destruct Hpop as [-> ->]. split; [reflexivity|].
      split; [exact Hperm|].
      apply Permutation_nil in Hperm.
      split; [intros Hsome; contradiction | split; reflexivity].
Qed.

Lemma drawCard_cases_witness :
  let out := drawCard zeroRandom [] threeCards O in
  [] = @nil PlayingCard
  /\ threeCards <> []
  /\ card (fst out) <> None
  /\ newDiscard (fst out) = []
  /\ card (fst out) = Some eightOfHearts
  /\ newDraw (fst out) = [threeOfSpades; nineOfHearts].
Proof.
  intros out.
  destruct (drawCard_cases zeroRandom [] threeCards O) as (_ & Hrecycle).
  destruct (Hrecycle eq_refl) as (Hdiscard & _ & Hsome & _).
  assert (Hpile : threeCards <> []) by discriminate.
  split; [reflexivity|]. split; [exact Hpile|].
  split; [exact (Hsome Hpile)|]. split; [exact Hdiscard|].
  split; reflexivity.
Defined.

(** X6.  The Override Chip works as it says when the draw pile holds a card
    of value 10: after [useConsumable] on it, the card [hit] draws is a
    card of value 10 from the draw pile, and the chip has left the
    inventory. *)
Theorem override_chip_then_hit (random : nat -> Q) (state : GameState)
    (index : nat) (item : Consumable) (n : nat)
    (Hitem : nth_error (inventory state) index = Some item)
    (Htype : Consumable.type item = guarantee_10)
    (Hten : existsb isTen (drawPile state) = true) :
  let s1 := after (useConsumable state index) state in
  let s2 := after (fst (hit random s1 n)) s1 in
  inventory s1 = removeAt index (inventory state)
  /\ List.length (inventory s1) = (List.length (inventory state) - 1)%nat
  /\ exists c,
       In c (drawPile state)
       /\ PlayingCard.value c = 10%Z
       /\ playerHand s2 = playerHand state ++ [c]
       /\ Permutation (drawPile s2 ++ [c]) (drawPile state)
       /\ discardPile s2 = discardPile state.
Proof.
  intros s1 s2.
  assert (Hs1 : s1 = state
                     |> set_drawPile (moveHighValueCardToTop (drawPile state))
                     |> set_message "Next card override active."
                     |> set_inventory (removeAt index (inventory state))).
  { subst s1. unfold useConsumable. rewrite Hitem, Htype. reflexivity. }
  split; [rewrite Hs1; reflexivity|].
  split.
  { rewrite Hs1. cbn [inventory set_inventory].
    clear - Hitem. revert index Hitem.
    induction (inventory state) as [|x l IH]; intros index Hitem.
    - destruct index; discriminate Hitem.
    - destruct index as [|index]; cbn; [lia|].
      cbn in Hitem. rewrite (IH _ Hitem).
      destruct l; [destruct index; discriminate Hitem|]. cbn. lia. }
  destruct (moveToEnd_spec isTen (drawPile state))
    as [[Hnone _] | (pre & c & post & Hl & _ & Hc & Hout)]; [congruence|].
  assert (Hpile : drawPile s1 = (pre ++ post) ++ [c]).
  { rewrite Hs1, <- app_assoc. exact Hout. }
  exists c. split; [rewrite Hl; apply in_elt|].
  split; [apply Z.eqb_eq, Hc|].
  subst s2. unfold hit, bind. rewrite Hpile, drawCard_top.
  cbn [card newDraw newDiscard].
  assert (Hhand : playerHand s1 = playerHand state) by (rewrite Hs1; reflexivity).
  assert (Hdisc : discardPile s1 = discardPile state)
    by (rewrite Hs1; reflexivity).
  rewrite Hhand, Hdisc.
  assert (Hperm : Permutation ((pre ++ post) ++ [c]) (drawPile state)).
  { rewrite Hl, <- app_assoc. apply Permutation_app_head.
    change (c :: post) with ([c] ++ post). apply Permutation_app_comm. }
  destruct (21 <? _)%Z; [|destruct (_ =? 21)%Z];
    repeat split; try reflexivity; exact Hperm.
Qed.

Lemma override_chip_then_hit_witness :
  nth_error (inventory chipState) O = Some override_chip
  /\ existsb isTen (drawPile chipState) = true
  /\ playerHand
       (after (fst (hit zeroRandom
                      (after (useConsumable chipState O) chipState) O))
          (after (useConsumable chipState O) chipState))
     = [fiveOfClubs; sixOfDiamonds; tenOfSpades]
  /\ exists c,
       PlayingCard.value c = 10%Z
       /\ playerHand
            (after (fst (hit zeroRandom
                           (after (useConsumable chipState O) chipState) O))
               (after (useConsumable chipState O) chipState))
          = playerHand chipState ++ [c].
Proof.
  assert (Hitem : nth_error (inventory chipState) O = Some override_chip)
    by reflexivity.
  assert (Hten : existsb isTen (drawPile chipState) = true) by reflexivity.
  split; [exact Hitem|]. split; [exact Hten|]. split; [reflexivity|].
  destruct (@override_chip_then_hit zeroRandom chipState O override_chip O
              Hitem eq_refl Hten) as (_ & _ & c & _ & Hc & Hhand & _).
  exists c. split; assumption.
Defined.

(* ------------------------------------------------------------------ *)
(** ** Starting a run and dealing *)

Lemma freshDeck_shuffled (random : nat -> Q) (toString36 : Q -> string)
    (n : nat) :
  let deck := fst (createDeck random toString36 n) in
  let d := fst (shuffleDeck random deck (snd (createDeck random toString36 n))) in
  Permutation d deck
  /\ List.length d = 52%nat
  /\ Forall freshCard d
  /\ existsb isKing d = true.
Proof.
  intros deck d.
  pose proof (createSuits_spec random toString36 suits [] n) as H.
  cbv zeta in H. destruct H as (Hmap & Hfresh & _).
  fold (createDeck random toString36 n) in Hmap, Hfresh.
  fold deck in Hmap, Hfresh. cbn [map app] in Hmap.
  assert (Hperm : Permutation d deck) by apply shuffleDeck_permutes.
  assert (Hlen : List.length deck = 52%nat).
  { rewrite <- (length_map suitRank), Hmap. reflexivity. }
  split; [exact Hperm|].
  split; [rewrite (Permutation_length Hperm); exact Hlen|].
  split.
  { apply (Permutation_Forall (Permutation_sym Hperm)).
    apply Hfresh. constructor. }
  assert (Hin : In (spades, RK) (map suitRank deck)).
  { rewrite Hmap. apply in_prod; cbn; tauto. }
  apply in_map_iff in Hin. destruct Hin as (c & Hc & Hin).
  apply existsb_exists. exists c. split.
  - apply Permutation_in with (l := deck); [symmetry; exact Hperm | exact Hin].
  - unfold isKing. injection Hc as _ ->. reflexivity.
Qed.

(** X7.  [startRun] opens a run on a full deck: the master deck has the 52
    cards of [createDeck], the draw pile holds exactly the cards of the
    master deck, the discard pile and both hands are empty, the phase is
    [betting] at house level 1 with no corruption token.  Each hack adds
    its bonus once: 25 credits, 10 essence, 2 on the threshold, a Data
    Spike in the inventory.  The state of an earlier run has no part in
    it, the bet amount goes back to 10 and the run counter goes up by 1. *)
Theorem startRun_initial (random : nat -> Q) (toString36 : Q -> string)
    (globalState : GlobalState) (n : nat) (earlier : GameState) :
  let effs := fst (startRun random toString36 globalState n) in
  let s := after effs earlier in
  List.length (playerDeck s) = 52%nat
  /\ Permutation (map suitRank (playerDeck s)) (list_prod suits ranks)
  /\ Forall freshCard (playerDeck s)
  /\ Permutation (drawPile s) (playerDeck s)
  /\ Permutation (playerCards s) (playerDeck s)
  /\ (discardPile s = [] /\ playerHand s = [] /\ dealerHand s = [])
  /\ (phase s = betting /\ houseLevel s = 1%Z /\ corruptionTokens s = 0
      /\ currentBet s = 0 /\ activePassives s = []
      /\ unlockedUpgrades s = STARTING_UPGRADE_IDS)
  /\ credits s == 100 + (if hasHack globalState "cache_injection" then 25 else 0)
  /\ essence s == (if hasHack globalState "essence_leak" then 10 else 0)
  /\ corruptionThreshold s
     == 8 + (if hasHack globalState "threat_dampener" then 2 else 0)
  /\ map Consumable.id (inventory s)
     = (if hasHack globalState "firewall_bypass" then ["data_spike"] else [])
  /\ (forall betAmount, applyBet effs betAmount = 10)
  /\ totalRuns (applyGlobal effs globalState) = (totalRuns globalState + 1)%Z
  /\ (forall other, after effs other = s).
Proof.
  intros effs s. subst s effs. unfold startRun, bind.
  pose proof (createSuits_spec random toString36 suits [] n) as Hdeck.
  pose proof (freshDeck_shuffled random toString36 n) as Hfresh.
  cbv zeta in Hdeck, Hfresh.
  fold (createDeck random toString36 n) in Hdeck.
  destruct (createDeck random toString36 n) as [deck n1].
  cbn [fst snd] in Hdeck, Hfresh.
  destruct Hdeck as (Hmap & _ & _). cbn [map app] in Hmap.
  pose proof (shuffleDeck_permutes random
                (fst (shuffleDeck random deck n1))
                (snd (shuffleDeck random deck n1))) as Hpile.
  destruct (shuffleDeck random deck n1) as [freshDeck n2].
  cbn [fst snd] in Hfresh, Hpile.
  destruct Hfresh as (Hperm & Hlen & Hcards & _).
  destruct (shuffleDeck random freshDeck n2) as [pile n3].
  cbn [fst] in Hpile.
  cbn [ret fst after applyEffects applyBet applyGlobal playerDeck drawPile
         discardPile playerHand dealerHand phase houseLevel corruptionTokens
         currentBet activePassives unlockedUpgrades credits essence
         corruptionThreshold inventory totalRuns].
  split; [exact Hlen|].
  split; [rewrite <- Hmap; apply Permutation_map, Hperm|].
  split; [exact Hcards|]. split; [exact Hpile|].
  split; [unfold playerCards; cbn; rewrite !app_nil_r; exact Hpile|].
  split; [repeat split|]. split; [repeat split|].
  split; [destruct (hasHack globalState "cache_injection"); reflexivity|].
  split; [destruct (hasHack globalState "essence_leak"); reflexivity|].
  split; [destruct (hasHack globalState "threat_dampener"); reflexivity|].
  split; [destruct (hasHack globalState "firewall_bypass"); reflexivity|].
  repeat split.
Qed.

Lemma pop_cons {A} (l : list A) :
  l <> [] -> exists x rest, pop l = (Some x, rest) /\ l = rest ++ [x].
Proof.
  intros Hl. pose proof (pop_last l) as Hpop.
  destruct (pop l) as [[x|] rest].
  - exists x, rest. split; [reflexivity | exact Hpop].
  - destruct Hpop as [H _]. contradiction.
Qed.

Lemma dealToDealer_twice (d : list PlayingCard) :
  (2 <= List.length d)%nat ->
  exists rest a b,
    d = rest ++ [a; b]
    /\ dealToDealer (dealToDealer ([], d)) = ([b; a], rest).
Proof.
  intros Hlen.
  destruct (@pop_cons _ d) as (b & d1 & Hpop1 & Hd); [destruct d; cbn in *; [lia|discriminate]|].
  assert (Hlen1 : (1 <= List.length d1)%nat).
  { rewrite Hd, length_app in Hlen. cbn in Hlen. lia. }
  destruct (@pop_cons _ d1) as (a & rest & Hpop2 & Hd1);
    [destruct d1; cbn in *; [lia|discriminate]|].
  exists rest, a, b. split.
  - rewrite Hd, Hd1, <- app_assoc. reflexivity.
  - unfold dealToDealer. rewrite Hpop1, Hpop2. reflexivity.
Qed.

(** X8.  When the bet is covered, [placeBet] deals two cards to the dealer
    out of a full fresh deck of its own, whatever the player's piles hold,
    and at most two to the player; the master deck is not touched and the
    dealer's hole card is hidden again.  On a boss round (a house level
    that is a positive multiple of 5) the dealer's first card is a King.
    The phase is [dealer_turn] when the player's hand scores 21 and
    [playing] otherwise. *)
Theorem placeBet_deals (random : nat -> Q) (toString36 : Q -> string)
    (state : GameState) (betAmount : Q) (n : nat)
    (Hcovered : betAmount <= credits state) :
  let s' := after (fst (placeBet random toString36 state betAmount n)) state in
  (exists first second,
      dealerHand s' = [first; second]
      /\ freshCard first /\ freshCard second
      /\ (isBossLevel state = true -> PlayingCard.rank first = RK))
  /\ (List.length (playerHand s') <= 2)%nat
  /\ playerDeck s' = playerDeck state
  /\ dealerCardRevealed s' = false
  /\ phase s' = (if (calculateHandScore (playerHand s') =? 21)%Z
                 then dealer_turn else playing)
  /\ message s' = (if isBossLevel state
                   then "BOSS PROTOCOL ACTIVE: THE ARCHITECT"
                   else "Hit or Stand?").
Proof.
  intros s'. subst s'. apply Qltb_false in Hcovered.
  unfold placeBet. rewrite Hcovered. unfold bind.
  destruct (drawCard random _ _ n) as [p1 n1].
  pose proof (freshDeck_shuffled random toString36 n1) as Hfresh.
  cbv zeta in Hfresh.
  destruct (createDeck random toString36 n1) as [deck n2].
  cbn [fst snd] in Hfresh.
  destruct (shuffleDeck random deck n2) as [dealerDeck n3].
  cbn [fst] in Hfresh. destruct Hfresh as (_ & Hlen & Hcards & Hking).
  destruct (drawCard random _ _ n3) as [p2 n4].
  set (d := if isBossLevel state then moveToEnd _ dealerDeck else dealerDeck).
  assert (Hd : Permutation d dealerDeck
               /\ (isBossLevel state = true ->
                   exists l k, d = l ++ [k] /\ PlayingCard.rank k = RK)).
  { subst d. destruct (isBossLevel state).
    - destruct (moveToEnd_spec isKing dealerDeck)
        as [[Hnone _] | (pre & c & post & Hl & _ & Hc & Hout)]; [congruence|].
      change (fun c => Rank_eqb (PlayingCard.rank c) RK) with isKing.
      rewrite Hout. split.
      + rewrite Hl. apply Permutation_app_head.
        change (c :: post) with ([c] ++ post). apply Permutation_app_comm.
      + intros _. exists (pre ++ post), c. split; [apply app_assoc|].
        unfold isKing in Hc. destruct (PlayingCard.rank c); try discriminate Hc.
        reflexivity.
    - split; [reflexivity | discriminate]. }
  destruct Hd as [Hperm Hboss].
  assert (Hlen' : (2 <= List.length d)%nat)
    by (rewrite (Permutation_length Hperm), Hlen; lia).
  destruct (dealToDealer_twice d Hlen') as (rest & a & b & Hdab & Hdeal).
  rewrite Hdeal.
  assert (Hhand : forall start,
             (List.length
                (fst (dealToPlayer state p2 (dealToPlayer state p1 ([], start))))
              <= 2)%nat).
  { intros start. unfold dealToPlayer.
    destruct (card p1), (card p2); cbn; lia. }
  match goal with
  | |- context [dealToPlayer state p2 (dealToPlayer state p1 ([], ?start))] =>
      specialize (Hhand start);
      destruct (dealToPlayer state p2 (dealToPlayer state p1 ([], start)))
        as [hand total]
  end.
  cbn [fst] in Hhand.
  cbn [ret fst after applyEffects dealerHand playerHand playerDeck
         dealerCardRevealed phase message set_credits set_essence
         set_corruptionTokens set_currentBet set_dealerCardRevealed
         set_playerHand set_dealerHand set_drawPile set_discardPile
         set_phase set_message].
  split.
  - exists b, a. split; [reflexivity|].
    assert (Hin : forall x, In x [a; b] -> freshCard x).
    { intros x Hx. rewrite Forall_forall in Hcards. apply Hcards.
      apply Permutation_in with (l := d); [exact Hperm|].
      rewrite Hdab. apply in_or_app. right. exact Hx. }
    split; [apply Hin; cbn; tauto|]. split; [apply Hin; cbn; tauto|].
    intros Hb. destruct (Hboss Hb) as (l & k & Hlk & Hk).
    rewrite Hdab in Hlk.
    change [a; b] with ([a] ++ [b]) in Hlk. rewrite app_assoc in Hlk.
    apply app_inj_tail in Hlk. destruct Hlk as [_ ->]. exact Hk.
  - repeat split; try assumption; try reflexivity.
Qed.

Lemma placeBet_deals_witness :
  10 <= credits bossState
  /\ isBossLevel bossState = true
  /\ map PlayingCard.rank
       (dealerHand
          (after (fst (placeBet zeroRandom sameDigits bossState 10 O))
             bossState))
     = [RK; R2]
  /\ exists first second,
       dealerHand
         (after (fst (placeBet zeroRandom sameDigits bossState 10 O)) bossState)
       = [first; second]
       /\ PlayingCard.rank first = RK.
Proof.
  assert (Hcovered : 10 <= credits bossState) by (vm_compute; discriminate).
  assert (Hboss : isBossLevel bossState = true) by reflexivity.
  split; [exact Hcovered|]. split; [exact Hboss|].
  split; [vm_compute; reflexivity|].
  destruct (@placeBet_deals zeroRandom sameDigits bossState 10 O Hcovered)
    as ((first & second & Hhand & _ & _ & Hking) & _).
  exists first, second. split; [exact Hhand | exact (Hking Hboss)].
Defined.

(* ------------------------------------------------------------------ *)
(** ** The dealer's turn and hits *)

(** X9.  The dealer step does nothing outside the [dealer_turn] phase.  In
    it, below the stand threshold (16 up to house level 3, 17 above) the
    dealer takes one card of a fresh deck of its own and nothing else
    changes: the player's piles, hand, credits and bet stay as they are.
    At or above the threshold the step is the resolution of the round on
    the hands and the bet of the state, as a round that did not bust. *)
Theorem dealerTurn_step (random : nat -> Q) (toString36 : Q -> string)
    (Array_sort : (CardUpgrade -> CardUpgrade -> Rand Q)
                  -> list CardUpgrade -> Rand (list CardUpgrade))
    (state : GameState) (n : nat) :
  let run := dealerTurn random toString36 Array_sort state n in
  let dScore := calculateHandScore (dealerHand state) in
  (phase state <> dealer_turn -> run = ([], n))
  /\ (phase state = dealer_turn -> (dScore < standThreshold state)%Z ->
      exists c,
        freshCard c
        /\ after (fst run) state
           = set_dealerHand (dealerHand state ++ [c]) state
        /\ timersOf (fst run) = []
        /\ snd run = (103 + n)%nat)
  /\ (phase state = dealer_turn -> (standThreshold state <= dScore)%Z ->
      run = resolveRound random Array_sort state (playerHand state)
              (dealerHand state) (currentBet state) false n).
Proof.
  intros run dScore. subst run dScore. unfold dealerTurn, standThreshold.
  split; [|split].
  - intros Hphase. destruct (phase state); try reflexivity. congruence.
  - intros Hphase Hbelow. rewrite Hphase. cbn [GamePhase_eqb].
    apply Z.ltb_lt in Hbelow. rewrite Hbelow. unfold bind.
    pose proof (freshDeck_shuffled random toString36 n) as Hfresh.
    pose proof (createSuits_spec random toString36 suits [] n) as Hn.
    cbv zeta in Hfresh, Hn. destruct Hn as (_ & _ & Hn).
    fold (createDeck random toString36 n) in Hn.
    pose proof (shuffleLoop_draws random
                  (List.length (fst (createDeck random toString36 n)) - 1)
                  (fst (createDeck random toString36 n))
                  (snd (createDeck random toString36 n))) as Hn'.
    fold (shuffleDeck random (fst (createDeck random toString36 n))
            (snd (createDeck random toString36 n))) in Hn'.
    destruct (createDeck random toString36 n) as [deck n1].
    cbn [fst snd] in *.
    destruct (shuffleDeck random deck n1) as [dealerDeck n2].
    cbn [fst snd] in *. destruct Hfresh as (Hperm & Hlen & Hcards & _).
    destruct dealerDeck as [|c rest]; [discriminate Hlen|].
    cbn [nth_error]. exists c.
    split; [inversion Hcards; assumption|].
    split; [reflexivity|]. split; [reflexivity|].
    cbn [ret snd]. rewrite Hn', Hn. cbn [List.length suits ranks].
    rewrite <- (Permutation_length Hperm). cbn in Hlen.
    injection Hlen as Hlen. cbn [List.length]. rewrite Hlen. lia.
  - intros Hphase Hstand. rewrite Hphase. cbn [GamePhase_eqb].
    apply Z.ltb_ge in Hstand. rewrite Hstand. reflexivity.
Qed.

Lemma dealerTurn_step_witness :
  let waiting := set_phase dealer_turn
                   (set_dealerHand [dealerKing; plain R5 hearts "a7n2m5k0q"]
                      tableState) in
  phase waiting = dealer_turn
  /\ (calculateHandScore (dealerHand waiting) < standThreshold waiting)%Z
  /\ exists c,
       after (fst (dealerTurn zeroRandom sameDigits keepOrder waiting O))
         waiting
       = set_dealerHand (dealerHand waiting ++ [c]) waiting.
Proof.
  intros waiting.
  assert (Hphase : phase waiting = dealer_turn) by reflexivity.
  assert (Hbelow : (calculateHandScore (dealerHand waiting)
                    < standThreshold waiting)%Z) by reflexivity.
  split; [exact Hphase|]. split; [exact Hbelow|].
  destruct (dealerTurn_step zeroRandom sameDigits keepOrder waiting O)
    as (_ & Hdraw & _).
  destruct (Hdraw Hphase Hbelow) as (c & _ & Hafter & _).
  exists c. exact Hafter.
Defined.

(** X10.  [hit] with a card to draw puts it in the hand and applies its
    effects, less 1 credit under the Memory Leak curse.  Over 21 the phase
    becomes [round_over] and the resolution of the bust is scheduled on
    the new hand with the current bet; on 21 exactly a stand is scheduled
    and the phase stays; below 21 nothing is scheduled and phase and
    message stay.  With both piles empty [hit] queues nothing at all. *)
Theorem hit_transitions (random : nat -> Q) (state : GameState) (n : nat) :
  let effs := fst (hit random state n) in
  let s' := after effs state in
  (drawPile state = [] -> discardPile state = [] -> effs = [])
  /\ (forall c,
         card (fst (drawCard random (drawPile state) (discardPile state) n))
         = Some c ->
         let newHand := playerHand state ++ [c] in
         let score := calculateHandScore newHand in
         let effects := processCardEffects state c in
         playerHand s' = newHand
         /\ credits s'
            = credits state + creditDelta effects
              - (if hasPassive state "memory_leak" then 1 else 0)
         /\ essence s' = essence state + essenceDelta effects
         /\ currentBet s' = currentBet state
         /\ ((21 < score)%Z ->
             phase s' = round_over /\ message s' = "Bust!"
             /\ timersOf effs
                = [ResolveRound state newHand (dealerHand state)
                     (currentBet state) true])
         /\ (score = 21%Z ->
             phase s' = phase state /\ timersOf effs = [Stand])
         /\ ((score < 21)%Z ->
             phase s' = phase state /\ message s' = message state
             /\ timersOf effs = [])).
Proof.
  intros effs s'. subst s' effs. unfold hit, bind. split.
  - intros Hdraw Hdiscard.
    destruct (drawCard_cases random (drawPile state) (discardPile state) n)
      as (_ & Hempty).
    destruct (Hempty Hdraw) as (_ & _ & _ & Hnone).
    destruct (Hnone Hdiscard) as [Hcard _].
    destruct (drawCard random (drawPile state) (discardPile state) n)
      as [draw n']. cbn [fst] in Hcard. rewrite Hcard. reflexivity.
  - intros c Hcard.
    destruct (drawCard random (drawPile state) (discardPile state) n)
      as [draw n']. cbn [fst] in Hcard. rewrite Hcard.
    set (score := calculateHandScore (playerHand state ++ [c])).
    destruct (Z.ltb_spec 21 score) as [Hbust|Hok].
    + repeat split; try reflexivity; lia.
    + destruct (Z.eqb_spec score 21) as [H21|Hlow];
        repeat split; try reflexivity; lia.
Qed.

Lemma hit_transitions_witness :
  card (fst (drawCard zeroRandom (drawPile tableState)
               (discardPile tableState) O)) = Some nineOfHearts
  /\ (calculateHandScore (playerHand tableState ++ [nineOfHearts]) < 21)%Z
  /\ phase (after (fst (hit zeroRandom tableState O)) tableState) = playing
  /\ timersOf (fst (hit zeroRandom tableState O)) = []
  /\ drawPile emptyPiles = [] /\ discardPile emptyPiles = []
  /\ fst (hit zeroRandom emptyPiles O) = [].
Proof.
  destruct (hit_transitions zeroRandom tableState O) as (_ & Hcard).
  destruct (hit_transitions zeroRandom emptyPiles O) as (Hempty & _).
  assert (Hdrawn : card (fst (drawCard zeroRandom (drawPile tableState)
                                (discardPile tableState) O))
                   = Some nineOfHearts) by reflexivity.
  assert (Hlow : (calculateHandScore (playerHand tableState ++ [nineOfHearts])
                  < 21)%Z) by reflexivity.
  destruct (Hcard nineOfHearts Hdrawn) as (_ & _ & _ & _ & _ & _ & Hbelow).
  destruct (Hbelow Hlow) as (Hphase & _ & Htimers).
  split; [exact Hdrawn|]. split; [exact Hlow|].
  split; [exact Hphase|]. split; [exact Htimers|].
  split; [reflexivity|]. split; [reflexivity|].
  exact (Hempty eq_refl eq_refl).
Defined.

(* ------------------------------------------------------------------ *)
(** ** More on round resolution *)

Lemma applyMultiplier_win (state : GameState) (pHand : list PlayingCard)
    (bet base bonus : Q) (m : string) :
  applyMultiplier state pHand bet
    {| win := true; payout := base; essenceBonus := bonus; msg := m |}
  == bet + (base - bet) * winMultiplier state pHand.
Proof.
  unfold applyMultiplier, winMultiplier. cbn [win payout].
  destruct (hasPassive state "vip_protocol"); ring.
Qed.

(** X11.  A round that did not bust is decided in this order, and draws no
    random number.  A dealer over 21 loses even to a natural blackjack of
    the player, which then pays like any win and earns no essence.
    Otherwise two naturals push (the bet comes back), the player's natural
    alone wins 1.5 bets and 25 essence, the dealer's natural alone wins;
    without naturals the higher score wins, 1 bet and 10 essence for the
    player.  Every win pays the bet plus the profit times the win
    multiplier. *)
Theorem standing_resolution (random : nat -> Q) (state : GameState)
    (pHand dHand : list PlayingCard) (bet : Q) (n : nat) :
  let pScore := calculateHandScore pHand in
  let dScore := calculateHandScore dHand in
  let v := roundVerdict random state pHand dHand bet false n in
  let payout := roundPayout random state pHand dHand bet false n in
  let multi := winMultiplier state pHand in
  snd (adjudicate random state pHand dHand bet false n) = n
  /\ ((21 < dScore)%Z ->
      win v = true /\ essenceBonus v = 0 /\ payout == bet + bet * multi)
  /\ ((dScore <= 21)%Z -> natural pHand = true -> natural dHand = true ->
      win v = false /\ essenceBonus v = 0 /\ payout = bet)
  /\ ((dScore <= 21)%Z -> natural pHand = true -> natural dHand = false ->
      win v = true /\ essenceBonus v == 25
      /\ payout == bet + 1.5 * bet * multi)
  /\ ((dScore <= 21)%Z -> natural pHand = false -> natural dHand = true ->
      win v = false /\ essenceBonus v = 0 /\ payout = 0)
  /\ ((dScore <= 21)%Z -> natural pHand = false -> natural dHand = false ->
      (dScore < pScore)%Z ->
      win v = true /\ essenceBonus v == 10 /\ payout == bet + bet * multi)
  /\ ((dScore <= 21)%Z -> natural pHand = false -> natural dHand = false ->
      (pScore < dScore)%Z ->
      win v = false /\ essenceBonus v = 0 /\ payout = 0).
Proof.
  intros pScore dScore v payout multi. subst v payout multi.
  unfold roundPayout, roundVerdict, adjudicate, natural.
  fold pScore dScore. cbn [ret fst snd].
  split; [reflexivity|].
  split.
  { intros Hbust. apply Z.ltb_lt in Hbust. rewrite Hbust.
    split; [reflexivity|]. split; [reflexivity|].
    rewrite applyMultiplier_win. ring. }
  assert (Hnot : (dScore <= 21)%Z -> (21 <? dScore)%Z = false)
    by (intros H; apply Z.ltb_ge; exact H).
  assert (Hlow : (pScore < dScore)%Z ->
                 (dScore <? pScore)%Z = false /\ (pScore =? dScore)%Z = false)
    by (intros H; split; [apply Z.ltb_ge | apply Z.eqb_neq]; lia).
  split; [|split; [|split; [|split]]].
  - intros Hd Hp Hdn. rewrite (Hnot Hd), Hp, Hdn. repeat split.
  - intros Hd Hp Hdn. rewrite (Hnot Hd), Hp, Hdn.
    split; [reflexivity|]. split; [reflexivity|].
    rewrite applyMultiplier_win. ring.
  - intros Hd Hp Hdn. rewrite (Hnot Hd), Hp, Hdn. repeat split.
  - intros Hd Hp Hdn Hgt. apply Z.ltb_lt in Hgt.
    rewrite (Hnot Hd), Hp, Hdn, Hgt.
    split; [reflexivity|]. split; [reflexivity|].
    rewrite applyMultiplier_win. ring.
  - intros Hd Hp Hdn Hlt. destruct (Hlow Hlt) as [H1 H2].
    rewrite (Hnot Hd), Hp, Hdn, H1, H2. repeat split.
Qed.

Lemma standing_resolution_witness :
  let blackjack := [aceOfSpades; tenOfSpades] in
  let bustedDealer := [dealerKing; dealerSeven; dealerNine] in
  natural blackjack = true
  /\ (21 < calculateHandScore bustedDealer)%Z
  /\ essenceBonus
       (roundVerdict zeroRandom tableState blackjack bustedDealer 10 false O)
     = 0
  /\ roundPayout zeroRandom tableState blackjack bustedDealer 10 false O
     == 20
  /\ (calculateHandScore dealerSeventeen <= 21)%Z
  /\ natural dealerSeventeen = false
  /\ roundPayout zeroRandom tableState blackjack dealerSeventeen 10 false O
     == 25.
Proof.
  intros blackjack bustedDealer.
  assert (Hnat : natural blackjack = true) by reflexivity.
  assert (Hbust : (21 < calculateHandScore bustedDealer)%Z) by reflexivity.
  assert (Hstand : (calculateHandScore dealerSeventeen <= 21)%Z)
    by (vm_compute; discriminate).
  assert (Hplain : natural dealerSeventeen = false) by reflexivity.
  destruct (standing_resolution zeroRandom tableState blackjack bustedDealer
              10 O) as (_ & Hover & _).
  destruct (standing_resolution zeroRandom tableState blackjack
              dealerSeventeen 10 O) as (_ & _ & _ & Hbj & _).
  destruct (Hover Hbust) as (_ & Hbonus & Hpay).
  destruct (Hbj Hstand Hnat Hplain) as (_ & _ & Hpay').
  split; [exact Hnat|]. split; [exact Hbust|]. split; [exact Hbonus|].
  split; [rewrite Hpay; reflexivity|].
  split; [exact Hstand|]. split; [exact Hplain|].
  rewrite Hpay'. reflexivity.
Defined.

Lemma progression_phase (random : nat -> Q)
    (Array_sort : (CardUpgrade -> CardUpgrade -> Rand Q)
                  -> list CardUpgrade -> Rand (list CardUpgrade))
    (state : GameState) (v : Verdict) (n : nat) :
  let g := fst (progression random Array_sort state v n) in
  (nextPhase g = round_over /\ newOfferedUpgrades g = [])
  \/ (nextPhase g = upgrade_selection
      /\ win v = true
      /\ Qle_bool (corruptionThreshold state) (corruptionTokens state + 1)
         = true
      /\ lockedUpgrades state <> []
      /\ exists k,
           newOfferedUpgrades g
           = map CardUpgrade.id
               (firstn 3
                  (fst (Array_sort
                          (fun _ _ =>
                             x <- Math_random random ;; ret (0.5 - x))
                          (lockedUpgrades state) k)))).
Proof.
  unfold progression, Qgeb. fold (lockedUpgrades state).
  destruct (win v); [|left; split; reflexivity].
  destruct (Qle_bool (corruptionThreshold state) (corruptionTokens state + 1));
    [|left; split; reflexivity].
  unfold bind.
  destruct (lockedUpgrades state) as [|u locked] eqn:Hlocked.
  - cbn [List.length Nat.ltb Nat.leb ret].
    destruct (if ((5 <? _) && _)%Z then _ else _) as [glitch n2].
    left. split; reflexivity.
  - cbn [List.length Nat.ltb Nat.leb].
    destruct (Array_sort _ (u :: locked) n) as [shuffled n1] eqn:Hsort.
    cbn [ret].
    destruct (if ((5 <? _) && _)%Z then _ else _) as [glitch n2].
    right. cbn [fst snd nextPhase newOfferedUpgrades].
    repeat split; try discriminate.
    exists n. rewrite Hsort. reflexivity.
Qed.

(** X12.  After any resolution the phase is [game_over], with the failure
    message, exactly when the credits it leaves are below 10, whatever
    else the round brought (a level-up offer included); otherwise the
    phase is [round_over] or [upgrade_selection].  The credits are those
    before plus the payout and the on-21 credits, the essence those
    before plus the outcome bonus and the on-bust essence, and the
    resolution leaves the master deck, the draw pile, both hands, the
    bet, the inventory and the unlocked upgrades alone. *)
Theorem resolveRound_game_over (random : nat -> Q)
    (Array_sort : (CardUpgrade -> CardUpgrade -> Rand Q)
                  -> list CardUpgrade -> Rand (list CardUpgrade))
    (state prev : GameState) (pHand dHand : list PlayingCard) (bet : Q)
    (busted : bool) (n : nat) :
  let s' :=
    after (fst (resolveRound random Array_sort state pHand dHand bet busted n))
      prev in
  let v := roundVerdict random state pHand dHand bet busted n in
  let hk := hooks busted (calculateHandScore pHand) pHand in
  credits s'
  = credits prev + roundPayout random state pHand dHand bet busted n + snd hk
  /\ essence s' = essence prev + essenceBonus v + fst hk
  /\ (credits s' < 10 ->
      phase s' = game_over
      /\ message s' = "SYSTEM FAILURE: INSUFFICIENT FUNDS")
  /\ (10 <= credits s' ->
      phase s' = round_over \/ phase s' = upgrade_selection)
  /\ (playerDeck s' = playerDeck prev /\ drawPile s' = drawPile prev
      /\ playerHand s' = playerHand prev /\ dealerHand s' = dealerHand prev
      /\ currentBet s' = currentBet prev /\ inventory s' = inventory prev
      /\ unlockedUpgrades s' = unlockedUpgrades prev).
Proof.
  intros s' v hk.
  pose proof (resolveRound_after random Array_sort state prev pHand dHand bet
                busted n) as [Hafter _].
  cbv zeta in Hafter. fold s' hk in Hafter.
  pose proof (progression_phase random Array_sort state
                (fst (adjudicate random state pHand dHand bet busted n))
                (snd (adjudicate random state pHand dHand bet busted n)))
    as Hphase.
  cbv zeta in Hphase.
  set (g := fst (progression random Array_sort state _ _)) in *.
  rewrite Hafter. unfold resolveUpdate.
  cbn [credits essence phase message playerDeck drawPile playerHand dealerHand
         currentBet inventory unlockedUpgrades set_credits set_essence
         set_phase set_message set_corruptionTokens set_houseLevel
         set_corruptionThreshold set_activePassives set_discardPile
         set_offeredUpgradeIds].
  split; [reflexivity|]. split; [reflexivity|].
  split; [|split; [|repeat split]].
  - intros Hlow. apply Qltb_true in Hlow. rewrite Hlow. split; reflexivity.
  - intros Hok. apply Qltb_false in Hok. rewrite Hok.
    destruct Hphase as [[Hp _] | [Hp _]]; rewrite Hp; auto.
Qed.

Lemma resolveRound_game_over_witness :
  let broke := set_credits 0 tableState in
  let s' :=
    after (fst (resolveRound zeroRandom keepOrder broke eighteen
                  dealerNineteen 10 false O)) broke in
  credits s' < 10 /\ phase s' = game_over.
Proof.
  intros broke s'.
  destruct (resolveRound_game_over zeroRandom keepOrder broke broke eighteen
              dealerNineteen 10 false O) as (_ & _ & Hover & _).
  assert (Hlow : credits s' < 10) by reflexivity.
  split; [exact Hlow | exact (proj1 (Hover Hlow))].
Defined.

(* ------------------------------------------------------------------ *)
(** ** Level-up rewards and curses *)

Lemma upgrade_ids_distinct : NoDup (map CardUpgrade.id UPGRADES).
Proof.
  unfold UPGRADES. cbn [map CardUpgrade.id].
  repeat (constructor;
          [cbn [In]; intros H;
           repeat (destruct H as [H|H]; [discriminate H|]); exact H|]).
  constructor.
Qed.

Lemma filter_keeps_distinct {T K} (key : T -> K) (keep : T -> bool)
  (xs : list T) (Hxs : NoDup (map key xs)) :
  NoDup (map key (filter keep xs)).
Proof.
  induction xs as [|x xs IH]; cbn in *; [constructor|].
  inversion Hxs as [|y ys Hfresh Hrest]. subst.
  destruct (keep x); [|apply IH, Hrest].
  cbn. constructor; [|apply IH, Hrest].
  intros Hin. apply Hfresh. apply in_map_iff in Hin.
  destruct Hin as (z & Hz & Hin). apply filter_In in Hin.
  apply in_map_iff. exists z. tauto.
Qed.

Lemma firstn_keeps {A} (l : list A) (k : nat) :
  (forall x, In x (firstn k l) -> In x l)
  /\ (NoDup l -> NoDup (firstn k l)).
Proof.
  revert k. induction l as [|y l IH]; intros k.
  - rewrite firstn_nil. split; [intros x [] | intros _; constructor].
  - destruct k as [|k]; cbn [firstn].
    + split; [intros x [] | intros _; constructor].
    + destruct (IH k) as [Hin Hnd]. split.
      * intros x [<-|Hx]; [left; reflexivity | right; apply Hin, Hx].
      * intros Hl. inversion Hl as [|z l' Hfresh Hrest]. subst.
        constructor; [|apply Hnd, Hrest].
        intros Hy. apply Hfresh, Hin, Hy.
Qed.

(** X13.  On a win that reaches the threshold the state offers upgrades
    for the shop.  If the sort of the offer returns the upgrades it was
    given, the offered ids are distinct ids of catalog upgrades that are
    not unlocked yet, three of them or all that are left if fewer; with
    credits left the phase is [upgrade_selection] when something is
    offered and [round_over] when everything is unlocked already.
    Selecting an offered id with [selectNewUpgrade] unlocks it, clears the
    offer and returns to [round_over]. *)
Theorem level_up_offer (random : nat -> Q)
    (Array_sort : (CardUpgrade -> CardUpgrade -> Rand Q)
                  -> list CardUpgrade -> Rand (list CardUpgrade))
    (state prev : GameState) (pHand dHand : list PlayingCard) (bet : Q)
    (busted : bool) (n : nat)
    (Hsort : sortPermutes Array_sort)
    (Hwin : win (roundVerdict random state pHand dHand bet busted n) = true)
    (Hreach : corruptionThreshold state <= corruptionTokens state + 1) :
  let s' :=
    after (fst (resolveRound random Array_sort state pHand dHand bet busted n))
      prev in
  let offered := offeredUpgradeIds s' in
  List.length offered = Nat.min 3 (List.length (lockedUpgrades state))
  /\ NoDup offered
  /\ (forall id,
         In id offered ->
         includes id (unlockedUpgrades state) = false
         /\ exists u, In u UPGRADES /\ CardUpgrade.id u = id)
  /\ (10 <= credits s' ->
      phase s' = (if (0 <? List.length (lockedUpgrades state))%nat
                  then upgrade_selection else round_over))
  /\ (forall id,
         let s'' := after (selectNewUpgrade id) s' in
         In id (unlockedUpgrades s'')
         /\ offeredUpgradeIds s'' = []
         /\ phase s'' = round_over
         /\ credits s'' = credits s').
Proof.
  intros s' offered.
  pose proof (resolveRound_after random Array_sort state prev pHand dHand bet
                busted n) as [Hafter _].
  cbv zeta in Hafter. fold s' in Hafter.
  unfold roundVerdict in Hwin.
  set (v := fst (adjudicate random state pHand dHand bet busted n)) in *.
  set (n1 := snd (adjudicate random state pHand dHand bet busted n)) in *.
  assert (Hg : exists cmp,
             newOfferedUpgrades
               (fst (progression random Array_sort state v n1))
             = (if (0 <? List.length (lockedUpgrades state))%nat
                then map CardUpgrade.id
                       (firstn 3 (fst (Array_sort cmp (lockedUpgrades state)
                                         n1)))
                else [])
             /\ nextPhase (fst (progression random Array_sort state v n1))
                = (if (0 <? List.length (lockedUpgrades state))%nat
                   then upgrade_selection else round_over)).
  { unfold progression, Qgeb. fold (lockedUpgrades state). rewrite Hwin.
    apply Qle_bool_iff in Hreach. rewrite Hreach. unfold bind.
    destruct (if (0 <? _)%nat then _ else _) as [offer n2] eqn:Hoff.
    destruct (if ((5 <? _) && _)%Z then _ else _) as [glitch n3].
    cbn [fst snd newOfferedUpgrades nextPhase].
    destruct (0 <? List.length (lockedUpgrades state))%nat.
    - match type of Hoff with
      | context [Array_sort ?c _ _] => exists c
      end.
      destruct (Array_sort _ (lockedUpgrades state) n1) as [shuffled n4].
      unfold ret in Hoff. cbn [fst]. injection Hoff as <- _.
      split; reflexivity.
    - exists (fun _ _ => ret 0).
      unfold ret in Hoff. injection Hoff as <- _. split; reflexivity. }
  destruct Hg as (cmp & Hoffer & Hphase).
  assert (Hoffered : offered
                     = (if (0 <? List.length (lockedUpgrades state))%nat
                        then map CardUpgrade.id
                               (firstn 3
                                  (fst (Array_sort cmp (lockedUpgrades state)
                                          n1)))
                        else [])).
  { subst offered. rewrite Hafter, <- Hoffer. reflexivity. }
  pose proof (Hsort cmp (lockedUpgrades state) n1) as Hperm.
  set (shuffled := fst (Array_sort cmp (lockedUpgrades state) n1)) in *.
  assert (Hlocked : NoDup (map CardUpgrade.id (lockedUpgrades state)))
    by (apply filter_keeps_distinct, upgrade_ids_distinct).
  split; [|split; [|split; [|split]]].
  - rewrite Hoffered.
    destruct (lockedUpgrades state) as [|u locked] eqn:El; [reflexivity|].
    cbn [List.length Nat.ltb Nat.leb].
    rewrite length_map, length_firstn, (Permutation_length Hperm).
    reflexivity.
  - rewrite Hoffered.
    destruct (0 <? _)%nat; [|constructor].
    rewrite <- firstn_map. apply (proj2 (firstn_keeps _ 3)).
    apply (Permutation_NoDup (Permutation_map _ (Permutation_sym Hperm))).
    exact Hlocked.
  - intros id Hin. rewrite Hoffered in Hin.
    destruct (0 <? _)%nat; [|destruct Hin].
    apply in_map_iff in Hin. destruct Hin as (u & Hid & Hin).
    apply (proj1 (firstn_keeps _ 3)) in Hin.
    apply (Permutation_in _ Hperm) in Hin.
    apply filter_In in Hin. destruct Hin as [Hcat Hlock].
    rewrite Hid in Hlock. apply negb_true_iff in Hlock.
    split; [exact Hlock|]. exists u. split; assumption.
  - intros Hok. rewrite Hafter in Hok |- *. unfold resolveUpdate in *.
    cbn [credits phase set_credits set_essence set_phase set_message
           set_corruptionTokens set_houseLevel set_corruptionThreshold
           set_activePassives set_discardPile set_offeredUpgradeIds] in *.
    apply Qltb_false in Hok. rewrite Hok. exact Hphase.
  - intros id s''. subst s''. cbn.
    split; [apply in_or_app; right; left; reflexivity|].
    repeat split.
Qed.

Lemma level_up_offer_witness :
  let s' :=
    after (fst (resolveRound zeroRandom keepOrder brinkState eighteen
                  dealerSeventeen 10 false O)) brinkState in
  sortPermutes keepOrder
  /\ win (roundVerdict zeroRandom brinkState eighteen dealerSeventeen 10
            false O) = true
  /\ corruptionThreshold brinkState <= corruptionTokens brinkState + 1
  /\ offeredUpgradeIds s' = ["lucky_charm"; "credit_cache"; "essence_well"]
  /\ NoDup (offeredUpgradeIds s')
  /\ phase s' = upgrade_selection.
Proof.
  intros s'.
  assert (Hsort : sortPermutes keepOrder) by (intros cmp l k; reflexivity).
  assert (Hwin : win (roundVerdict zeroRandom brinkState eighteen
                        dealerSeventeen 10 false O) = true) by reflexivity.
  assert (Hreach : corruptionThreshold brinkState
                   <= corruptionTokens brinkState + 1)
    by (vm_compute; discriminate).
  destruct (@level_up_offer zeroRandom keepOrder brinkState brinkState
              eighteen dealerSeventeen 10 false O Hsort Hwin Hreach)
    as (_ & Hnodup & _ & Hphase & _).
  split; [exact Hsort|]. split; [exact Hwin|]. split; [exact Hreach|].
  split; [reflexivity|]. split; [exact Hnodup|].
  apply Hphase. vm_compute. discriminate.
Defined.

Lemma curse_index_in_range (x : Q) (len : nat) :
  0 <= x -> x < 1 -> (0 < len)%nat ->
  (Z.to_nat (Qfloor (x * inject_Z (Z.of_nat len))) < len)%nat.
Proof.
  intros H0 H1 Hlen. destruct len as [|i]; [lia|].
  pose proof (swapIndex_in_range i H0 H1) as Hj. unfold swapIndex in Hj.
  replace (Z.of_nat (S i)) with (Z.of_nat i + 1)%Z by lia. lia.
Qed.

(** X14.  A resolution overwrites the active passives with those of the
    render [state] it was called from, followed by at most one added
    passive.  What it adds is a curse of the catalog that was not active
    there, and only on a level-up to an even house level above 5; with
    random numbers in [[0, 1)], such a level-up does add a curse as long as
    one is left.  So no passive of the state [prev] it runs on is removed
    when [prev] holds the passives of [state], as it does on the dealer's
    path; a passive that only [prev] holds (one bought between a busting
    hit and its delayed resolution) is dropped. *)
Theorem resolveRound_curses (random : nat -> Q)
    (Array_sort : (CardUpgrade -> CardUpgrade -> Rand Q)
                  -> list CardUpgrade -> Rand (list CardUpgrade))
    (state prev : GameState) (pHand dHand : list PlayingCard) (bet : Q)
    (busted : bool) (n : nat) :
  let s' :=
    after (fst (resolveRound random Array_sort state pHand dHand bet busted n))
      prev in
  let v := roundVerdict random state pHand dHand bet busted n in
  let levelUp :=
    win v = true
    /\ corruptionThreshold state <= corruptionTokens state + 1
    /\ (5 < houseLevel state + 1)%Z
    /\ ((houseLevel state + 1) mod 2 = 0)%Z in
  exists added,
    activePassives s' = activePassives state ++ added
    /\ (List.length added <= 1)%nat
    /\ (forall c,
           In c added ->
           Passive.type c = curse
           /\ In c PASSIVES
           /\ hasPassive state (Passive.id c) = false
           /\ levelUp)
    /\ (unitRange random -> levelUp -> pendingCurses state <> [] ->
        exists c, added = [c])
    /\ (activePassives prev = activePassives state ->
        activePassives s' = activePassives prev ++ added)
    /\ (forall p,
           In p (activePassives prev) ->
           ~ In p (activePassives state) ->
           Passive.type p = boon ->
           ~ In p (activePassives s')).
Proof.
  intros s' v levelUp.
  enough (Hmain :
    exists added,
      activePassives s' = activePassives state ++ added
      /\ (List.length added <= 1)%nat
      /\ (forall c,
             In c added ->
             Passive.type c = curse
             /\ In c PASSIVES
             /\ hasPassive state (Passive.id c) = false
             /\ levelUp)
      /\ (unitRange random -> levelUp -> pendingCurses state <> [] ->
          exists c, added = [c])).
  { destruct Hmain as (added & Hact & Hlen & Hcurse & Hgrant).
    exists added. repeat (split; [assumption|]). split.
    - intros Hsame. rewrite Hsame. exact Hact.
    - intros p _ Hnew Hboon Hin. rewrite Hact in Hin.
      apply in_app_or in Hin. destruct Hin as [Hin | Hin]; [tauto|].
      destruct (Hcurse p Hin) as (Htype & _). congruence. }
  pose proof (resolveRound_after random Array_sort state prev pHand dHand bet
                busted n) as [Hafter _].
  cbv zeta in Hafter. fold s' in Hafter.
  assert (Hact : activePassives s'
                 = newPassives
                     (fst (progression random Array_sort state
                             (fst (adjudicate random state pHand dHand bet
                                     busted n))
                             (snd (adjudicate random state pHand dHand bet
                                     busted n)))))
    by (rewrite Hafter; reflexivity).
  rewrite Hact. subst levelUp v. unfold roundVerdict.
  generalize (snd (adjudicate random state pHand dHand bet busted n)).
  generalize (fst (adjudicate random state pHand dHand bet busted n)).
  intros v n1. clear.
  unfold progression, Qgeb.
  destruct (win v) eqn:Hwin.
  2: { exists []. rewrite app_nil_r. split; [reflexivity|].
       split; [cbn; lia|]. split; [intros c []|].
       intros _ (Hw & _). discriminate Hw. }
  destruct (Qle_bool (corruptionThreshold state) (corruptionTokens state + 1))
    eqn:Hreach.
  2: { exists []. rewrite app_nil_r. split; [reflexivity|].
       split; [cbn; lia|]. split; [intros c []|].
       intros _ (_ & Hr & _). apply Qle_bool_iff in Hr. congruence. }
  apply Qle_bool_iff in Hreach.
  unfold bind.
  destruct (if (0 <? _)%nat then _ else _) as [offer n2].
  fold (hasPassive state). 
  change (filter _ PASSIVES) with (pendingCurses state).
  destruct ((5 <? houseLevel state + 1)%Z) eqn:H5; cbn [andb].
  2: { cbn [ret fst snd newPassives]. exists []. rewrite app_nil_r.
       split; [reflexivity|]. split; [cbn; lia|]. split; [intros c []|].
       intros _ (_ & _ & Hgt & _). apply Z.ltb_lt in Hgt. congruence. }
  destruct ((houseLevel state + 1) mod 2 =? 0)%Z eqn:Heven.
  2: { cbn [ret fst snd newPassives]. exists []. rewrite app_nil_r.
       split; [reflexivity|]. split; [cbn; lia|]. split; [intros c []|].
       intros _ (_ & _ & _ & He). apply Z.eqb_eq in He. congruence. }
  apply Z.ltb_lt in H5. apply Z.eqb_eq in Heven.
  destruct (0 <? List.length (pendingCurses state))%nat eqn:Hpending.
  2: { cbn [ret fst snd newPassives]. exists []. rewrite app_nil_r.
       split; [reflexivity|]. split; [cbn; lia|]. split; [intros c []|].
       intros _ _ Hleft. apply Nat.ltb_ge in Hpending.
       destruct (pendingCurses state); [contradiction | cbn in Hpending; lia]. }
  apply Nat.ltb_lt in Hpending. unfold Math_random.
  destruct (nth_error (pendingCurses state) _) as [randomCurse|] eqn:Hnth.
  - cbn [ret fst snd newPassives]. exists [randomCurse].
    split; [reflexivity|]. split; [cbn; lia|]. split.
    + intros c [<-|[]]. apply nth_error_In in Hnth.
      apply filter_In in Hnth. destruct Hnth as [Hcat Hc].
      apply andb_true_iff in Hc. destruct Hc as [Htype Hnew].
      apply negb_true_iff in Hnew.
      split; [destruct (Passive.type randomCurse); [discriminate|reflexivity]|].
      repeat split; assumption.
    + intros _ _ _. exists randomCurse. reflexivity.
  - cbn [ret fst snd newPassives]. exists []. rewrite app_nil_r.
    split; [reflexivity|]. split; [cbn; lia|]. split; [intros c []|].
    intros Hrange _ _. exfalso.
    apply nth_error_None in Hnth.
    pose proof (@curse_index_in_range (random n2)
                  (List.length (pendingCurses state))
                  (proj1 (Hrange n2)) (proj2 (Hrange n2)) Hpending).
    lia.
Qed.

Lemma resolveRound_curses_witness :
  let s' :=
    after (fst (resolveRound zeroRandom keepOrder levelFiveBrink eighteen
                  dealerSeventeen 10 false O)) levelFiveBrink in
  let bust := after (fst (hit zeroRandom heatedTable O)) heatedTable in
  let shop := after goToForge bust in
  let bought := after (buyPassive shop noHacks auto_miner) shop in
  let late :=
    after (fst (resolveRound zeroRandom keepOrder heatedTable heatedBust
                  (dealerHand heatedTable) 10 true O)) bought in
  unitRange zeroRandom
  /\ win (roundVerdict zeroRandom levelFiveBrink eighteen dealerSeventeen 10
            false O) = true
  /\ pendingCurses levelFiveBrink <> []
  /\ houseLevel s' = 6%Z
  /\ map Passive.id (activePassives s') = ["memory_leak"]
  /\ (exists c, activePassives s' = activePassives levelFiveBrink ++ [c])
  /\ activePassives bought = [auto_miner]
  /\ essence bought == essence bust - 100
  /\ ~ In auto_miner (activePassives heatedTable)
  /\ ~ In auto_miner (activePassives late)
  /\ essence late == essence bought.
Proof.
  intros s' bust shop bought late.
  assert (Hrange : unitRange zeroRandom)
    by (intros k; split; [discriminate | reflexivity]).
  assert (Hwin : win (roundVerdict zeroRandom levelFiveBrink eighteen
                        dealerSeventeen 10 false O) = true) by reflexivity.
  assert (Hleft : pendingCurses levelFiveBrink <> []) by discriminate.
  assert (Hheld : In auto_miner (activePassives bought))
    by (left; reflexivity).
  assert (Hnew : ~ In auto_miner (activePassives heatedTable))
    by (intros []).
  split; [exact Hrange|]. split; [exact Hwin|]. split; [exact Hleft|].
  split; [reflexivity|]. split; [reflexivity|].
  split.
  { destruct (resolveRound_curses zeroRandom keepOrder levelFiveBrink
                levelFiveBrink eighteen dealerSeventeen 10 false O)
      as (added & _ & _ & _ & Hgrant & Hsame & _).
    destruct Hgrant as (c & Hc).
    - exact Hrange.
    - split; [exact Hwin|]. split; [vm_compute; discriminate|].
      split; reflexivity.
    - exact Hleft.
    - exists c. fold s' in Hsame. rewrite (Hsame eq_refl), Hc. reflexivity. }
  split; [reflexivity|]. split; [reflexivity|]. split; [exact Hnew|].
  split; [|reflexivity].
  destruct (resolveRound_curses zeroRandom keepOrder heatedTable bought
              heatedBust (dealerHand heatedTable) 10 true O)
    as (added & _ & _ & _ & _ & _ & Hdrop).
  exact (Hdrop auto_miner Hheld Hnew eq_refl).
Defined.

(* ------------------------------------------------------------------ *)
(** ** Card effects *)

Lemma upgradeEffect_plus (acc : CardEffects) (upg : CardUpgrade) :
  sameEffects (upgradeEffect acc upg) (plusEffects acc (contribution upg)).
Proof.
  unfold sameEffects, plusEffects, contribution, upgradeEffect.
  cbn [essenceDelta creditDelta corruptionDelta].
  destruct (EffectType_eqb (CardUpgrade.effectType upg) bonus_essence),
           (EffectType_eqb (CardUpgrade.effectType upg) bonus_credits),
           (EffectType_eqb (CardUpgrade.effectType upg) reduce_corruption),
           (EffectType_eqb (CardUpgrade.effectType upg) risk_corruption),
           (String.eqb (CardUpgrade.id upg) "hybrid_chip"),
           (String.eqb (CardUpgrade.id upg) "essence_converter");
    repeat split; ring.
Qed.

Lemma fold_upgradeEffect_same (us : list CardUpgrade) (a b : CardEffects) :
  sameEffects a b ->
  sameEffects (fold_left upgradeEffect us a) (fold_left upgradeEffect us b).
Proof.
  revert a b. induction us as [|u us IH]; intros a b Hab; [exact Hab|].
  cbn [fold_left]. apply IH.
  destruct (upgradeEffect_plus a u) as (Ha1 & Ha2 & Ha3).
  destruct (upgradeEffect_plus b u) as (Hb1 & Hb2 & Hb3).
  destruct Hab as (H1 & H2 & H3).
  unfold sameEffects. rewrite Ha1, Ha2, Ha3, Hb1, Hb2, Hb3.
  unfold plusEffects. cbn [essenceDelta creditDelta corruptionDelta].
  rewrite H1, H2, H3. repeat split; reflexivity.
Qed.

Lemma fold_upgradeEffect_permutes (us us' : list CardUpgrade)
    (a : CardEffects) :
  Permutation us us' ->
  sameEffects (fold_left upgradeEffect us a) (fold_left upgradeEffect us' a).
Proof.
  intros Hperm. revert a.
  induction Hperm as [|u l l' _ IH|u w l|l l' l'' _ IH1 _ IH2]; intros a.
  - repeat split; reflexivity.
  - cbn [fold_left]. apply IH.
  - cbn [fold_left]. apply fold_upgradeEffect_same.
    destruct (upgradeEffect_plus (upgradeEffect a w) u) as (A1 & A2 & A3).
    destruct (upgradeEffect_plus (upgradeEffect a u) w) as (B1 & B2 & B3).
    destruct (upgradeEffect_plus a w) as (C1 & C2 & C3).
    destruct (upgradeEffect_plus a u) as (D1 & D2 & D3).
    unfold sameEffects. rewrite A1, A2, A3, B1, B2, B3.
    unfold plusEffects. cbn [essenceDelta creditDelta corruptionDelta].
    rewrite C1, C2, C3, D1, D2, D3.
    unfold plusEffects. cbn [essenceDelta creditDelta corruptionDelta].
    repeat split; ring.
  - destruct (IH1 a) as (H1 & H2 & H3). destruct (IH2 a) as (H4 & H5 & H6).
    unfold sameEffects. rewrite H1, H2, H3. repeat split; assumption.
Qed.

(** X15.  The effects of a card stack additively.  A card without upgrades
    earns 1 essence and nothing else, and no essence at house level 3.
    One more upgrade on a card adds that upgrade's own contribution,
    whatever the card already carries, so the order in which upgrades
    were bought does not matter; and house level 3 takes exactly 1
    essence off every card. *)
Theorem processCardEffects_stack (state : GameState) (c : PlayingCard) :
  let base := if (houseLevel state =? 3)%Z then 0 else 1 in
  (PlayingCard.upgrades c = [] ->
   processCardEffects state c
   = {| essenceDelta := base; creditDelta := 0; corruptionDelta := 0 |})
  /\ (forall upg,
         sameEffects (processCardEffects state (addUpgrade upg c))
           (plusEffects (processCardEffects state c) (contribution upg)))
  /\ (forall c',
         Permutation (PlayingCard.upgrades c) (PlayingCard.upgrades c') ->
         sameEffects (processCardEffects state c)
           (processCardEffects state c'))
  /\ (forall taxed,
         houseLevel taxed = 3%Z -> houseLevel state <> 3%Z ->
         sameEffects (processCardEffects state c)
           (plusEffects (processCardEffects taxed c)
              {| essenceDelta := 1; creditDelta := 0;
                 corruptionDelta := 0 |})).
Proof.
  intros base. unfold processCardEffects. fold base.
  split; [intros ->; reflexivity|].
  split; [|split].
  - intros upg. cbn [addUpgrade PlayingCard.upgrades].
    rewrite fold_left_app. cbn [fold_left]. apply upgradeEffect_plus.
  - intros c' Hperm. apply fold_upgradeEffect_permutes, Hperm.
  - intros taxed Htaxed Hfree. rewrite Htaxed. cbn [Z.eqb Pos.eqb].
    subst base. apply Z.eqb_neq in Hfree. rewrite Hfree.
    generalize (PlayingCard.upgrades c). intros us.
    assert (Hgen : forall a b,
               sameEffects a
                 (plusEffects b {| essenceDelta := 1; creditDelta := 0;
                                   corruptionDelta := 0 |}) ->
               sameEffects (fold_left upgradeEffect us a)
                 (plusEffects (fold_left upgradeEffect us b)
                    {| essenceDelta := 1; creditDelta := 0;
                       corruptionDelta := 0 |})).
    { induction us as [|u us IH]; intros a b Hab; [exact Hab|].
      cbn [fold_left]. apply IH.
      destruct (upgradeEffect_plus a u) as (A1 & A2 & A3).
      destruct (upgradeEffect_plus b u) as (B1 & B2 & B3).
      destruct Hab as (H1 & H2 & H3).
      unfold sameEffects, plusEffects in *.
      cbn [essenceDelta creditDelta corruptionDelta] in *.
      rewrite A1, A2, A3, B1, B2, B3, H1, H2, H3. repeat split; ring. }
    apply Hgen. repeat split; cbn; ring.
Qed.

Lemma processCardEffects_stack_witness :
  let taxed := set_houseLevel 3 tableState in
  houseLevel taxed = 3%Z
  /\ houseLevel tableState <> 3%Z
  /\ essenceDelta (processCardEffects taxed nineOfHearts) == 0
  /\ essenceDelta (processCardEffects tableState nineOfHearts)
     == essenceDelta (processCardEffects taxed nineOfHearts) + 1.
Proof.
  intros taxed.
  assert (Htaxed : houseLevel taxed = 3%Z) by reflexivity.
  assert (Hfree : houseLevel tableState <> 3%Z) by discriminate.
  destruct (processCardEffects_stack tableState nineOfHearts)
    as (_ & _ & _ & Htax).
  destruct (Htax taxed Htaxed Hfree) as (He & _).
  split; [exact Htaxed|]. split; [exact Hfree|]. split; [reflexivity|].
  exact He.
Defined.

(* ------------------------------------------------------------------ *)
(** ** More on the forge *)

Lemma spend_keeps_nonneg (x cost : Q) : Qltb x cost = false -> 0 <= x - cost.
Proof.
  intros H. apply Qltb_false in H.
  setoid_replace 0 with (cost - cost) by ring.
  apply Qplus_le_l. exact H.
Qed.

(** X16.  No purchase of the forge overdraws the essence: after
    [buyUpgrade], [buyConsumable], [buyPassive] and [purgeCard] the essence
    is not negative if it was not before, and it is never higher than
    before as long as the price is not negative. *)
Theorem forge_never_overdraws (state : GameState) (globalState : GlobalState)
    (Hessence : 0 <= essence state) :
  (forall sel upgrade,
      0 <= essence (after (buyUpgrade state globalState sel upgrade) state))
  /\ (forall item,
         0 <= essence (after (buyConsumable state globalState item) state))
  /\ (forall passive,
         0 <= essence (after (buyPassive state globalState passive) state))
  /\ (forall sel, 0 <= essence (after (purgeCard state sel) state))
  /\ (forall sel upgrade,
         0 <= upgradeCost state globalState upgrade ->
         essence (after (buyUpgrade state globalState sel upgrade) state)
         <= essence state)
  /\ (forall sel,
         essence (after (purgeCard state sel) state) <= essence state).
Proof.
  split; [|split; [|split; [|split; [|split]]]].
  - intros sel upgrade. unfold buyUpgrade.
    destruct (selected sel); [|exact Hessence].
    destruct (Qltb (essence state) _) eqn:E; [exact Hessence|].
    apply spend_keeps_nonneg, E.
  - intros item. unfold buyConsumable.
    destruct (3 <=? _)%nat; [exact Hessence|].
    destruct (Qltb (essence state) _) eqn:E; [exact Hessence|].
    apply spend_keeps_nonneg, E.
  - intros passive. unfold buyPassive.
    destruct (Passive.cost passive) as [c|]; [|exact Hessence].
    destruct (Qeq_bool c 0); [exact Hessence|].
    destruct (Qltb (essence state) _) eqn:E; [exact Hessence|].
    destruct (hasPassive state (Passive.id passive)); [exact Hessence|].
    apply spend_keeps_nonneg, E.
  - intros sel. unfold purgeCard.
    destruct (selected sel); [|exact Hessence].
    destruct (_ <=? 5)%nat; [exact Hessence|].
    destruct (Qltb (essence state) _) eqn:E; [exact Hessence|].
    apply spend_keeps_nonneg, E.
  - intros sel upgrade Hcost. unfold buyUpgrade.
    destruct (selected sel); [|apply Qle_refl].
    destruct (Qltb (essence state) _); [apply Qle_refl|].
    cbn. rewrite <- (Qplus_0_r (essence state)) at 2.
    unfold Qminus. apply Qplus_le_r.
    setoid_replace 0 with (- 0) by ring. apply Qopp_le_compat, Hcost.
  - intros sel. unfold purgeCard.
    destruct (selected sel); [|apply Qle_refl].
    destruct (_ <=? 5)%nat; [apply Qle_refl|].
    destruct (Qltb (essence state) _); [apply Qle_refl|].
    cbn [after applyEffects essence set_essence set_playerDeck set_drawPile
           set_discardPile set_message].
    rewrite <- (Qplus_0_r (essence state)) at 2.
    unfold Qminus. apply Qplus_le_r.
    setoid_replace 0 with (- 0) by ring. apply Qopp_le_compat.
    unfold purgeCost. change 0 with (inject_Z 0). rewrite <- Zle_Qle. lia.
Qed.

Lemma forge_never_overdraws_witness :
  0 <= essence forgeState
  /\ 0 <= essence (after (purgeCard forgeState (Some "10-spades-k3v9x0q2a"))
                     forgeState)
  /\ essence (after (purgeCard forgeState (Some "10-spades-k3v9x0q2a"))
                forgeState) == 65.
Proof.
  assert (Hessence : 0 <= essence forgeState) by (vm_compute; discriminate).
  destruct (@forge_never_overdraws forgeState noHacks Hessence)
    as (_ & _ & _ & Hpurge & _).
  split; [exact Hessence|]. split; [apply Hpurge | reflexivity].
Defined.

Lemma removeAt_length {A} (l : list A) (k : nat) (x : A) :
  nth_error l k = Some x ->
  S (List.length (removeAt k l)) = List.length l.
Proof.
  revert k. induction l as [|y l IH]; intros k Hk.
  - destruct k; discriminate Hk.
  - destruct k as [|k]; cbn in *; [reflexivity|].
    rewrite (IH _ Hk). reflexivity.
Qed.

Lemma removeAt_permutes {A} (l : list A) (k : nat) (x : A) :
  nth_error l k = Some x -> Permutation l (x :: removeAt k l).
Proof.
  revert k. induction l as [|y l IH]; intros k Hk.
  - destruct k; discriminate Hk.
  - destruct k as [|k]; cbn in *.
    + injection Hk as ->. reflexivity.
    + apply Permutation_trans with (y :: x :: removeAt k l);
        [apply perm_skip, IH, Hk | apply perm_swap].
Qed.

(** X17.  The inventory holds at most three consumables: [buyConsumable]
    keeps the bound, a purchase adds the item at the end, and with three
    items held it changes nothing but the message, whatever the essence.
    [useConsumable] on a held item removes that one item and keeps the
    others; on an index past the end it queues nothing.  Neither touches
    the credits. *)
Theorem inventory_bound (state : GameState) (globalState : GlobalState)
    (Hbound : (List.length (inventory state) <= 3)%nat) :
  (forall item,
      let s' := after (buyConsumable state globalState item) state in
      (List.length (inventory s') <= 3)%nat
      /\ (inventory s' = inventory state
          \/ inventory s' = inventory state ++ [item])
      /\ credits s' = credits state)
  /\ (forall item,
         List.length (inventory state) = 3%nat ->
         let s' := after (buyConsumable state globalState item) state in
         s' = set_message "Inventory full." state)
  /\ (forall index item,
         nth_error (inventory state) index = Some item ->
         let s' := after (useConsumable state index) state in
         Permutation (inventory state) (item :: inventory s')
         /\ S (List.length (inventory s')) = List.length (inventory state)
         /\ credits s' = credits state /\ essence s' = essence state
         /\ phase s' = phase state /\ playerHand s' = playerHand state)
  /\ (forall index,
         (List.length (inventory state) <= index)%nat ->
         useConsumable state index = []).
Proof.
  split; [|split; [|split]].
  - intros item s'. subst s'. unfold buyConsumable.
    destruct (Nat.leb_spec 3 (List.length (inventory state))).
    + cbn. auto.
    + destruct (Qltb (essence state) _); cbn; [auto|].
      rewrite length_app. cbn. split; [lia|]. auto.
  - intros item Hfull s'. subst s'. unfold buyConsumable. rewrite Hfull.
    reflexivity.
  - intros index item Hitem s'. subst s'. unfold useConsumable.
    rewrite Hitem.
    assert (Hinv : forall newState,
               inventory (after [setState (fun _ =>
                                   newState
                                   |> set_inventory
                                        (removeAt index (inventory state)))]
                            state)
               = removeAt index (inventory state)) by reflexivity.
    rewrite Hinv.
    split; [apply removeAt_permutes, Hitem|].
    split; [apply removeAt_length with (x := item), Hitem|].
    destruct (Consumable.type item); repeat split.
  - intros index Hpast. unfold useConsumable.
    apply nth_error_None in Hpast. rewrite Hpast. reflexivity.
Qed.

Lemma inventory_bound_witness :
  (List.length (inventory tableState) <= 3)%nat
  /\ nth_error (inventory tableState) O
     = Some (Consumable.mk "coolant" "System Coolant" 25 reduce_threat)
  /\ inventory (after (useConsumable tableState O) tableState) = []
  /\ S (List.length (inventory (after (useConsumable tableState O) tableState)))
     = List.length (inventory tableState).
Proof.
  assert (Hbound : (List.length (inventory tableState) <= 3)%nat)
    by (vm_compute; lia).
  assert (Hitem : nth_error (inventory tableState) O
                  = Some (Consumable.mk "coolant" "System Coolant" 25
                            reduce_threat)) by reflexivity.
  destruct (@inventory_bound tableState noHacks Hbound) as (_ & _ & Huse & _).
  destruct (Huse O _ Hitem) as (_ & Hlen & _).
  split; [exact Hbound|]. split; [exact Hitem|].
  split; [reflexivity | exact Hlen].
Defined.

(** X18.  A passive is installed at most once: [buyPassive] changes nothing
    when the passive is active already, so passive ids that are distinct
    stay distinct; a passive without a cost, as every curse of the
    catalog, cannot be bought.  A purchase adds the passive at the end of
    the active ones, after which it is active. *)
Theorem buyPassive_once (state : GameState) (globalState : GlobalState)
    (passive : Passive)
    (Hdistinct : NoDup (map Passive.id (activePassives state))) :
  let effs := buyPassive state globalState passive in
  let s' := after effs state in
  NoDup (map Passive.id (activePassives s'))
  /\ (activePassives s' = activePassives state
      \/ (activePassives s' = activePassives state ++ [passive]
          /\ hasPassive state (Passive.id passive) = false
          /\ hasPassive s' (Passive.id passive) = true
          /\ exists cost,
               Passive.cost passive = Some cost
               /\ essence s' = essence state
                               - passiveCost state globalState cost))
  /\ (Passive.cost passive = None -> effs = [])
  /\ (hasPassive state (Passive.id passive) = true ->
      activePassives s' = activePassives state
      /\ essence s' = essence state)
  /\ (forall p, In p PASSIVES -> Passive.type p = curse ->
                buyPassive state globalState p = []).
Proof.
  intros effs s'. subst s' effs. unfold buyPassive.
  split; [|split; [|split; [|split]]].
  - destruct (Passive.cost passive) as [c|]; [|exact Hdistinct].
    destruct (Qeq_bool c 0); [exact Hdistinct|].
    destruct (Qltb (essence state) _); [exact Hdistinct|].
    destruct (hasPassive state (Passive.id passive)) eqn:Hhas;
      [exact Hdistinct|].
    cbn. rewrite map_app. cbn.
    apply NoDup_app; [exact Hdistinct | repeat constructor; intros [] |].
    intros x Hx [<-|[]]. apply in_map_iff in Hx.
    destruct Hx as (p & Hid & Hp).
    assert (Hyes : hasPassive state (Passive.id passive) = true).
    { unfold hasPassive. apply existsb_exists. exists p.
      split; [exact Hp | apply String.eqb_eq, Hid]. }
    congruence.
  - destruct (Passive.cost passive) as [c|]; [|left; reflexivity].
    destruct (Qeq_bool c 0); [left; reflexivity|].
    destruct (Qltb (essence state) _); [left; reflexivity|].
    destruct (hasPassive state (Passive.id passive)) eqn:Hhas;
      [left; reflexivity|].
    right. split; [reflexivity|]. split; [reflexivity|]. split.
    + unfold hasPassive. cbn. rewrite existsb_app. cbn.
      rewrite String.eqb_refl, orb_true_r. reflexivity.
    + exists c. split; reflexivity.
  - intros ->. reflexivity.
  - intros Hhas. rewrite Hhas.
    destruct (Passive.cost passive) as [c|]; [|split; reflexivity].
    destruct (Qeq_bool c 0); [split; reflexivity|].
    destruct (Qltb (essence state) _); split; reflexivity.
  - intros p Hp Hcurse. unfold PASSIVES in Hp. cbn [In] in Hp.
    repeat (destruct Hp as [<-|Hp]; [try discriminate Hcurse; reflexivity|]).
    destruct Hp.
Qed.

Lemma buyPassive_once_witness :
  NoDup (map Passive.id (activePassives forgeState))
  /\ map Passive.id
       (activePassives (after (buyPassive forgeState noHacks auto_miner)
                          forgeState))
     = ["encryption_error"; "auto_miner"]
  /\ NoDup (map Passive.id
              (activePassives (after (buyPassive forgeState noHacks auto_miner)
                                 forgeState))).
Proof.
  assert (Hdistinct : NoDup (map Passive.id (activePassives forgeState)))
    by (repeat constructor; intros []).
  split; [exact Hdistinct|]. split; [reflexivity|].
  exact (proj1 (@buyPassive_once forgeState noHacks auto_miner Hdistinct)).
Defined.

Lemma map_upgrade_ids (upgrade : CardUpgrade) (id : string)
    (l : list PlayingCard) :
  let upgradeIt := fun c => if idIs id c then addUpgrade upgrade c else c in
  cardIds (map upgradeIt l) = cardIds l
  /\ map PlayingCard.value (map upgradeIt l) = map PlayingCard.value l
  /\ map PlayingCard.rank (map upgradeIt l) = map PlayingCard.rank l.
Proof.
  intros upgradeIt. unfold cardIds. rewrite !map_map.
  repeat split; apply map_ext; intros c; unfold upgradeIt;
    destruct (idIs id c); reflexivity.
Qed.

Lemma score_from_values (h h' : list PlayingCard) :
  map PlayingCard.value h = map PlayingCard.value h' ->
  map PlayingCard.rank h = map PlayingCard.rank h' ->
  calculateHandScore h = calculateHandScore h'.
Proof.
  intros Hv Hr. unfold calculateHandScore. rewrite !handTotals_eq.
  assert (H : sumValues h = sumValues h' /\ countAces h = countAces h').
  { revert h' Hv Hr. induction h as [|c h IH]; intros [|c' h'] Hv Hr;
      try discriminate; [split; reflexivity|].
    cbn in Hv, Hr. injection Hv as Hv1 Hv2. injection Hr as Hr1 Hr2.
    destruct (IH h' Hv2 Hr2) as [Hs Ha].
    rewrite !sumValues_cons, !countAces_cons, Hv1, Hr1, Hs, Ha.
    split; reflexivity. }
  destruct H as [Hs Ha].
  rewrite Hs, Ha. reflexivity.
Qed.

(** X19.  [buyUpgrade] without a selected card, or with less essence than
    the price, queues nothing: the state stays as it is, message
    included.  Otherwise it takes the price and appends the upgrade to
    every card with the selected id, in the master deck, both piles and
    the hand alike; no card changes id, rank or value, so the score of the
    hand is unchanged, cards with another id are untouched, and a master
    deck that held exactly the cards of the piles and the hand still
    does. *)
Theorem buyUpgrade_spec (state : GameState) (globalState : GlobalState)
    (sel : option string) (upgrade : CardUpgrade) :
  let effs := buyUpgrade state globalState sel upgrade in
  let s' := after effs state in
  let cost := upgradeCost state globalState upgrade in
  (selected sel = None \/ essence state < cost -> effs = [])
  /\ (forall id,
         selected sel = Some id -> cost <= essence state ->
         let upgradeIt := fun c =>
           if idIs id c then addUpgrade upgrade c else c in
         essence s' = essence state - cost
         /\ playerDeck s' = map upgradeIt (playerDeck state)
         /\ playerCards s' = map upgradeIt (playerCards state)
         /\ cardIds (playerDeck s') = cardIds (playerDeck state)
         /\ cardIds (playerCards s') = cardIds (playerCards state)
         /\ calculateHandScore (playerHand s')
            = calculateHandScore (playerHand state)
         /\ (forall c, In c (playerDeck state) -> PlayingCard.id c = id ->
                       In (addUpgrade upgrade c) (playerDeck s'))
         /\ (forall c, In c (playerDeck state) -> PlayingCard.id c <> id ->
                       In c (playerDeck s'))
         /\ (inStep state -> inStep s')
         /\ phase s' = phase state /\ message s' = message state).
Proof.
  intros effs s' cost. subst s' effs cost. unfold buyUpgrade. split.
  - intros [Hnone | Hpoor].
    + rewrite Hnone. reflexivity.
    + destruct (selected sel); [|reflexivity].
      apply Qltb_true in Hpoor. rewrite Hpoor. reflexivity.
  - intros id Hsel Hrich. rewrite Hsel.
    apply Qltb_false in Hrich. rewrite Hrich.
    set (upgradeIt := fun c => if idIs id c then addUpgrade upgrade c else c).
    assert (Hcards : playerCards
                       (after [setState (fun prev =>
                                 prev
                                 |> set_essence
                                      (essence prev
                                       - upgradeCost state globalState upgrade)
                                 |> set_playerDeck
                                      (map upgradeIt (playerDeck state))
                                 |> set_drawPile (map upgradeIt (drawPile prev))
                                 |> set_discardPile
                                      (map upgradeIt (discardPile prev))
                                 |> set_playerHand
                                      (map upgradeIt (playerHand prev)))]
                          state)
                     = map upgradeIt (playerCards state)).
    { unfold playerCards. cbn. rewrite !map_app. reflexivity. }
    split; [reflexivity|]. split; [reflexivity|]. split; [exact Hcards|].
    split; [apply (map_upgrade_ids upgrade id)|].
    split; [rewrite Hcards; apply (map_upgrade_ids upgrade id)|].
    split.
    { apply score_from_values; apply (map_upgrade_ids upgrade id). }
    split.
    { intros c Hin Hid. cbn. apply in_map_iff. exists c.
      split; [|exact Hin]. unfold upgradeIt, idIs.
      rewrite Hid, String.eqb_refl. reflexivity. }
    split.
    { intros c Hin Hid. cbn. apply in_map_iff. exists c.
      split; [|exact Hin]. unfold upgradeIt, idIs.
      apply String.eqb_neq in Hid. rewrite Hid. reflexivity. }
    split; [|split; reflexivity].
    unfold inStep. intros Hstep. rewrite Hcards. cbn [after applyEffects].
    cbn [playerDeck set_playerHand set_discardPile set_drawPile set_playerDeck].
    apply Permutation_map, Hstep.
Qed.

Lemma buyUpgrade_spec_witness :
  let id := "10-spades-k3v9x0q2a" in
  let s' := after (buyUpgrade forgeState noHacks (Some id) lucky_charm)
              forgeState in
  selected (Some id) = Some id
  /\ upgradeCost forgeState noHacks lucky_charm <= essence forgeState
  /\ essence s' == 480
  /\ inStep forgeState
  /\ inStep s'
  /\ map PlayingCard.upgrades (firstn 2 (playerDeck s')) = [[lucky_charm]; []].
Proof.
  intros id s'.
  assert (Hsel : selected (Some id) = Some id) by reflexivity.
  assert (Hrich : upgradeCost forgeState noHacks lucky_charm
                  <= essence forgeState) by (vm_compute; discriminate).
  assert (Hstep : inStep forgeState) by (unfold inStep; reflexivity).
  destruct (buyUpgrade_spec forgeState noHacks (Some id) lucky_charm)
    as (_ & Hbuy).
  destruct (Hbuy id Hsel Hrich) as (_ & _ & _ & _ & _ & _ & _ & _ & Hkeep & _).
  split; [exact Hsel|]. split; [exact Hrich|]. split; [reflexivity|].
  split; [exact Hstep|]. split; [exact (Hkeep Hstep) | reflexivity].
Defined.

Lemma filter_distinct_id (id : string) (l : list PlayingCard) :
  NoDup (cardIds l) ->
  (List.length l <= S (List.length (filter (fun c => negb (idIs id c)) l)))%nat
  /\ (forall c, In c l -> PlayingCard.id c = id ->
                S (List.length (filter (fun c => negb (idIs id c)) l))
                = List.length l).
Proof.
  induction l as [|x l IH]; intros Hnd.
  - split; [cbn; lia | intros c []].
  - cbn in Hnd. inversion Hnd as [|y l' Hnotin Hnd']. subst.
    destruct (IH Hnd') as [Hle Heq]. cbn [filter].
    destruct (idIs id x) eqn:Hx; cbn [negb List.length].
    + assert (Hall : filter (fun c => negb (idIs id c)) l = l).
      { apply forallb_filter_id. apply forallb_forall. intros c Hc.
        apply negb_true_iff. unfold idIs in *. apply String.eqb_eq in Hx.
        apply String.eqb_neq. intros Hid. apply Hnotin.
        unfold cardIds. apply in_map_iff. exists c.
        split; [congruence | exact Hc]. }
      rewrite Hall. split; [lia | intros; reflexivity].
    + split; [lia|]. intros c [<-|Hc] Hid.
      * unfold idIs in Hx. rewrite Hid, String.eqb_refl in Hx. discriminate.
      * rewrite (Heq c Hc Hid). reflexivity.
Qed.

(** X20.  With distinct card ids in the master deck, [purgeCard] removes
    exactly one card when the selected card is in the deck, and the master
    deck never drops below five cards through it.  A master deck that held
    exactly the cards of the piles and the hand still does after a purge,
    as long as no card of the hand has the selected id. *)
Theorem purgeCard_keeps_deck (state : GameState) (sel : option string)
    (Hids : NoDup (cardIds (playerDeck state)))
    (Hsize : (5 <= List.length (playerDeck state))%nat) :
  let s' := after (purgeCard state sel) state in
  (5 <= List.length (playerDeck s'))%nat
  /\ (List.length (playerDeck state)
      <= S (List.length (playerDeck s')))%nat
  /\ NoDup (cardIds (playerDeck s'))
  /\ (forall id c,
         selected sel = Some id ->
         In c (playerDeck state) -> PlayingCard.id c = id ->
         (5 < List.length (playerDeck state))%nat ->
         inject_Z (purgeCost state) <= essence state ->
         S (List.length (playerDeck s')) = List.length (playerDeck state)
         /\ ~ In c (playerDeck s'))
  /\ (inStep state ->
      (forall id c, selected sel = Some id -> In c (playerHand state) ->
                    PlayingCard.id c <> id) ->
      inStep s').
Proof.
  intros s'. subst s'. unfold purgeCard.
  destruct (selected sel) as [id|] eqn:Hsel.
  2: { cbn. split; [exact Hsize|]. split; [lia|]. split; [exact Hids|].
       split; [intros id c Hid; discriminate Hid | auto]. }
  destruct (Nat.leb_spec (List.length (playerDeck state)) 5) as [Hsmall|Hbig].
  { cbn. split; [exact Hsize|]. split; [lia|]. split; [exact Hids|].
    split; [intros; lia | auto]. }
  destruct (Qltb (essence state) (inject_Z (purgeCost state))) eqn:Hpoor.
  { cbn. split; [exact Hsize|]. split; [lia|]. split; [exact Hids|].
    split; [|auto]. intros id' c _ _ _ _ Hrich.
    apply Qltb_true in Hpoor. exfalso. exact (Qlt_not_le _ _ Hpoor Hrich). }
  destruct (filter_distinct_id id (playerDeck state) Hids) as [Hle Hone].
  cbn [after applyEffects playerDeck set_essence set_playerDeck set_drawPile
         set_discardPile set_message].
  split; [lia|]. split; [exact Hle|]. split.
  { unfold cardIds. apply filter_keeps_distinct. exact Hids. }
  split.
  - intros id' c Hid' Hin Hc _ _. injection Hid' as <-.
    split; [exact (Hone c Hin Hc)|].
    intros Hkept. apply filter_In in Hkept. destruct Hkept as [_ Hk].
    unfold idIs in Hk. rewrite Hc, String.eqb_refl in Hk. discriminate Hk.
  - unfold inStep, playerCards. intros Hstep Hhand.
    cbn [drawPile discardPile playerHand playerDeck set_essence set_playerDeck
           set_drawPile set_discardPile set_message].
    assert (Hkeep : filter (fun c => negb (idIs id c)) (playerHand state)
                    = playerHand state).
    { apply forallb_filter_id. apply forallb_forall. intros c Hc.
      apply negb_true_iff, String.eqb_neq. exact (Hhand id c eq_refl Hc). }
    apply Permutation_trans
      with (filter (fun c => negb (idIs id c))
              (drawPile state ++ discardPile state ++ playerHand state));
      [|rewrite !filter_app, Hkeep; reflexivity].
    clear - Hstep. revert Hstep.
    generalize (drawPile state ++ discardPile state ++ playerHand state).
    generalize (playerDeck state). intros l l' Hperm.
    induction Hperm as [|x a b _ IH|x y a|a b c _ IH1 _ IH2].
    + constructor.
    + cbn. destruct (negb (idIs id x)); [constructor|]; exact IH.
    + cbn. destruct (negb (idIs id x)), (negb (idIs id y));
        try reflexivity. apply perm_swap.
    + exact (Permutation_trans IH1 IH2).
Qed.

Lemma purgeCard_keeps_deck_witness :
  let id := "10-spades-k3v9x0q2a" in
  let s' := after (purgeCard forgeState (Some id)) forgeState in
  NoDup (cardIds (playerDeck forgeState))
  /\ (5 <= List.length (playerDeck forgeState))%nat
  /\ (5 <= List.length (playerDeck s'))%nat
  /\ inStep forgeState
  /\ inStep s'
  /\ List.length (playerDeck s') = 5%nat.
Proof.
  intros id s'.
  assert (Hids : NoDup (cardIds (playerDeck forgeState))).
  { cbn. repeat (constructor;
                 [cbn [In]; intros H;
                  repeat (destruct H as [H|H]; [discriminate H|]); exact H|]).
    constructor. }
  assert (Hsize : (5 <= List.length (playerDeck forgeState))%nat)
    by (vm_compute; lia).
  assert (Hstep : inStep forgeState) by (unfold inStep; reflexivity).
  destruct (@purgeCard_keeps_deck forgeState (Some id) Hids Hsize)
    as (Hfloor & _ & _ & _ & Hkeep).
  split; [exact Hids|]. split; [exact Hsize|]. split; [exact Hfloor|].
  split; [exact Hstep|]. split; [|reflexivity].
  apply Hkeep; [exact Hstep|]. intros id' c _ [].
Defined.

(* ------------------------------------------------------------------ *)
(** ** The meta shop and the bet buttons *)

(** X21.  [buyMetaUpgrade] buys a hack only when the fragments cover its
    cost and the hack is not owned: then it takes the cost and adds the
    hack's id at the end of the unlocked hacks, and otherwise it queues
    nothing.  So fragments that are not negative stay so, hack ids that are
    distinct stay distinct, the run counter is never changed, and a second
    purchase of the same hack does nothing. *)
Theorem buyMetaUpgrade_spec (globalState : GlobalState) (upgrade : MetaUpgrade)
    (Hfragments : 0 <= fragments globalState)
    (Hdistinct : NoDup (unlockedHacks globalState)) :
  let effs := buyMetaUpgrade globalState upgrade in
  let g' := applyGlobal effs globalState in
  0 <= fragments g'
  /\ NoDup (unlockedHacks g')
  /\ totalRuns g' = totalRuns globalState
  /\ (fragments globalState < MetaUpgrade.cost upgrade
      \/ hasHack globalState (MetaUpgrade.id upgrade) = true ->
      effs = [])
  /\ (MetaUpgrade.cost upgrade <= fragments globalState ->
      hasHack globalState (MetaUpgrade.id upgrade) = false ->
      fragments g' = fragments globalState - MetaUpgrade.cost upgrade
      /\ unlockedHacks g'
         = unlockedHacks globalState ++ [MetaUpgrade.id upgrade]
      /\ hasHack g' (MetaUpgrade.id upgrade) = true
      /\ buyMetaUpgrade g' upgrade = []).
Proof.
  intros effs g'. subst g' effs. unfold buyMetaUpgrade, Qgeb.
  destruct (Qle_bool (MetaUpgrade.cost upgrade) (fragments globalState))
    eqn:Hrich;
    destruct (hasHack globalState (MetaUpgrade.id upgrade)) eqn:Hhas;
    cbn [andb negb applyGlobal fragments unlockedHacks totalRuns].
  - split; [exact Hfragments|]. split; [exact Hdistinct|].
    split; [reflexivity|]. split; [reflexivity|]. intros _ H. discriminate H.
  - split.
    { apply spend_keeps_nonneg. unfold Qltb. rewrite Hrich. reflexivity. }
    split.
    { apply NoDup_app; [exact Hdistinct | repeat constructor; intros [] |].
      intros x Hx [<-|[]]. unfold hasHack, includes in Hhas.
      assert (Hyes : existsb (String.eqb (MetaUpgrade.id upgrade))
                       (unlockedHacks globalState) = true).
      { apply existsb_exists. exists (MetaUpgrade.id upgrade).
        split; [exact Hx | apply String.eqb_refl]. }
      congruence. }
    split; [reflexivity|]. split.
    { intros [Hpoor | H]; [|discriminate H].
      apply Qle_bool_iff in Hrich. exfalso. exact (Qlt_not_le _ _ Hpoor Hrich). }
    intros _ _. split; [reflexivity|]. split; [reflexivity|].
    assert (Hnow : hasHack
                     {| fragments := fragments globalState
                                     - MetaUpgrade.cost upgrade;
                        unlockedHacks := unlockedHacks globalState
                                         ++ [MetaUpgrade.id upgrade];
                        totalRuns := totalRuns globalState |}
                     (MetaUpgrade.id upgrade) = true).
    { unfold hasHack, includes. cbn [unlockedHacks].
      rewrite existsb_app. cbn. rewrite String.eqb_refl, orb_true_r.
      reflexivity. }
    split; [exact Hnow|]. rewrite Hnow, andb_false_r. reflexivity.
  - split; [exact Hfragments|]. split; [exact Hdistinct|].
    split; [reflexivity|]. split; [reflexivity|].
    intros H. apply Qle_bool_iff in H. congruence.
  - split; [exact Hfragments|]. split; [exact Hdistinct|].
    split; [reflexivity|]. split; [reflexivity|].
    intros H. apply Qle_bool_iff in H. congruence.
Qed.

Lemma buyMetaUpgrade_spec_witness :
  let g' := applyGlobal (buyMetaUpgrade richGlobal threat_dampener)
              richGlobal in
  0 <= fragments richGlobal
  /\ NoDup (unlockedHacks richGlobal)
  /\ MetaUpgrade.cost threat_dampener <= fragments richGlobal
  /\ hasHack richGlobal (MetaUpgrade.id threat_dampener) = false
  /\ fragments g' == 15
  /\ unlockedHacks g' = ["priority_access"; "threat_dampener"]
  /\ buyMetaUpgrade g' threat_dampener = [].
Proof.
  intros g'.
  assert (Hfragments : 0 <= fragments richGlobal) by (vm_compute; discriminate).
  assert (Hdistinct : NoDup (unlockedHacks richGlobal))
    by (repeat constructor; intros []).
  assert (Hrich : MetaUpgrade.cost threat_dampener <= fragments richGlobal)
    by (vm_compute; discriminate).
  assert (Hnew : hasHack richGlobal (MetaUpgrade.id threat_dampener) = false)
    by reflexivity.
  destruct (@buyMetaUpgrade_spec richGlobal threat_dampener Hfragments
              Hdistinct) as (_ & _ & _ & _ & Hbuy).
  destruct (Hbuy Hrich Hnew) as (_ & _ & _ & Hagain).
  split; [exact Hfragments|]. split; [exact Hdistinct|].
  split; [exact Hrich|]. split; [exact Hnew|].
  split; [reflexivity|]. split; [reflexivity | exact Hagain].
Defined.

(** X22.  The [-] button never takes the bet below 10, and the [+] button
    never takes it above the credits: after [+] the Deal button is enabled
    and [placeBet] accepts the bet.  [-] gives the bet less 10 when that is
    at least 10, and 10 otherwise; [+] gives the bet plus 10 when the
    credits cover it, and the credits otherwise.  So a bet of at least 10
    is lowered, by at most 10, and a bet within the credits is raised, by
    at most 10; but [-] raises a bet below 10 to 10, and [+] cuts a bet
    above the credits (one kept from an earlier round) down to the
    credits, however far that is. *)
Theorem bet_buttons (state : GameState) (betAmount : Q) :
  let down := applyBet (betMinus betAmount) betAmount in
  let up := applyBet (betPlus state betAmount) betAmount in
  10 <= down
  /\ (20 <= betAmount -> down == betAmount - 10)
  /\ (betAmount <= 20 -> down == 10)
  /\ (10 <= betAmount -> betAmount - 10 <= down /\ down <= betAmount)
  /\ (betAmount < 10 -> betAmount < down)
  /\ up <= credits state
  /\ dealDisabled state up = false
  /\ (betAmount + 10 <= credits state -> up == betAmount + 10)
  /\ (credits state <= betAmount + 10 -> up == credits state)
  /\ (betAmount <= credits state -> betAmount <= up /\ up <= betAmount + 10)
  /\ (credits state < betAmount -> up < betAmount).
Proof.
  intros down up. subst down up.
  cbn [applyBet betMinus betPlus]. unfold Math_max, Math_min, dealDisabled.
  assert (Hup : Math_min (credits state) (betAmount + 10) <= credits state).
  { unfold Math_min.
    destruct (Qle_bool (credits state) (betAmount + 10)) eqn:E.
    - apply Qle_refl.
    - apply Qlt_le_weak, Qnot_le_lt. intros H.
      apply Qle_bool_iff in H. congruence. }
  unfold Math_min in Hup.
  destruct (Qle_bool 10 (betAmount - 10)) eqn:Edown;
    destruct (Qle_bool (credits state) (betAmount + 10)) eqn:Eup;
    try (apply Qle_bool_iff in Edown);
    try (apply Qle_bool_iff in Eup);
    try (assert (Hlow : betAmount - 10 < 10)
          by (apply Qnot_le_lt; intros H; apply Qle_bool_iff in H;
              congruence));
    try (assert (Hroom : betAmount + 10 < credits state)
          by (apply Qnot_le_lt; intros H; apply Qle_bool_iff in H;
              congruence));
    (split; [lra|]); (split; [intros; lra|]); (split; [intros; lra|]);
    (split; [intros; lra|]); (split; [intros; lra|]); (split; [lra|]);
    (split; [apply Qltb_false; lra|]);
    (split; [intros; lra|]); (split; [intros; lra|]);
    (split; [intros; lra|]); intros; lra.
Qed.

Lemma bet_buttons_witness :
  20 <= 30 /\ 30 <= credits tableState
  /\ applyBet (betMinus 30) 30 == 20
  /\ 30 <= applyBet (betPlus tableState 30) 30 <= 40
  /\ credits tableState < 200
  /\ applyBet (betPlus tableState 200) 200 < 200
  /\ applyBet (betPlus tableState 200) 200 == 90
  /\ 4 < 10
  /\ 4 < applyBet (betMinus 4) 4
  /\ applyBet (betMinus 4) 4 == 10.
Proof.
  assert (Hbig : 20 <= 30) by (vm_compute; discriminate).
  assert (Hin : 30 <= credits tableState) by (vm_compute; discriminate).
  assert (Hover : credits tableState < 200) by reflexivity.
  assert (Hsmall : 4 < 10) by reflexivity.
  destruct (bet_buttons tableState 30)
    as (_ & Hdown & _ & _ & _ & _ & _ & _ & _ & Hraise & _).
  destruct (bet_buttons tableState 200)
    as (_ & _ & _ & _ & _ & _ & _ & _ & Hcut & _ & Hfall).
  destruct (bet_buttons tableState 4)
    as (_ & _ & Hfloor & _ & Hrise & _).
  split; [exact Hbig|]. split; [exact Hin|].
  split; [exact (Hdown Hbig)|]. split; [exact (Hraise Hin)|].
  split; [exact Hover|]. split; [exact (Hfall Hover)|].
  split; [apply Hcut; vm_compute; discriminate|].
  split; [exact Hsmall|]. split; [exact (Hrise Hsmall)|].
  apply Hfloor. vm_compute. discriminate.
Defined.

(* ------------------------------------------------------------------ *)
(** ** Bust and 21 hooks *)

Lemma sumQ_app (a b : list Q) : sumQ (a ++ b) == sumQ a + sumQ b.
Proof.
  unfold sumQ. induction a as [|x a IH]; cbn [app fold_right].
  - ring.
  - rewrite IH. ring.
Qed.

Lemma hookUpgrade_fold (busted : bool) (pScore : Z) (us : list CardUpgrade)
    (acc : Q * Q) :
  let out := fold_left (hookUpgrade busted pScore) us acc in
  let values := fun kind =>
    map CardUpgrade.value
      (filter (fun u => EffectType_eqb (CardUpgrade.effectType u) kind) us) in
  fst out == fst acc + (if busted then sumQ (values on_bust_essence) else 0)
  /\ snd out
     == snd acc + (if (pScore =? 21)%Z then sumQ (values on_21_credits) else 0).
Proof.
  revert acc. induction us as [|u us IH]; intros [e c].
  - unfold sumQ. cbn [fold_left filter map fold_right fst snd].
    destruct busted, (pScore =? 21)%Z; split; ring.
  - cbn [fold_left]. specialize (IH (hookUpgrade busted pScore (e, c) u)).
    cbv zeta in IH. destruct IH as [IH1 IH2]. cbv zeta.
    rewrite IH1, IH2. unfold hookUpgrade, sumQ. cbn [filter fst snd].
    destruct busted, (pScore =? 21)%Z,
      (EffectType_eqb (CardUpgrade.effectType u) on_bust_essence),
      (EffectType_eqb (CardUpgrade.effectType u) on_21_credits);
      cbn [andb map fst snd fold_right]; split; ring.
Qed.

(** X23.  The hooks of a resolution pay whatever the outcome.  A busted
    round earns the sum of the on-bust-essence upgrades of the hand and an
    unbusted one none; a hand that scores exactly 21 earns the sum of its
    on-21-credits upgrades and any other score none.  Several such
    upgrades add up, on one card or on several. *)
Theorem round_hooks (busted : bool) (pScore : Z) (pHand : list PlayingCard) :
  let hk := hooks busted pScore pHand in
  fst hk == (if busted then sumQ (kindValues on_bust_essence pHand) else 0)
  /\ snd hk
     == (if (pScore =? 21)%Z then sumQ (kindValues on_21_credits pHand)
         else 0)
  /\ (forall more,
         fst (hooks busted pScore (pHand ++ more))
         == fst hk + fst (hooks busted pScore more)
         /\ snd (hooks busted pScore (pHand ++ more))
            == snd hk + snd (hooks busted pScore more)).
Proof.
  assert (Hgen : forall hand acc,
             let out := fold_left
                          (fun acc c =>
                             fold_left (hookUpgrade busted pScore)
                               (PlayingCard.upgrades c) acc) hand acc in
             fst out
             == fst acc + (if busted
                           then sumQ (kindValues on_bust_essence hand) else 0)
             /\ snd out
                == snd acc + (if (pScore =? 21)%Z
                              then sumQ (kindValues on_21_credits hand)
                              else 0)).
  { induction hand as [|c hand IH]; intros acc.
    - unfold sumQ. cbn [fold_left kindValues flat_map fold_right].
      destruct busted, (pScore =? 21)%Z; split; ring.
    - cbn [fold_left].
      specialize (IH (fold_left (hookUpgrade busted pScore)
                        (PlayingCard.upgrades c) acc)).
      cbv zeta in IH. destruct IH as [IH1 IH2].
      destruct (hookUpgrade_fold busted pScore (PlayingCard.upgrades c) acc)
        as [Hc1 Hc2].
      cbv zeta. rewrite IH1, IH2, Hc1, Hc2.
      unfold kindValues. cbn [flat_map]. fold (kindValues on_bust_essence hand).
      fold (kindValues on_21_credits hand).
      destruct busted, (pScore =? 21)%Z; rewrite ?sumQ_app; split; ring. }
  intros hk. subst hk. unfold hooks.
  destruct (Hgen pHand (0, 0)) as [H1 H2]. cbn [fst snd] in H1, H2.
  split; [rewrite H1; ring|]. split; [rewrite H2; ring|].
  intros more. rewrite fold_left_app.
  destruct (Hgen more (fold_left
                         (fun acc c => fold_left (hookUpgrade busted pScore)
                                         (PlayingCard.upgrades c) acc)
                         pHand (0, 0))) as [M1 M2].
  destruct (Hgen more (0, 0)) as [N1 N2]. cbn [fst snd] in N1, N2.
  rewrite M1, M2, N1, N2. split; ring.
Qed.

(* ------------------------------------------------------------------ *)
(** ** The fragment award *)

Lemma resolveRound_global (random : nat -> Q)
    (Array_sort : (CardUpgrade -> CardUpgrade -> Rand Q)
                  -> list CardUpgrade -> Rand (list CardUpgrade))
    (state prev : GameState) (pHand dHand : list PlayingCard) (bet : Q)
    (busted : bool) (n : nat) (globalState : GlobalState) :
  let hk := hooks busted (calculateHandScore pHand) pHand in
  globalAfter
    (fst (resolveRound random Array_sort state pHand dHand bet busted n))
    prev globalState
  = fold_left (fun g f => f g)
      (awardFragments (roundPayout random state pHand dHand bet busted n)
         (snd hk) prev)
      globalState.
Proof.
  unfold resolveRound, roundPayout, roundVerdict, bind.
  destruct (hooks busted _ pHand) as [extraEssence extraCredits].
  destruct (adjudicate random state pHand dHand bet busted n) as [v n1].
  cbn [fst snd].
  destruct (progression random Array_sort state v n1) as [g n2].
  reflexivity.
Qed.

Lemma fragmentsEarned_floor (prev : GameState) :
  let raw := inject_Z (houseLevel prev) * 5 + essence prev / 10 in
  fragmentsEarned prev = inject_Z (Qfloor raw)
  /\ fragmentsEarned prev <= raw
  /\ raw < fragmentsEarned prev + 1
  /\ (0 <= essence prev ->
      inject_Z (houseLevel prev) * 5 <= fragmentsEarned prev).
Proof.
  intros raw. unfold fragmentsEarned, Math_floor. fold raw.
  split; [reflexivity|]. split; [apply Qfloor_le|]. split.
  - pose proof (Qlt_floor raw) as Hlt.
    rewrite inject_Z_plus in Hlt. exact Hlt.
  - intros Hess.
    assert (Hwhole : inject_Z (houseLevel prev) * 5
                     == inject_Z (houseLevel prev * 5)).
    { rewrite inject_Z_mult. reflexivity. }
    rewrite Hwhole. rewrite <- Zle_Qle.
    rewrite <- (Qfloor_Z (houseLevel prev * 5)).
    apply Qfloor_resp_le. rewrite <- Hwhole. subst raw.
    assert (Hten : 0 <= essence prev / 10).
    { apply Qle_shift_div_l; [reflexivity|]. lra. }
    lra.
Qed.

(** X24.  A resolution that leaves fewer than 10 credits ends the run and
    awards fragments: the updater adds the whole part of five times the
    house level plus a tenth of the essence to the stored fragments, both
    taken from the state [prev] it runs on, before this round's essence
    is added.  A resolution that leaves 10 credits or more does not touch
    the global state.  Unlocked hacks and the run counter are never
    changed, and with a house level and an essence that are not negative
    the award is at least five per level, so the fragments do not fall. *)
Theorem resolveRound_awards_fragments (random : nat -> Q)
    (Array_sort : (CardUpgrade -> CardUpgrade -> Rand Q)
                  -> list CardUpgrade -> Rand (list CardUpgrade))
    (state prev : GameState) (pHand dHand : list PlayingCard) (bet : Q)
    (busted : bool) (n : nat) (globalState : GlobalState) :
  let run := resolveRound random Array_sort state pHand dHand bet busted n in
  let s' := after (fst run) prev in
  let g' := globalAfter (fst run) prev globalState in
  let raw := inject_Z (houseLevel prev) * 5 + essence prev / 10 in
  (credits s' < 10 ->
   phase s' = game_over
   /\ fragments g' = fragments globalState + fragmentsEarned prev)
  /\ (10 <= credits s' -> g' = globalState)
  /\ unlockedHacks g' = unlockedHacks globalState
  /\ totalRuns g' = totalRuns globalState
  /\ fragmentsEarned prev = inject_Z (Qfloor raw)
  /\ (fragmentsEarned prev <= raw /\ raw < fragmentsEarned prev + 1)
  /\ ((0 <= houseLevel prev)%Z -> 0 <= essence prev ->
      inject_Z (houseLevel prev) * 5 <= fragmentsEarned prev
      /\ fragments globalState <= fragments g').
Proof.
  intros run s' g' raw.
  pose proof (resolveRound_after random Array_sort state prev pHand dHand bet
                busted n) as [Hafter _].
  pose proof (resolveRound_global random Array_sort state prev pHand dHand bet
                busted n globalState) as Hglobal.
  cbv zeta in Hafter, Hglobal. fold run in Hafter, Hglobal.
  fold s' in Hafter. fold g' in Hglobal.
  set (g := fst (progression random Array_sort state _ _)) in *.
  assert (Hcredits :
    credits s'
    = credits prev + roundPayout random state pHand dHand bet busted n
      + snd (hooks busted (calculateHandScore pHand) pHand))
    by (rewrite Hafter; reflexivity).
  assert (Hphase :
    phase s'
    = if Qltb (credits s') 10 then game_over else nextPhase g)
    by (rewrite Hcredits, Hafter; reflexivity).
  unfold awardFragments in Hglobal. rewrite <- Hcredits in Hglobal.
  destruct (fragmentsEarned_floor prev) as (Hfloor & Hle & Hlt & Hlevel).
  fold raw in Hfloor, Hle, Hlt.
  destruct (Qltb (credits s') 10) eqn:Hbroke.
  - apply Qltb_true in Hbroke. cbn [fold_left] in Hglobal.
    split; [intros _; split; [exact Hphase | rewrite Hglobal; reflexivity]|].
    split; [intros Hrich; exfalso; exact (Qlt_not_le _ _ Hbroke Hrich)|].
    split; [rewrite Hglobal; reflexivity|].
    split; [rewrite Hglobal; reflexivity|].
    split; [exact Hfloor|]. split; [split; assumption|].
    intros Hlev Hess. specialize (Hlevel Hess). split; [exact Hlevel|].
    rewrite Hglobal. cbn [fragments].
    assert (Hzero : 0 <= inject_Z (houseLevel prev) * 5).
    { rewrite Zle_Qle in Hlev. change (inject_Z 0) with 0 in Hlev. lra. }
    lra.
  - apply Qltb_false in Hbroke. cbn [fold_left] in Hglobal.
    split; [intros Hpoor; exfalso; exact (Qlt_not_le _ _ Hpoor Hbroke)|].
    split; [intros _; exact Hglobal|].
    split; [rewrite Hglobal; reflexivity|].
    split; [rewrite Hglobal; reflexivity|].
    split; [exact Hfloor|]. split; [split; assumption|].
    intros Hlev Hess. split; [exact (Hlevel Hess)|].
    rewrite Hglobal. apply Qle_refl.
Qed.

Lemma resolveRound_awards_fragments_witness :
  let run :=
    resolveRound zeroRandom keepOrder lastCredits (playerHand lastCredits)
      (dealerHand lastCredits) 10 false O in
  let s' := after (fst run) lastCredits in
  let g' := globalAfter (fst run) lastCredits richGlobal in
  credits s' < 10
  /\ (0 <= houseLevel lastCredits)%Z
  /\ 0 <= essence lastCredits
  /\ phase s' = game_over
  /\ fragmentsEarned lastCredits == 9
  /\ fragments g' == 45 + 9
  /\ fragments richGlobal <= fragments g'.
Proof.
  intros run s' g'.
  assert (Hbroke : credits s' < 10) by reflexivity.
  assert (Hlev : (0 <= houseLevel lastCredits)%Z) by discriminate.
  assert (Hess : 0 <= essence lastCredits) by discriminate.
  destruct (resolveRound_awards_fragments zeroRandom keepOrder lastCredits
              lastCredits (playerHand lastCredits) (dealerHand lastCredits)
              10 false O richGlobal)
    as (Hover & _ & _ & _ & _ & _ & Hgrow).
  fold run in Hover, Hgrow. fold s' in Hover. fold g' in Hover, Hgrow.
  destruct (Hover Hbroke) as [Hphase Hfrag].
  split; [exact Hbroke|]. split; [exact Hlev|]. split; [exact Hess|].
  split; [exact Hphase|]. split; [reflexivity|].
  split; [rewrite Hfrag; reflexivity|].
  exact (proj2 (Hgrow Hlev Hess)).
Defined.
